(** * NWACC municipal directory scrapers: a shallow embedding

  The development follows the Python sources of the repository:

  - [scrape_municipal_staff.py]  (two-phase staff scraper),
  - [civicplus_scraper.py]       (single-phase department/staff scraper),
  - [old stuff/government_website_finder.py] (the adaptive rate limiter).

  Python [int] is [Z]; Python [float] is an IEEE-754 binary64 value of
  [spec_float]; [str] is [string], a sequence of code points below 256.
  The network, the clock and the HTML parser are outside the program and
  enter as inputs. *)

From Stdlib Require Import ZArith List Bool Lia.
From Stdlib Require Import Strings.String Strings.Ascii DecimalString.
From Stdlib Require Import Floats.SpecFloat.
Import ListNotations.

Set Warnings "-register-all".

Local Open Scope Z_scope.

(** ** Python numbers *)

Module PyNum.

Definition prec : Z := 53.
Definition emax : Z := 1024.

(** [float(n)] for a Python integer. *)
Definition float_of_int (n : Z) : spec_float :=
  binary_normalize prec emax n 0 false.

(** A decimal literal [n/d] is read as the nearest double. *)
Definition float_of_ratio (n d : Z) : spec_float :=
  SFdiv prec emax (float_of_int n) (float_of_int d).

Definition fmul (x y : spec_float) : spec_float := SFmul prec emax x y.
Definition fsub (x y : spec_float) : spec_float := SFsub prec emax x y.
Definition flt (x y : spec_float) : bool := SFltb x y.
Definition fle (x y : spec_float) : bool := SFleb x y.

(** [range(lo, hi)] and [range(lo, hi, step)] for a positive step. *)
Definition range (lo hi : Z) : list Z :=
  map (fun k => lo + Z.of_nat k) (seq 0 (Z.to_nat (hi - lo))).

Definition range_step (lo hi step : Z) : list Z :=
  map (fun k => lo + step * Z.of_nat k)
      (seq 0 (Z.to_nat ((hi - lo + step - 1) / step))).

(** [int(x)] truncates toward zero; it raises on infinities and NaN,
    which is [None] here. *)
Definition int_of_float (x : spec_float) : option Z :=
  match x with
  | S754_zero _ => Some 0
  | S754_infinity _ => None
  | S754_nan => None
  | S754_finite s m e =>
      let mag := match e with
                 | Zneg p => Z.pos m / 2 ^ Z.pos p
                 | _ => Z.pos m * 2 ^ e
                 end in
      Some (if s then - mag else mag)
  end.

End PyNum.

(** ** The adaptive rate limiter ([SmartRateLimiter]) *)

Module RateLimiter.
Import PyNum.

Record SmartRateLimiter := mkLimiter {
  concurrent_limit : Z;
  min_concurrent : Z;
  max_concurrent : Z;
  request_delay : spec_float;
  backoff_factor : spec_float;
  speedup_factor : spec_float;
  consecutive_successes : Z;
  consecutive_failures : Z;
  total_requests : Z;
  rate_limited_requests : Z
}.

(** [__init__] *)
Definition init : SmartRateLimiter :=
  {| concurrent_limit := 15;
     min_concurrent := 3;
     max_concurrent := 50;
     request_delay := float_of_ratio 1 10;
     backoff_factor := float_of_ratio 7 10;
     speedup_factor := float_of_ratio 12 10;
     consecutive_successes := 0;
     consecutive_failures := 0;
     total_requests := 0;
     rate_limited_requests := 0 |}.

Definition can_increase_concurrency (r : SmartRateLimiter) : bool :=
  (5 <=? consecutive_successes r) && (concurrent_limit r <? max_concurrent r).

Definition should_decrease_concurrency (r : SmartRateLimiter) : bool :=
  2 <=? consecutive_failures r.

(** [int(self.concurrent_limit * factor)] *)
Definition scaled (limit : Z) (factor : spec_float) : option Z :=
  int_of_float (fmul (float_of_int limit) factor).

(** [record_success_batch]; [None] stands for an exception raised by
    [int()]. *)
Definition record_success_batch (r : SmartRateLimiter) (batch_size : Z)
  : option SmartRateLimiter :=
  let r1 :=
    {| concurrent_limit := concurrent_limit r;
       min_concurrent := min_concurrent r;
       max_concurrent := max_concurrent r;
       request_delay := request_delay r;
       backoff_factor := backoff_factor r;
       speedup_factor := speedup_factor r;
       consecutive_successes := consecutive_successes r + batch_size;
       consecutive_failures := 0;
       total_requests := total_requests r + batch_size;
       rate_limited_requests := rate_limited_requests r |} in
  if can_increase_concurrency r1 then
    match scaled (concurrent_limit r1) (speedup_factor r1) with
    | None => None
    | Some v =>
        Some {| concurrent_limit := Z.min (max_concurrent r1) v;
                min_concurrent := min_concurrent r1;
                max_concurrent := max_concurrent r1;
                request_delay := request_delay r1;
                backoff_factor := backoff_factor r1;
                speedup_factor := speedup_factor r1;
                consecutive_successes := 0;
                consecutive_failures := consecutive_failures r1;
                total_requests := total_requests r1;
                rate_limited_requests := rate_limited_requests r1 |}
    end
  else Some r1.

(** [record_rate_limit_batch] *)
Definition record_rate_limit_batch (r : SmartRateLimiter) (failed_count : Z)
  : option SmartRateLimiter :=
  let r1 :=
    {| concurrent_limit := concurrent_limit r;
       min_concurrent := min_concurrent r;
       max_concurrent := max_concurrent r;
       request_delay := request_delay r;
       backoff_factor := backoff_factor r;
       speedup_factor := speedup_factor r;
       consecutive_successes := 0;
       consecutive_failures := consecutive_failures r + failed_count;
       total_requests := total_requests r + failed_count;
       rate_limited_requests := rate_limited_requests r + failed_count |} in
  if should_decrease_concurrency r1 then
    match scaled (concurrent_limit r1) (backoff_factor r1) with
    | None => None
    | Some v =>
        Some {| concurrent_limit := Z.max (min_concurrent r1) v;
                min_concurrent := min_concurrent r1;
                max_concurrent := max_concurrent r1;
                request_delay := request_delay r1;
                backoff_factor := backoff_factor r1;
                speedup_factor := speedup_factor r1;
                consecutive_successes := consecutive_successes r1;
                consecutive_failures := 0;
                total_requests := total_requests r1;
                rate_limited_requests := rate_limited_requests r1 |}
    end
  else Some r1.

(** A batch report, as [process_batch_parallel] issues them. *)
Inductive report :=
| SuccessBatch (batch_size : Z)
| RateLimitBatch (failed_count : Z).

Definition record (r : SmartRateLimiter) (e : report) : option SmartRateLimiter :=
  match e with
  | SuccessBatch n => record_success_batch r n
  | RateLimitBatch n => record_rate_limit_batch r n
  end.

Fixpoint record_all (r : SmartRateLimiter) (es : list report)
  : option SmartRateLimiter :=
  match es with
  | [] => Some r
  | e :: es' =>
      match record r e with
      | None => None
      | Some r' => record_all r' es'
      end
  end.

(** A limiter with the constructor's bounds and factors. *)
Definition configured (r : SmartRateLimiter) : Prop :=
  min_concurrent r = 3 /\ max_concurrent r = 50 /\
  backoff_factor r = backoff_factor init /\
  speedup_factor r = speedup_factor init.

(** A configured limiter whose limit is within the bounds. *)
Definition in_bounds (r : SmartRateLimiter) : Prop :=
  configured r /\ 3 <= concurrent_limit r <= 50.

(** A limiter at 4, below its maximum. *)
Definition stuck (r : SmartRateLimiter) : Prop :=
  concurrent_limit r = 4 /\ max_concurrent r = 50 /\
  speedup_factor r = speedup_factor init.

End RateLimiter.

(** ** Python strings

  A [str] is a [string] whose characters are code points below 256. *)

Module PyStr.
Local Open Scope string_scope.
Local Open Scope nat_scope.

Definition code (c : ascii) : nat := nat_of_ascii c.

(** [str.isspace] on one character; also the class [\s] of [re]. *)
Definition isspace (c : ascii) : bool :=
  let n := code c in
  ((9 <=? n) && (n <=? 13)) || ((28 <=? n) && (n <=? 32))
  || (n =? 133) || (n =? 160).

Definition lower_char (c : ascii) : ascii :=
  let n := code c in
  if ((65 <=? n) && (n <=? 90))
     || ((192 <=? n) && (n <=? 222) && negb (n =? 215))
  then ascii_of_nat (n + 32) else c.

(** [s.lower()] *)
Fixpoint lower (s : string) : string :=
  match s with
  | EmptyString => EmptyString
  | String c s' => String (lower_char c) (lower s')
  end.

(** [s.startswith(p)] *)
Fixpoint startswith (s p : string) {struct p} : bool :=
  match p with
  | EmptyString => true
  | String a p' =>
      match s with
      | EmptyString => false
      | String b s' => Ascii.eqb a b && startswith s' p'
      end
  end.

(** [s[n:]] *)
Fixpoint drop (n : nat) (s : string) : string :=
  match n, s with
  | O, _ => s
  | S _, EmptyString => EmptyString
  | S n', String _ s' => drop n' s'
  end.

Fixpoint lstrip_by (p : ascii -> bool) (s : string) : string :=
  match s with
  | EmptyString => EmptyString
  | String c s' => if p c then lstrip_by p s' else s
  end.

Fixpoint rstrip_by (p : ascii -> bool) (s : string) : string :=
  match s with
  | EmptyString => EmptyString
  | String c s' =>
      match rstrip_by p s' with
      | EmptyString => if p c then EmptyString else String c EmptyString
      | r => String c r
      end
  end.

(** [s.strip()] *)
Definition strip (s : string) : string := rstrip_by isspace (lstrip_by isspace s).

(** [s.rstrip('/')] *)
Definition rstrip_slash (s : string) : string :=
  rstrip_by (Ascii.eqb "/") s.

(** [s.split(c)] for a one-character separator: never an empty list. *)
Fixpoint split (c : ascii) (s : string) : list string :=
  match s with
  | EmptyString => [EmptyString]
  | String a s' =>
      if Ascii.eqb a c then EmptyString :: split c s'
      else match split c s' with
           | [] => [String a EmptyString]
           | w :: ws => String a w :: ws
           end
  end.

(** [sep.join(l)] *)
Fixpoint join (sep : string) (l : list string) : string :=
  match l with
  | [] => EmptyString
  | [x] => x
  | x :: l' => x ++ sep ++ join sep l'
  end.

(** [sub in s] *)
Fixpoint contains (sub s : string) : bool :=
  startswith s sub ||
  match s with
  | EmptyString => false
  | String _ s' => contains sub s'
  end.

(** [c in s] for one character. *)
Fixpoint has_char (c : ascii) (s : string) : bool :=
  match s with
  | EmptyString => false
  | String a s' => Ascii.eqb a c || has_char c s'
  end.

(** [s.split(c, 1)] when [c] occurs in [s]: the text before the first
    occurrence and the text after it. *)
Fixpoint partition (c : ascii) (s : string) : option (string * string) :=
  match s with
  | EmptyString => None
  | String a s' =>
      if Ascii.eqb a c then Some (EmptyString, s')
      else match partition c s' with
           | None => None
           | Some (l, r) => Some (String a l, r)
           end
  end.

(** [s.replace(old, new)] for a non-empty [old]: occurrences are taken
    from the left and do not overlap.  [skip] counts the characters of
    the occurrence just replaced that are still to be passed over. *)
Fixpoint replace_from (skip : nat) (old new s : string) : string :=
  match s with
  | EmptyString => EmptyString
  | String c s' =>
      match skip with
      | S k => replace_from k old new s'
      | O =>
          if startswith s old
          then new ++ replace_from (String.length old - 1) old new s'
          else String c (replace_from 0 old new s')
      end
  end.

Definition replace (old new s : string) : string := replace_from 0 old new s.

(** [bool(s)]: a string is true when it is not empty. *)
Definition truthy (s : string) : bool :=
  match s with EmptyString => false | _ => true end.

(** [str(n)] for an integer. *)
Definition str_of_int (n : Z) : string :=
  DecimalString.NilZero.string_of_int (Z.to_int n).

End PyStr.

(** ** The two patterns of [extract_email_from_javascript]

  Each pattern is a sequence of literals, whitespace runs and one
  quote-free run; every repetition is followed by a character outside its
  class, so the greedy match is the only one and [re.search] is the first
  position where the sequence matches. *)

Module Pattern.
Import PyStr.
Local Open Scope string_scope.

(** The double quote character. *)
Definition dquote : ascii := ascii_of_nat 34.

Definition is_quote (c : ascii) : bool :=
  Ascii.eqb c dquote || Ascii.eqb c "'".

(** A literal, case folded when [ci] is set; the rest of the subject. *)
Fixpoint literal (ci : bool) (lit s : string) : option string :=
  match lit with
  | EmptyString => Some s
  | String l lit' =>
      match s with
      | EmptyString => None
      | String c s' =>
          if Ascii.eqb (if ci then lower_char c else c) l
          then literal ci lit' s' else None
      end
  end.

(** [\s*] *)
Definition spaces (s : string) : string := lstrip_by isspace s.

(** [\s+] *)
Definition spaces1 (s : string) : option string :=
  match s with
  | String c s' => if isspace c then Some (spaces s') else None
  | EmptyString => None
  end.

(** A quote character. *)
Definition quote (s : string) : option string :=
  match s with
  | String c s' => if is_quote c then Some s' else None
  | EmptyString => None
  end.

(** The longest run of characters that are not quotes. *)
Fixpoint run (s : string) : string * string :=
  match s with
  | EmptyString => (EmptyString, EmptyString)
  | String c s' =>
      if is_quote c then (EmptyString, s)
      else let (r, rest) := run s' in (String c r, rest)
  end.

(** A quoted group, [Q([^Q]+)Q] with [Q] the class of the two quote
    characters: the group and the rest. *)
Definition quoted (s : string) : option (string * string) :=
  match quote s with
  | None => None
  | Some s1 =>
      match run s1 with
      | (EmptyString, _) => None
      | (g, s2) =>
          match quote s2 with
          | None => None
          | Some s3 => Some (g, s3)
          end
      end
  end.

(** [var\s+NAME\s*=\s*Q([^Q]+)Q] with [re.IGNORECASE], anchored at the
    start of [s]; the result is group 1. *)
Definition var_assign_at (name s : string) : option string :=
  match literal true "var" s with
  | None => None
  | Some s1 =>
  match spaces1 s1 with
  | None => None
  | Some s2 =>
  match literal true name s2 with
  | None => None
  | Some s3 =>
  match literal true "=" (spaces s3) with
  | None => None
  | Some s4 =>
  match quoted (spaces s4) with
  | None => None
  | Some (g, _) => Some g
  end end end end end.

(** [re.search] of the pattern above. *)
Fixpoint search_var_assign (name s : string) : option string :=
  match var_assign_at name s with
  | Some g => Some g
  | None =>
      match s with
      | EmptyString => None
      | String _ s' => search_var_assign name s'
      end
  end.

(** [Q([^Q]+)Q\s*\+\s*Q@Q\s*\+\s*Q([^Q]+)Q], anchored at the start of
    [s]; groups 1 and 2. *)
Definition email_construct_at (s : string) : option (string * string) :=
  match quoted s with
  | None => None
  | Some (g1, s1) =>
  match literal false "+" (spaces s1) with
  | None => None
  | Some s2 =>
  match quote (spaces s2) with
  | None => None
  | Some s3 =>
  match literal false "@" s3 with
  | None => None
  | Some s4 =>
  match quote s4 with
  | None => None
  | Some s5 =>
  match literal false "+" (spaces s5) with
  | None => None
  | Some s6 =>
  match quoted (spaces s6) with
  | None => None
  | Some (g2, _) => Some (g1, g2)
  end end end end end end end.

Fixpoint search_email_construct (s : string) : option (string * string) :=
  match email_construct_at s with
  | Some g => Some g
  | None =>
      match s with
      | EmptyString => None
      | String _ s' => search_email_construct s'
      end
  end.

End Pattern.

(** ** The parsed page

  [BeautifulSoup(html, parser)] is outside the repository: a page is its
  text together with the tree the parser builds from it.  A
  [NavigableString] is a piece of text that [get_text] yields; comments
  and the like are not part of the tree. *)

Module Soup.
Import PyStr.
Local Open Scope string_scope.

Inductive node :=
| NavigableString (s : string)
| Tag (name : string) (attrs : list (string * string)) (contents : list node).

(** [tag.get(key)] *)
Fixpoint get (key : string) (attrs : list (string * string)) : option string :=
  match attrs with
  | [] => None
  | (k, v) :: attrs' => if String.eqb k key then Some v else get key attrs'
  end.

(** The node and everything below it, in document order. *)
Fixpoint subtree (n : node) : list node :=
  n :: match n with
       | NavigableString _ => []
       | Tag _ _ cs => flat_map subtree cs
       end.

(** [tag.descendants] *)
Definition descendants (n : node) : list node :=
  match n with
  | NavigableString _ => []
  | Tag _ _ cs => flat_map subtree cs
  end.

(** The whitespace-separated tokens of a [class] value. *)
Fixpoint tokens_from (cur : string) (s : string) : list string :=
  match s with
  | EmptyString => if truthy cur then [cur] else []
  | String c s' =>
      if isspace c
      then ((if truthy cur then [cur] else []) ++ tokens_from EmptyString s')%list
      else tokens_from (cur ++ String c EmptyString) s'
  end.

Definition classes (attrs : list (string * string)) : list string :=
  match get "class" attrs with
  | None => []
  | Some v => tokens_from EmptyString v
  end.

Definition has_class (c : string) (n : node) : bool :=
  match n with
  | NavigableString _ => false
  | Tag _ attrs _ => existsb (String.eqb c) (classes attrs)
  end.

Definition named (nm : string) (n : node) : bool :=
  match n with
  | NavigableString _ => false
  | Tag name _ _ => String.eqb name nm
  end.

Definition href (n : node) : option string :=
  match n with
  | NavigableString _ => None
  | Tag _ attrs _ => get "href" attrs
  end.

(** [href=True] *)
Definition has_href (n : node) : bool :=
  match href n with Some _ => true | None => false end.

(** [tag.find(...)] and [tag.find_all(...)] with a filter [p]. *)
Definition find (p : node -> bool) (n : node) : option node :=
  List.find p (descendants n).

Definition find_all (p : node -> bool) (n : node) : list node :=
  filter p (descendants n).

(** The strings of [get_text(sep, strip=True)]. *)
Definition stripped_strings (n : node) : list string :=
  flat_map (fun d => match d with
                     | NavigableString s =>
                         let t := strip s in if truthy t then [t] else []
                     | Tag _ _ _ => []
                     end) (descendants n).

(** [tag.get_text(sep, strip=True)] *)
Definition get_text (sep : string) (n : node) : string :=
  join sep (stripped_strings n).

(** [select('p:nth-child(10)')]: [pos] is the rank of [n] among the tag
    children of its parent. *)
Fixpoint select_p_nth_child_10 (pos : nat) (n : node) {struct n} : list node :=
  match n with
  | NavigableString _ => []
  | Tag name _ cs =>
      ((if Nat.eqb pos 10 && String.eqb name "p" then [n] else []) ++
       (fix children (i : nat) (l : list node) {struct l} : list node :=
          match l with
          | [] => []
          | c :: l' =>
              match c with
              | NavigableString _ => children i l'
              | Tag _ _ _ => select_p_nth_child_10 i c ++ children (S i) l'
              end
          end) 1%nat cs)%list
  end.

(** [select('.viewMap + p')]: [after] tells whether the preceding tag
    sibling of [n] carries the class [viewMap]. *)
Fixpoint select_viewMap_next_p (after : bool) (n : node) {struct n} : list node :=
  match n with
  | NavigableString _ => []
  | Tag name _ cs =>
      ((if after && String.eqb name "p" then [n] else []) ++
       (fix children (prev : bool) (l : list node) {struct l} : list node :=
          match l with
          | [] => []
          | c :: l' =>
              match c with
              | NavigableString _ => children prev l'
              | Tag _ _ _ =>
                  select_viewMap_next_p prev c ++ children (has_class "viewMap" c) l'
              end
          end) false cs)%list
  end.

(** A fetched page: the response text and its parse; [soup = None] when
    the parser raises. *)
Record page := mkPage {
  html_content : string;
  soup : option node
}.

End Soup.

(** ** [urllib.parse]

  The standard library's [urlparse], [urlunparse] and [urljoin], for
  [str] arguments (the rejection of malformed bracketed hosts is left
  out: such hosts do not occur below). *)

Module Urllib.
Import PyStr.
Local Open Scope string_scope.

Record ParseResult := mkParse {
  scheme : string;
  netloc : string;
  path : string;
  params : string;
  query : string;
  fragment : string
}.

Definition uses_relative : list string :=
  [""; "ftp"; "http"; "gopher"; "nntp"; "imap"; "wais"; "file"; "https";
   "shttp"; "mms"; "prospero"; "rtsp"; "rtspu"; "sftp"; "svn"; "svn+ssh";
   "ws"; "wss"].

Definition uses_netloc : list string :=
  [""; "ftp"; "http"; "gopher"; "nntp"; "telnet"; "imap"; "wais"; "file";
   "mms"; "https"; "shttp"; "snews"; "prospero"; "rtsp"; "rtspu"; "rsync";
   "svn"; "svn+ssh"; "sftp"; "nfs"; "git"; "git+ssh"; "ws"; "wss"].

Definition uses_params : list string :=
  [""; "ftp"; "hdl"; "prospero"; "http"; "imap"; "https"; "shttp"; "rtsp";
   "rtspu"; "sip"; "sips"; "mms"; "sftp"; "tel"].

Definition mem (s : string) (l : list string) : bool := existsb (String.eqb s) l.

Definition is_alpha (c : ascii) : bool :=
  let n := code c in
  ((65 <=? n) && (n <=? 90) || (97 <=? n) && (n <=? 122))%nat.

Definition is_digit (c : ascii) : bool :=
  let n := code c in ((48 <=? n) && (n <=? 57))%nat.

Definition scheme_char (c : ascii) : bool :=
  is_alpha c || is_digit c || Ascii.eqb c "+" || Ascii.eqb c "-" || Ascii.eqb c ".".

Fixpoint all_chars (p : ascii -> bool) (s : string) : bool :=
  match s with
  | EmptyString => true
  | String c s' => p c && all_chars p s'
  end.

(** The scheme before the first colon, if it is one, and the rest. *)
Definition split_scheme (url default : string) : string * string :=
  match partition ":" url with
  | Some (String c pre, rest) =>
      if is_alpha c && all_chars scheme_char pre
      then (lower (String c pre), rest)
      else (default, url)
  | _ => (default, url)
  end.

Definition is_delim (c : ascii) : bool :=
  Ascii.eqb c "/" || Ascii.eqb c "?" || Ascii.eqb c "#".

(** [_splitnetloc]: up to the first of [/], [?], [#]. *)
Fixpoint splitnetloc (s : string) : string * string :=
  match s with
  | EmptyString => (EmptyString, EmptyString)
  | String c s' =>
      if is_delim c then (EmptyString, s)
      else let (n, r) := splitnetloc s' in (String c n, r)
  end.

Definition cut (c : ascii) (s : string) : string * string :=
  match partition c s with
  | Some (a, b) => (a, b)
  | None => (s, EmptyString)
  end.

(** [_splitparams]: the parameters of the last path segment. *)
Definition splitparams (url : string) : string * string :=
  let segs := split "/" url in
  match partition ";" (last segs EmptyString) with
  | None => (url, EmptyString)
  | Some (a, b) => (join "/" (removelast segs ++ [a])%list, b)
  end.

(** [urlparse(url, scheme)] *)
Definition urlparse (url default : string) : ParseResult :=
  let (sch, url1) := split_scheme url default in
  let (loc, url2) :=
    if startswith url1 "//" then splitnetloc (drop 2 url1)
    else (EmptyString, url1) in
  let (url3, frag) := cut "#" url2 in
  let (url4, qry) := cut "?" url3 in
  let (pth, prm) :=
    if mem sch uses_params && has_char ";" url4 then splitparams url4
    else (url4, EmptyString) in
  {| scheme := sch; netloc := loc; path := pth; params := prm;
     query := qry; fragment := frag |}.

(** [urlunparse] *)
Definition urlunparse (r : ParseResult) : string :=
  let url := if truthy (params r) then path r ++ ";" ++ params r else path r in
  let url :=
    if truthy (netloc r)
       || (truthy (scheme r) && mem (scheme r) uses_netloc
           && negb (startswith url "//"))
    then "//" ++ netloc r ++
         (if truthy url && negb (startswith url "/") then "/" ++ url else url)
    else url in
  let url := if truthy (scheme r) then scheme r ++ ":" ++ url else url in
  let url := if truthy (query r) then url ++ "?" ++ query r else url in
  if truthy (fragment r) then url ++ "#" ++ fragment r else url.

(** The dot segments of [urljoin]: [acc] is the resolved path so far. *)
Fixpoint resolve (acc segments : list string) : list string :=
  match segments with
  | [] => acc
  | seg :: rest =>
      if String.eqb seg ".." then resolve (removelast acc) rest
      else if String.eqb seg "." then resolve acc rest
      else resolve (acc ++ [seg])%list rest
  end.

(** [segments[1:-1] = filter(None, segments[1:-1])] *)
Definition squeeze (segments : list string) : list string :=
  match segments with
  | first :: (_ :: _) as rest =>
      (first :: filter truthy (removelast rest) ++ [last rest EmptyString])%list
  | _ => segments
  end.

(** [urljoin(base, url)] *)
Definition urljoin (base url : string) : string :=
  if negb (truthy base) then url
  else if negb (truthy url) then base
  else
    let b := urlparse base "" in
    let u := urlparse url (scheme b) in
    if negb (String.eqb (scheme u) (scheme b)) || negb (mem (scheme u) uses_relative)
    then url
    else if mem (scheme u) uses_netloc && truthy (netloc u)
    then urlunparse u
    else
      let loc := if mem (scheme u) uses_netloc then netloc b else netloc u in
      if negb (truthy (path u)) && negb (truthy (params u))
      then urlunparse {| scheme := scheme u; netloc := loc; path := path b;
                         params := params b;
                         query := if truthy (query u) then query u else query b;
                         fragment := fragment u |}
      else
        let base_parts := split "/" (path b) in
        let base_parts :=
          if truthy (last base_parts EmptyString) then removelast base_parts
          else base_parts in
        let segments :=
          if startswith (path u) "/" then split "/" (path u)
          else squeeze (base_parts ++ split "/" (path u))%list in
        let resolved := resolve [] segments in
        let resolved :=
          if mem (last segments EmptyString) ["."; ".."]
          then (resolved ++ [EmptyString])%list else resolved in
        let joined := join "/" resolved in
        urlunparse {| scheme := scheme u; netloc := loc;
                      path := if truthy joined then joined else "/";
                      params := params u; query := query u;
                      fragment := fragment u |}.

(** *** Site addresses

    The addresses the properties below speak about: a scheme, [://], a host
    made of letters, digits, dots and hyphens, and trailing slashes. *)

Definition host_char (c : ascii) : bool :=
  is_alpha c || is_digit c || Ascii.eqb c "." || Ascii.eqb c "-".

Definition host_ok (host : string) : bool := truthy host && all_chars host_char host.

Fixpoint slashes (k : nat) : string :=
  match k with
  | O => ""
  | S k' => String "/" (slashes k')
  end.

(** The host with [www.] in front, unless it is there already. *)
Definition with_www (host : string) : string :=
  if startswith host "www." then host else "www." ++ host.

End Urllib.

(** ** Requests

  The network is outside the program: a request either raises or yields a
  response with a status; reading the body of a response may raise too. *)

Module Net.
Import Soup.

Inductive failure := TimeoutError | ClientError | OtherError.

Inductive attempt :=
| Raised (f : failure)
| Response (status : Z) (text : failure + page).

(** What a fetch function does besides returning. *)
Inductive event :=
| Request
| Politeness (seconds : spec_float)
| Backoff (seconds : Z).

Definition is_request (e : event) : bool :=
  match e with Request => true | _ => false end.

Definition requests (tr : list event) : nat := List.length (filter is_request tr).

(** The retry delays, in the order they were slept. *)
Fixpoint backoffs (tr : list event) : list Z :=
  match tr with
  | [] => []
  | Backoff d :: tr' => d :: backoffs tr'
  | _ :: tr' => backoffs tr'
  end.

(** Each delay is twice the one before. *)
Fixpoint doubling (ds : list Z) : bool :=
  match ds with
  | d1 :: ((d2 :: _) as ds') => (d2 =? 2 * d1) && doubling ds'
  | _ => true
  end.

(** No delay is shorter than the one before. *)
Fixpoint nondecreasing (ds : list Z) : bool :=
  match ds with
  | d1 :: ((d2 :: _) as ds') => (d1 <=? d2) && nondecreasing ds'
  | _ => true
  end.

(** [2 ** k] *)
Definition pow2 (k : nat) : Z := 2 ^ Z.of_nat k.

End Net.

(** ** [scrape_municipal_staff.py] *)

Module StaffScraper.
Import PyNum PyStr Pattern Soup Urllib Net.
Local Open Scope string_scope.

Definition BATCH_SIZE : nat := 500.
Definition AUTO_SAVE_INTERVAL : spec_float := float_of_int 300.
Definition EID_BATCH_SIZE : Z := 15.
Definition MAX_RETRIES : nat := 3.
Definition RETRY_DELAY : Z := 1.

(** *** The two-phase fetch functions

    [net k] is the outcome of the request of attempt [k]; the loops run
    over [range(retries)], [attempt] counting up and [remaining] down. *)

Fixpoint check_url_exists_loop (retries : nat) (net : nat -> attempt)
    (attempt remaining : nat) : option Z * list event :=
  match remaining with
  | O => (None, [])
  | S remaining' =>
      match net attempt with
      | Response status _ => (Some status, [Request])
      | Raised _ =>
          let (r, tr) := check_url_exists_loop retries net (S attempt) remaining' in
          (r, Request ::
              (if (S attempt <? retries)%nat then [Backoff RETRY_DELAY] else []) ++ tr)%list
      end
  end.

(** The attempts that end in an [except] clause of [fetch_content]. *)
Definition caught_get (a : attempt) : bool :=
  match a with
  | Raised _ => true
  | Response status (inl _) => (status =? 200)%Z
  | Response _ (inr _) => false
  end.

Definition check_url_exists_n (retries : nat) (net : nat -> attempt)
  : option Z * list event :=
  check_url_exists_loop retries net 0 retries.

Definition check_url_exists := check_url_exists_n MAX_RETRIES.

Fixpoint fetch_content_loop (retries : nat) (net : nat -> attempt)
    (attempt remaining : nat) : option page * list event :=
  match remaining with
  | O => (None, [])
  | S remaining' =>
      let retry :=
        let (r, tr) := fetch_content_loop retries net (S attempt) remaining' in
        (r, Request ::
            (if (S attempt <? retries)%nat then [Backoff RETRY_DELAY] else []) ++ tr)%list in
      match net attempt with
      | Response status text =>
          if (status =? 200)%Z then
            match text with
            | inr pg => (Some pg, [Request])
            | inl _ => retry
            end
          else (None, [Request])
      | Raised _ => retry
      end
  end.

Definition fetch_content_n (retries : nat) (net : nat -> attempt)
  : option page * list event :=
  fetch_content_loop retries net 0 retries.

Definition fetch_content := fetch_content_n MAX_RETRIES.

(** *** Extraction *)

Definition extract_email_from_javascript (html : string) : string :=
  match search_var_assign "wsd" html, search_var_assign "xsd" html with
  | Some username, Some domain => username ++ "@" ++ domain
  | _, _ =>
      match search_email_construct html with
      | Some (username, domain) => username ++ "@" ++ domain
      | None => ""
      end
  end.

Record staff_info := mkInfo {
  person : string;
  department : string;
  title : string;
  phone : string;
  email : string;
  url : string
}.

(** [[line.strip() for line in text.split('\n') if line.strip()]] *)
Definition nonblank_lines (text : string) : list string :=
  map strip (filter (fun line => truthy (strip line)) (split (ascii_of_nat 10) text)).

(** The loop over the lines: the last [Title:] and [Phone:] lines win. *)
Fixpoint scan_lines (lines : list string) (title phone : string) : string * string :=
  match lines with
  | [] => (title, phone)
  | line :: rest =>
      if startswith (lower line) "title:"
      then scan_lines rest (strip (drop 6 line)) phone
      else if startswith (lower line) "phone:"
      then
        let phone_text := strip (drop 6 line) in
        match rest with
        | next :: _ =>
            if truthy phone_text then scan_lines rest title phone_text
            else scan_lines rest title (strip next)
        | [] => scan_lines rest title phone_text
        end
      else scan_lines rest title phone
  end.

Definition is_anchor_with_href (n : node) : bool := named "a" n && has_href n.

Definition href_text (n : node) : string :=
  match href n with Some h => h | None => "" end.

(** A [mailto:] link: an anchor whose [href] starts with the scheme. *)
Definition is_mailto_anchor (n : node) : bool :=
  is_anchor_with_href n && startswith (href_text n) "mailto:".

(** The email of the biography block: its first anchor with an [href], if
    that is a [mailto:] link. *)
Definition bio_email (bio_text_elem : node) : string :=
  match find is_anchor_with_href bio_text_elem with
  | Some email_link =>
      if startswith (href_text email_link) "mailto:"
      then drop 7 (href_text email_link) else ""
  | None => ""
  end.

(** The loop over all anchors of the page, left at the first [mailto:]. *)
Fixpoint first_mailto (links : list node) : string :=
  match links with
  | [] => ""
  | link :: rest =>
      if startswith (href_text link) "mailto:" then drop 7 (href_text link)
      else first_mailto rest
  end.

Definition bio_name_elem (doc : node) : option node := find (has_class "BioName") doc.

Definition bio_text_elem (doc : node) : option node :=
  find (fun n => named "div" n && has_class "BioText" n) doc.

Definition extract_person (doc : node) : string :=
  match bio_name_elem doc with
  | Some e => get_text "" e
  | None => ""
  end.

(** The email of [extract_staff_info], given the email found in the
    biography block. *)
Definition extract_email (html : string) (doc : node) (email : string) : string :=
  if negb (truthy email) then
    let email := first_mailto (find_all is_anchor_with_href doc) in
    if negb (truthy email) && contains "mailto:" (lower html)
    then extract_email_from_javascript html
    else email
  else email.

(** [extract_staff_info]; [None] when the parser raised. *)
Definition extract_staff_info (pg : page) (url : string) : option staff_info :=
  match soup pg with
  | None => None
  | Some doc =>
      let person := extract_person doc in
      let '(department, title, phone, email) :=
        match bio_text_elem doc with
        | Some bio =>
            let lines := nonblank_lines (get_text (String (ascii_of_nat 10) "") bio) in
            let start_idx :=
              match lines with
              | first :: _ =>
                  if truthy person && String.eqb (lower first) (lower person)
                  then 1%nat else 0%nat
              | [] => 0%nat
              end in
            let department := nth start_idx lines "" in
            let (title, phone) := scan_lines lines "" "" in
            (department, title, phone, bio_email bio)
        | None => ("", "", "", "")
        end in
      Some {| person := person; department := department; title := title;
              phone := phone; email := extract_email (html_content pg) doc email;
              url := url |}
  end.


(** *** Output files

    A file handle holds the rows already forced to the file and the rows
    written since the last [flush()]. *)

Definition row := list string.

Record csv_file := mkFile {
  flushed : list row;
  pending : list row
}.

Definition writerow (f : csv_file) (r : row) : csv_file :=
  {| flushed := flushed f; pending := (pending f ++ [r])%list |}.

Definition flush (f : csv_file) : csv_file :=
  {| flushed := (flushed f ++ pending f)%list; pending := [] |}.

(** All the rows written to the handle, in order. *)
Definition rows (f : csv_file) : list row := (flushed f ++ pending f)%list.

(** The record dictionary of [process_eid_batch]: the organization and the
    fields copied from the extracted information. *)
Record record := mkRecord {
  organization : string;
  info : staff_info
}.

Definition header : row :=
  ["Type"; "Organization"; "Person"; "Department"; "Title"; "Phone"; "Email";
   "Address"; "Note"].

Definition row_of (r : record) : row :=
  ["Municipal Staff"; organization r; person (info r); department (info r);
   title (info r); phone (info r); email (info r); ""; url (info r)].

(** The module's globals.  [output_writer], [success_writer] and
    [not_found_writer] wrap the three handles and are set together with
    them; [flush_state] holds the attributes [batch_count] and
    [last_flush_time] of [write_batch_to_csv], absent before its first
    full run; [time_calls] counts the clock readings taken so far. *)
Record globals := mkGlobals {
  should_stop : bool;
  results_buffer : list record;
  output_file_handle : option csv_file;
  success_file_handle : option csv_file;
  not_found_file_handle : option csv_file;
  last_auto_save : option spec_float;
  flush_state : option (Z * spec_float);
  time_calls : nat
}.

(** The world outside: the answers to [HEAD] and [GET] requests, per URL
    and attempt, and the successive readings of [time.time()]. *)
Record world := mkWorld {
  head_of : string -> nat -> attempt;
  get_of : string -> nat -> attempt;
  time_of : nat -> spec_float
}.

Definition set_results_buffer (g : globals) (b : list record) : globals :=
  {| should_stop := should_stop g; results_buffer := b;
     output_file_handle := output_file_handle g;
     success_file_handle := success_file_handle g;
     not_found_file_handle := not_found_file_handle g;
     last_auto_save := last_auto_save g; flush_state := flush_state g;
     time_calls := time_calls g |}.

Definition set_success_file_handle (g : globals) (f : option csv_file) : globals :=
  {| should_stop := should_stop g; results_buffer := results_buffer g;
     output_file_handle := output_file_handle g;
     success_file_handle := f;
     not_found_file_handle := not_found_file_handle g;
     last_auto_save := last_auto_save g; flush_state := flush_state g;
     time_calls := time_calls g |}.


(** [write_batch_to_csv] *)
Definition write_batch_to_csv (w : world) (batch : list record) (g : globals)
  : globals :=
  match batch, output_file_handle g with
  | [], _ => g
  | _, None => g
  | _, Some f =>
      let f := fold_left (fun f r => writerow f (row_of r)) batch f in
      let current_time := time_of w (time_calls g) in
      let (batch_count, last_flush_time) :=
        match flush_state g with
        | None => (0, current_time)
        | Some st => st
        end in
      let batch_count := batch_count + 1 in
      let due := (batch_count mod 10 =? 0)%Z
                 || flt (float_of_int 60) (fsub current_time last_flush_time) in
      {| should_stop := should_stop g; results_buffer := results_buffer g;
         output_file_handle := Some (if due then flush f else f);
         success_file_handle := success_file_handle g;
         not_found_file_handle := not_found_file_handle g;
         last_auto_save := Some current_time;
         flush_state := Some (batch_count,
                              if due then current_time else last_flush_time);
         time_calls := S (time_calls g) |}
  end.

(** The test that decides whether [write_batch_to_csv] flushes: the count
    of batches, this one included, is a multiple of 10, or more than 60
    seconds have passed since the last flush. *)
Definition flush_due (w : world) (g : globals) : bool :=
  let current_time := time_of w (time_calls g) in
  let (batch_count, last_flush_time) :=
    match flush_state g with
    | None => (0, current_time)
    | Some st => st
    end in
  ((batch_count + 1) mod 10 =? 0)%Z
  || flt (float_of_int 60) (fsub current_time last_flush_time).

(** [log_successful_eid] *)
Definition log_successful_eid (municipality state url person department : string)
    (g : globals) : globals :=
  match success_file_handle g with
  | Some f =>
      set_success_file_handle g
        (Some (flush (writerow f [municipality; state; url; person; department])))
  | None => g
  end.


(** [check_auto_save] *)
Definition check_auto_save (w : world) (g : globals) : globals :=
  match results_buffer g with
  | [] => g
  | _ =>
      let current_time := time_of w (time_calls g) in
      let g := {| should_stop := should_stop g; results_buffer := results_buffer g;
                  output_file_handle := output_file_handle g;
                  success_file_handle := success_file_handle g;
                  not_found_file_handle := not_found_file_handle g;
                  last_auto_save := last_auto_save g; flush_state := flush_state g;
                  time_calls := S (time_calls g) |} in
      match last_auto_save g with
      | None =>
          {| should_stop := should_stop g; results_buffer := results_buffer g;
             output_file_handle := output_file_handle g;
             success_file_handle := success_file_handle g;
             not_found_file_handle := not_found_file_handle g;
             last_auto_save := Some current_time; flush_state := flush_state g;
             time_calls := time_calls g |}
      | Some saved =>
          if fle AUTO_SAVE_INTERVAL (fsub current_time saved)
          then set_results_buffer (write_batch_to_csv w (results_buffer g) g) []
          else g
      end
  end.

(** *** [process_eid_batch] *)

(** Phase 1, the loop over the probe results: the URLs answered 200.  The
    call of [log_404_eid] in the 404 branch is commented out in the
    source. *)
Fixpoint probe_loop (g : globals) (items : list ((string * Z) * option Z))
  : list (string * Z) :=
  match items with
  | [] => []
  | ((url, eid), status_result) :: rest =>
      if should_stop g then []
      else
        match status_result with
        | None => probe_loop g rest
        | Some status =>
            if (status =? 404)%Z then probe_loop g rest
            else if (status =? 200)%Z then (url, eid) :: probe_loop g rest
            else probe_loop g rest
        end
  end.

(** The body of the [if staff_info and staff_info['person']] branch. *)
Definition emit (w : world) (municipality state url : string) (si : staff_info)
    (batch_records : list record) (g : globals) : list record * globals :=
  let g := log_successful_eid municipality state url (person si) (department si) g in
  let record := {| organization := municipality ++ ", " ++ state; info := si |} in
  let g := set_results_buffer g (results_buffer g ++ [record])%list in
  let g :=
    if (BATCH_SIZE <=? List.length (results_buffer g))%nat
    then set_results_buffer (write_batch_to_csv w (results_buffer g) g) []
    else g in
  ((batch_records ++ [record])%list, g).

(** Phase 2, the loop over the fetched contents. *)
Fixpoint content_loop (w : world) (municipality state : string)
    (items : list ((string * Z) * option page))
    (batch_records : list record) (g : globals) : list record * globals :=
  match items with
  | [] => (batch_records, g)
  | ((url, eid), content) :: rest =>
      if should_stop g then (batch_records, g)
      else
        match content with
        | None => content_loop w municipality state rest batch_records g
        | Some pg =>
            let (batch_records, g) :=
              match extract_staff_info pg url with
              | Some si =>
                  if truthy (person si)
                  then emit w municipality state url si batch_records g
                  else (batch_records, g)
              | None => (batch_records, g)
              end in
            content_loop w municipality state rest batch_records (check_auto_save w g)
        end
  end.

(** Phase 1: the URLs of the batch, probed, and those answered 200. *)
Definition valid_urls_of (w : world) (eid_base : string) (eid_range : list Z)
    (g : globals) : list (string * Z) :=
  let urls_and_eids := map (fun eid => (eid_base ++ str_of_int eid, eid)) eid_range in
  let status_results :=
    map (fun ue => fst (check_url_exists (head_of w (fst ue)))) urls_and_eids in
  probe_loop g (combine urls_and_eids status_results).

(** Phase 2: the valid URLs with the contents fetched for them. *)
Definition fetched (w : world) (eid_base : string) (eid_range : list Z)
    (g : globals) : list ((string * Z) * option page) :=
  let valid_urls := valid_urls_of w eid_base eid_range g in
  let content_results :=
    map (fun ue => fst (fetch_content (get_of w (fst ue)))) valid_urls in
  combine valid_urls content_results.

Definition process_eid_batch (w : world) (eid_base : string) (eid_range : list Z)
    (municipality state : string) (g : globals) : list record * globals :=
  content_loop w municipality state (fetched w eid_base eid_range g) [] g.

(** *** [process_municipality] *)

(** The base of the staff URLs, from the site's address. *)
Definition eid_base_of (website : string) : string :=
  let website :=
    if startswith website "http://" || startswith website "https://"
    then website else "https://" ++ website in
  let parsed := urlparse website "" in
  let website :=
    if negb (startswith (netloc parsed) "www.")
    then scheme parsed ++ "://www." ++ netloc parsed ++ path parsed
    else website in
  urljoin (rstrip_slash website) "/directory.aspx?EID=".

(** The URL probed for staff id [eid]. *)
Definition staff_url (website : string) (eid : Z) : string :=
  eid_base_of website ++ str_of_int eid.

Definition eid_batches : list (list Z) :=
  map (fun i => range i (Z.min (i + EID_BATCH_SIZE) 1000))
      (range_step 1 1000 EID_BATCH_SIZE).

Fixpoint batches_loop (w : world) (eid_base municipality state : string)
    (batches : list (list Z)) (records : list record) (g : globals)
  : list record * globals :=
  match batches with
  | [] => (records, g)
  | batch_range :: rest =>
      if should_stop g then (records, g)
      else
        let (batch_records, g) :=
          process_eid_batch w eid_base batch_range municipality state g in
        batches_loop w eid_base municipality state rest
                     (records ++ batch_records)%list g
  end.

Definition process_municipality (w : world) (municipality state website : string)
    (g : globals) : list record * globals :=
  batches_loop w (eid_base_of website) municipality state eid_batches [] g.

(** *** [main]: opening the three files *)

Definition initial : globals :=
  {| should_stop := false; results_buffer := [];
     output_file_handle := None; success_file_handle := None;
     not_found_file_handle := None; last_auto_save := None;
     flush_state := None; time_calls := 0 |}.

Definition created (hdr : row) : csv_file :=
  flush (writerow {| flushed := []; pending := [] |} hdr).

Definition open_output_files (g : globals) : globals :=
  {| should_stop := should_stop g; results_buffer := results_buffer g;
     output_file_handle := Some (created header);
     success_file_handle :=
       Some (created ["Municipality"; "State"; "URL"; "Person"; "Department"]);
     not_found_file_handle := Some (created ["Municipality"; "State"; "URL"]);
     last_auto_save := last_auto_save g; flush_state := flush_state g;
     time_calls := time_calls g |}.

(** The extractions of phase 2 that succeed, in order. *)
Definition extractions (items : list ((string * Z) * option page)) : list staff_info :=
  flat_map (fun item =>
              match snd item with
              | Some pg =>
                  match extract_staff_info pg (fst (fst item)) with
                  | Some si => [si]
                  | None => []
                  end
              | None => []
              end) items.

(** The record built from an extraction. *)
Definition record_of (municipality state : string) (si : staff_info) : record :=
  {| organization := municipality ++ ", " ++ state; info := si |}.

(** The probe of a URL, as [process_eid_batch] sees it. *)
Definition probe (w : world) (u : string) : option Z :=
  fst (check_url_exists (head_of w u)).

(** The not-found log and the stop flag are the same in both states. *)
Definition same_side (g g' : globals) : Prop :=
  not_found_file_handle g' = not_found_file_handle g
  /\ should_stop g' = should_stop g.

End StaffScraper.

(** ** [civicplus_scraper.py] *)

Module CivicPlus.
Import PyNum PyStr Soup Urllib Net.
Local Open Scope string_scope.

Definition BATCH_SIZE : nat := 50.
Definition REQUEST_RETRY_ATTEMPTS : nat := 3.
Definition REQUEST_DELAY : spec_float := float_of_ratio 1 2.

(** The counters of a [CivicPlusScraper]; its session is open, as it is
    inside [async with]. *)
Record CivicPlusScraper := mkScraper {
  total_processed : Z;
  total_errors : Z
}.

(** *** [fetch_with_retry]

    The loop over [range(retries)]: the result, whether the loop ran to
    its end, and what was done. *)
Fixpoint fetch_loop (retries : nat) (net : nat -> attempt)
    (attempt remaining : nat) : option (Z * page) * bool * list event :=
  match remaining with
  | O => (None, true, [])
  | S remaining' =>
      let retry :=
        let '(r, exhausted, tr) := fetch_loop retries net (S attempt) remaining' in
        (r, exhausted,
         Politeness REQUEST_DELAY :: Request ::
           (if (S attempt <? retries)%nat then [Backoff (2 ^ Z.of_nat attempt)] else [])
           ++ tr)%list in
      match net attempt with
      | Response status text =>
          if (status =? 404)%Z then (None, false, [Politeness REQUEST_DELAY; Request])
          else
            match text with
            | inr html => (Some (status, html), false, [Politeness REQUEST_DELAY; Request])
            | inl _ => retry
            end
      | Raised _ => retry
      end
  end.

(** The attempts that end in an [except] clause of [fetch_with_retry]. *)
Definition caught (a : attempt) : bool :=
  match a with
  | Raised _ => true
  | Response status (inl _) => negb (status =? 404)%Z
  | Response _ (inr _) => false
  end.

Definition fetch_with_retry_n (retries : nat) (net : nat -> attempt)
    (self : CivicPlusScraper) : option (Z * page) * CivicPlusScraper * list event :=
  let '(r, exhausted, tr) := fetch_loop retries net 0 retries in
  (r,
   if exhausted
   then {| total_processed := total_processed self;
           total_errors := total_errors self + 1 |}
   else self,
   tr).

Definition fetch_with_retry := fetch_with_retry_n REQUEST_RETRY_ATTEMPTS.

(** *** Parsing *)

Record department_info := mkDept {
  dept_department : string;
  dept_phone : string;
  dept_address : string;
  dept_url : string
}.

(** [parse_department_page]; [None] when the parser raised. *)
Definition parse_department_page (pg : page) (url : string) : option department_info :=
  match soup pg with
  | None => None
  | Some doc =>
      let department :=
        match find (named "h1") doc with
        | Some e => get_text "" e
        | None => ""
        end in
      let phone :=
        match select_p_nth_child_10 0 doc with
        | e :: _ => get_text "" e
        | [] => ""
        end in
      let address :=
        match select_viewMap_next_p false doc with
        | e :: _ => get_text "" e
        | [] => ""
        end in
      Some {| dept_department := department; dept_phone := phone;
              dept_address := address; dept_url := url |}
  end.

Record staff_info := mkStaff {
  person : string;
  department : string;
  title : string;
  phone : string;
  email : string;
  url : string
}.

Definition newline : ascii := ascii_of_nat 10.

(** The loop over [bio_text.split('\n')]. *)
Fixpoint scan_lines (lines : list string) (title phone : string) : string * string :=
  match lines with
  | [] => (title, phone)
  | line :: rest =>
      let line := strip line in
      if startswith (lower line) "title:"
      then scan_lines rest (strip (drop 6 line)) phone
      else if startswith (lower line) "phone:"
      then scan_lines rest title (strip (drop 6 line))
      else scan_lines rest title phone
  end.

(** The loop over the anchors of the biography block. *)
Fixpoint first_mailto (links : list node) : string :=
  match links with
  | [] => ""
  | link :: rest =>
      let href := match Soup.href link with Some h => h | None => "" end in
      if truthy href && startswith href "mailto:"
      then replace "mailto:" "" href
      else first_mailto rest
  end.

(** [parse_staff_page]; [None] when the parser raised. *)
Definition parse_staff_page (pg : page) (url : string) : option staff_info :=
  match soup pg with
  | None => None
  | Some doc =>
      let person :=
        match find (has_class "BioName") doc with
        | Some e => get_text "" e
        | None => ""
        end in
      let '(department, title, phone, email) :=
        match find (fun n => named "div" n && has_class "BioText" n) doc with
        | Some bio =>
            let bio_text := get_text (String newline "") bio in
            let lines :=
              map strip (filter (fun line => truthy (strip line))
                                (split newline bio_text)) in
            let department := nth 0 lines "" in
            let (title, phone) := scan_lines (split newline bio_text) "" "" in
            (department, title, phone, first_mailto (find_all (named "a") bio))
        | None => ("", "", "", "")
        end in
      Some {| person := person; department := department; title := title;
              phone := phone; email := email; url := url |}
  end.

(** *** Scraping one page *)

(** A result dictionary, with the nine keys of the output file. *)
Record result := mkResult {
  Type_ : string;
  Organization : string;
  Person : string;
  Department : string;
  Title : string;
  Phone : string;
  Email : string;
  Address : string;
  Note : string
}.

(** [scrape_department], after its call of [fetch_with_retry]. *)
Definition scrape_department (response : option (Z * page)) (url organization : string)
  : option result :=
  match response with
  | None => None
  | Some (status_code, html) =>
      if negb (status_code =? 200)%Z then None
      else
        match parse_department_page html url with
        | None => None
        | Some dept_info =>
            Some {| Type_ := "Municipal Department"; Organization := organization;
                    Person := ""; Department := dept_department dept_info;
                    Title := ""; Phone := dept_phone dept_info; Email := "";
                    Address := dept_address dept_info; Note := url |}
        end
  end.

(** [scrape_staff], after its call of [fetch_with_retry]. *)
Definition scrape_staff (response : option (Z * page)) (url organization : string)
  : option result :=
  match response with
  | None => None
  | Some (status_code, html) =>
      if negb (status_code =? 200)%Z then None
      else
        match parse_staff_page html url with
        | None => None
        | Some staff_info =>
            Some {| Type_ := "Municipal Staff"; Organization := organization;
                    Person := person staff_info; Department := department staff_info;
                    Title := title staff_info; Phone := phone staff_info;
                    Email := email staff_info; Address := ""; Note := url |}
        end
  end.

(** *** [scrape_municipality] *)

Definition department_url (website : string) (did : Z) : string :=
  urljoin (rstrip_slash website) ("/Directory.aspx?DID=" ++ str_of_int did).

Definition staff_url (website : string) (eid : Z) : string :=
  urljoin (rstrip_slash website) ("/directory.aspx?EID=" ++ str_of_int eid).

(** The tasks of one kind, run to their end: a result dictionary is kept
    when the task returned one (a dictionary with nine keys is true). *)
Fixpoint run_tasks (get_of : string -> nat -> attempt)
    (scrape : option (Z * page) -> string -> string -> option result)
    (organization : string) (urls : list string) (self : CivicPlusScraper)
  : list result * CivicPlusScraper :=
  match urls with
  | [] => ([], self)
  | u :: rest =>
      let '(response, self, _) := fetch_with_retry (get_of u) self in
      let (results, self) := run_tasks get_of scrape organization rest self in
      (match scrape response u organization with
       | Some r => r :: results
       | None => results
       end, self)
  end.

Definition scrape_municipality (get_of : string -> nat -> attempt)
    (shutdown_requested : bool) (municipality state website : string)
    (self : CivicPlusScraper) : list result * CivicPlusScraper :=
  let organization := municipality ++ ", " ++ state in
  if shutdown_requested then ([], self)
  else
    let (depts, self) :=
      run_tasks get_of scrape_department organization
                (map (department_url website) (range 1 100)) self in
    let (staff, self) :=
      run_tasks get_of scrape_staff organization
                (map (staff_url website) (range 1 1000)) self in
    ((depts ++ staff)%list, self).

(** *** The output file *)

Definition row := list string.

Definition fieldnames : row :=
  ["Type"; "Organization"; "Person"; "Department"; "Title"; "Phone"; "Email";
   "Address"; "Note"].

Definition row_of (r : result) : row :=
  [Type_ r; Organization r; Person r; Department r; Title r; Phone r; Email r;
   Address r; Note r].

(** [write_results_batch]: [file] is the content of the output file, which
    mode ['w'] truncates. *)
Definition write_results_batch (results : list result) (file : list row)
    (write_header : bool) : list row :=
  let file := if write_header then [] else file in
  match results with
  | [] => file
  | _ =>
      (file ++ (if write_header then [fieldnames] else []) ++ map row_of results)%list
  end.

(** *** [main]

    [municipalities] are the rows of the input file (municipality, state,
    website). *)
Fixpoint main_loop (get_of : string -> nat -> attempt) (shutdown_requested : bool)
    (municipalities : list (string * string * string))
    (results_buffer : list result) (file : list row) (scraper : CivicPlusScraper)
  : list result * list row * CivicPlusScraper :=
  match municipalities with
  | [] => (results_buffer, file, scraper)
  | (municipality, state, website) :: rest =>
      if shutdown_requested then (results_buffer, file, scraper)
      else
        let (results, scraper) :=
          scrape_municipality get_of shutdown_requested municipality state website
                              scraper in
        let results_buffer := (results_buffer ++ results)%list in
        let (results_buffer, file) :=
          if (BATCH_SIZE <=? List.length results_buffer)%nat
          then ([], write_results_batch results_buffer file false)
          else (results_buffer, file) in
        main_loop get_of shutdown_requested rest results_buffer file
                  {| total_processed := total_processed scraper + 1;
                     total_errors := total_errors scraper |}
  end.

(** The content of the output file when [main] returns. *)
Definition main (get_of : string -> nat -> attempt) (shutdown_requested : bool)
    (municipalities : list (string * string * string)) : list row :=
  let file := write_results_batch [] [] true in
  let '(results_buffer, file, _) :=
    main_loop get_of shutdown_requested municipalities [] file
              {| total_processed := 0; total_errors := 0 |} in
  match results_buffer with
  | [] => file
  | _ => write_results_batch results_buffer file false
  end.

(** A result of one of the two kinds the scraper builds. *)
Definition typed (r : result) : Prop :=
  Type_ r = "Municipal Department" \/ Type_ r = "Municipal Staff".

(** A row written for such a result. *)
Definition data_row (l : row) : Prop := exists r, typed r /\ l = row_of r.

End CivicPlus.

(** ** Sample inputs *)

Module Samples.
Import PyNum PyStr Pattern Soup Net.
Local Open Scope string_scope.

(** A page without any content. *)
Definition blank_page : page :=
  {| html_content := ""; soup := Some (Tag "[document]" [] []) |}.

(** A server that answers every request with 500 and a readable body. *)
Definition always_500 : nat -> attempt := fun _ => Response 500 (inr blank_page).

(** A network on which every request times out. *)
Definition always_timeout : nat -> attempt := fun _ => Raised TimeoutError.

(** One timeout, then 503 with a readable body. *)
Definition timeout_then_503 : nat -> attempt :=
  fun k => match k with
           | O => Raised TimeoutError
           | S _ => Response 503 (inr blank_page)
           end.

Definition fresh_scraper : CivicPlus.CivicPlusScraper :=
  {| CivicPlus.total_processed := 0; CivicPlus.total_errors := 0 |}.

(** A department page with a heading. *)
Definition parks_page : page :=
  {| html_content := "<h1>Parks</h1>";
     soup := Some (Tag "[document]" [] [Tag "h1" [] [NavigableString "Parks"]]) |}.

(** A site on which only department page 7 exists. *)
Definition springfield : string -> nat -> attempt :=
  fun url _ =>
    if String.eqb url "https://springfieldoh.example/Directory.aspx?DID=7"
    then Response 200 (inr parks_page)
    else Response 404 (inl OtherError).

(** A staff page: a name, a biography block without a title line, and a
    mail link inside the block. *)
Definition jane_page : page :=
  {| html_content :=
       "<h2 class='BioName'>Jane Doe</h2><div class='BioText'>Jane Doe<br>Parks<br>Phone: 555-0100<br><a href='mailto:jdoe@springfieldoh.example'>Email</a></div>";
     soup := Some (Tag "[document]" []
       [Tag "h2" [("class", "BioName")] [NavigableString "Jane Doe"];
        Tag "div" [("class", "BioText")]
          [NavigableString "Jane Doe"; Tag "br" [] [];
           NavigableString "Parks"; Tag "br" [] [];
           NavigableString "Phone: 555-0100"; Tag "br" [] [];
           Tag "a" [("href", "mailto:jdoe@springfieldoh.example")]
             [NavigableString "Email"]]]) |}.

(** A staff page with a biography block and no name. *)
Definition nameless_page : page :=
  {| html_content := "<div class='BioText'>Vacant</div>";
     soup := Some (Tag "[document]" []
       [Tag "div" [("class", "BioText")] [NavigableString "Vacant"]]) |}.

Definition eid_base : string := "https://www.springfieldoh.example/directory.aspx?EID=".

(** Every probe answers 200; staff page 42 is Jane Doe's, every other page
    has no name. *)
Definition staff_site : StaffScraper.world :=
  {| StaffScraper.head_of := fun _ _ => Response 200 (inl OtherError);
     StaffScraper.get_of := fun u _ =>
       if String.eqb u (eid_base ++ "42") then Response 200 (inr jane_page)
       else Response 200 (inr nameless_page);
     StaffScraper.time_of := fun _ => float_of_int 1000 |}.

(** Probes of staff page 43 answer 404; the other pages are as above. *)
Definition site_without_43 : StaffScraper.world :=
  {| StaffScraper.head_of := fun u _ =>
       if String.eqb u (eid_base ++ "43") then Response 404 (inl OtherError)
       else Response 200 (inl OtherError);
     StaffScraper.get_of := StaffScraper.get_of staff_site;
     StaffScraper.time_of := fun _ => float_of_int 1000 |}.

(** A site on which every page is a staff page with a biography block and
    no name. *)
Definition vacant_site : string -> nat -> attempt :=
  fun _ _ => Response 200 (inr nameless_page).

(** The globals after [main] has opened its three files. *)
Definition opened : StaffScraper.globals :=
  StaffScraper.open_output_files StaffScraper.initial.

Definition jane_info : StaffScraper.staff_info :=
  {| StaffScraper.person := "Jane Doe"; StaffScraper.department := "Parks";
     StaffScraper.title := ""; StaffScraper.phone := "555-0100";
     StaffScraper.email := "jdoe@springfieldoh.example";
     StaffScraper.url := eid_base ++ "42" |}.

Definition jane_record : StaffScraper.record :=
  StaffScraper.record_of "Springfield" "Ohio" jane_info.

(** A site whose department page 7 has no heading. *)
Definition headless_site : string -> nat -> attempt :=
  fun _ _ => Response 200 (inr blank_page).

(** A staff page whose address is only in script variables, with no
    [mailto:] text anywhere. *)
Definition script_page : page :=
  {| html_content :=
       "<h2 class='BioName'>John Roe</h2><script>var wsd = 'jroe'; var xsd = 'city.gov';</script>";
     soup := Some (Tag "[document]" []
       [Tag "h2" [("class", "BioName")] [NavigableString "John Roe"];
        Tag "script" [] []]) |}.

(** The same variables on a page that links elsewhere and spells [mailto:]
    only in its script. *)
Definition obfuscated_page : page :=
  {| html_content :=
       "<a href='/staff'>Staff</a><script>var wsd = 'jroe'; var xsd = 'city.gov'; var p = 'mailto:';</script>";
     soup := Some (Tag "[document]" []
       [Tag "a" [("href", "/staff")] [NavigableString "Staff"];
        Tag "script" [] []]) |}.

End Samples.

(** ** [old stuff/government_website_finder.py]: finding a site *)

Module Finder.
Import PyNum PyStr RateLimiter.
Local Open Scope string_scope.

(** [filter_unprocessed_places]; the set of processed places is a list. *)
Definition filter_unprocessed_places (all_places existing_places : list string)
  : list string :=
  filter (fun place => negb (existsb (String.eqb place) existing_places)) all_places.

Definition state_domains : list string :=
  ["alabama.gov"; "al.gov"; "alaska.gov"; "ak.gov"; "arizona.gov"; "az.gov";
   "arkansas.gov"; "ar.gov"; "california.gov"; "ca.gov"; "colorado.gov"; "co.gov";
   "connecticut.gov"; "ct.gov"; "delaware.gov"; "de.gov"; "florida.gov"; "fl.gov";
   "georgia.gov"; "ga.gov"; "hawaii.gov"; "hi.gov"; "idaho.gov"; "id.gov";
   "illinois.gov"; "il.gov"; "indiana.gov"; "in.gov"; "iowa.gov"; "ia.gov";
   "kansas.gov"; "ks.gov"; "kentucky.gov"; "ky.gov"; "louisiana.gov"; "la.gov";
   "maine.gov"; "me.gov"; "maryland.gov"; "md.gov"; "massachusetts.gov"; "ma.gov";
   "michigan.gov"; "mi.gov"; "minnesota.gov"; "mn.gov"; "mississippi.gov"; "ms.gov";
   "missouri.gov"; "mo.gov"; "montana.gov"; "mt.gov"; "nebraska.gov"; "ne.gov";
   "nevada.gov"; "nv.gov"; "nh.gov"; "nj.gov"; "newmexico.gov"; "nm.gov";
   "ny.gov"; "nc.gov"; "nd.gov"; "ohio.gov"; "oh.gov"; "oklahoma.gov"; "ok.gov";
   "oregon.gov"; "or.gov"; "pa.gov"; "ri.gov"; "sc.gov"; "sd.gov"; "tn.gov";
   "texas.gov"; "tx.gov"; "utah.gov"; "ut.gov"; "vermont.gov"; "vt.gov";
   "virginia.gov"; "va.gov"; "wa.gov"; "wv.gov"; "wisconsin.gov"; "wi.gov";
   "wyoming.gov"; "wy.gov"; "usa.gov"].

Definition skip_domains : list string :=
  ["google.com"; "wikipedia.org"; "yelp.com"; "facebook.com"; "maps.google";
   "twitter.com"; "instagram.com"; "linkedin.com"; "yellowpages.com";
   "whitepages.com"].

Definition gov_terms : list string :=
  ["city of"; "town of"; "village of"; "county of"; "borough of"; "municipal";
   "government"; "official"; "city hall"; "town hall"; "county government";
   "city government"].

Definition gov_domains : list string := [".org"; ".us"].

Definition url_gov_terms : list string :=
  ["city"; "town"; "village"; "county"; "municipal"; "gov"].

(** [any(x in s for x in l)] *)
Definition any_in (l : list string) (s : string) : bool :=
  existsb (fun x => contains x s) l.

(** [is_government_website] *)
Definition is_government_website (url title : string) : bool :=
  let url_lower := lower url in
  let title_lower := lower title in
  if any_in state_domains url_lower then false
  else if contains ".gov" url_lower then true
  else if any_in skip_domains url_lower then false
  else if any_in gov_terms title_lower then true
  else if any_in gov_domains url_lower then
    if any_in url_gov_terms url_lower then true else false
  else false.

(** One search result: a dictionary that may hold a link and a title. *)
Record search_result := mkResult {
  link : option string;
  title : option string
}.

(** What [search_with_serper] returns: the organic results on 200, the
    string ["rate_limited"] on 429, and [None] otherwise. *)
Inductive search_outcome :=
| Organic (results : list search_result)
| RateLimited
| NoAnswer.

Definition get_or_empty (v : option string) : string :=
  match v with Some s => s | None => "" end.

(** The loop over [search_results[:10]]. *)
Fixpoint first_government_site (results : list search_result) : option string :=
  match results with
  | [] => None
  | result :: rest =>
      let url := get_or_empty (link result) in
      if truthy url && is_government_website url (get_or_empty (title result))
      then Some url
      else first_government_site rest
  end.

(** [find_government_website_parallel], after its call of
    [search_with_serper]. *)
Definition find_government_website_parallel (place : string)
    (search_results : search_outcome) : string * string :=
  match search_results with
  | RateLimited => (place, "rate_limited")
  | NoAnswer => (place, "none")
  | Organic results =>
      match first_government_site (firstn 10 results) with
      | Some url => (place, url)
      | None => (place, "none")
      end
  end.

(** The loop of [process_batch_parallel] over the gathered results; a task
    that raised is [None]. *)
Fixpoint collect (batch : list string) (results : list (option (string * string)))
    (final_results : list (string * string)) (rate_limited_count success_count : Z)
  : list (string * string) * Z * Z :=
  match batch, results with
  | place_i :: batch', result :: results' =>
      match result with
      | None =>
          collect batch' results' (final_results ++ [(place_i, "none")])
                  rate_limited_count success_count
      | Some (place, website) =>
          if String.eqb website "rate_limited"
          then collect batch' results' (final_results ++ [(place, "none")])
                       (rate_limited_count + 1) success_count
          else if negb (String.eqb website "none")
          then collect batch' results' (final_results ++ [(place, website)])
                       rate_limited_count (success_count + 1)
          else collect batch' results' (final_results ++ [(place, website)])
                       rate_limited_count success_count
      end
  | _, _ => (final_results, rate_limited_count, success_count)
  end.

(** The answer of the search service to the query for a place; [None] when
    the task raises. *)
Definition service := string -> option search_outcome.

(** [process_batch_parallel]: the results and the rate limiter after the
    batch; [None] when a limiter update raises. *)
Definition process_batch_parallel (search : service) (batch : list string)
    (rate_limiter : SmartRateLimiter)
  : option (list (string * string) * SmartRateLimiter) :=
  let results :=
    map (fun place =>
           match search place with
           | Some outcome => Some (find_government_website_parallel place outcome)
           | None => None
           end) batch in
  let '(final_results, rate_limited_count, success_count) :=
    collect batch results [] 0 0 in
  let after_failures :=
    if (0 <? rate_limited_count)%Z
    then record_rate_limit_batch rate_limiter rate_limited_count
    else Some rate_limiter in
  match after_failures with
  | None => None
  | Some r =>
      match (if (0 <? success_count)%Z then record_success_batch r success_count
             else Some r) with
      | None => None
      | Some r' => Some (final_results, r')
      end
  end.

(** A row of [websites.csv]. *)
Definition csv_row := list string.

Definition header : csv_row := ["place"; "website"].

Definition row_of (r : string * string) : csv_row := [fst r; snd r].

(** [write_results_to_csv]: [file] is the content of the file before the
    call. *)
Definition write_results_to_csv (results : list (string * string))
    (file : list csv_row) (write_header append_mode : bool) : list csv_row :=
  ((if append_mode then file else []) ++
   (if write_header && negb append_mode then [header] else []) ++
   map row_of results)%list.

(** [places[i:i + batch_size] for i in range(0, len(places), batch_size)],
    for a positive [batch_size]. *)
Definition batches_of (batch_size : nat) (places : list string) : list (list string) :=
  map (fun k => firstn batch_size (skipn (k * batch_size) places))
      (seq 0 ((List.length places + batch_size - 1) / batch_size)).

(** The loop of [process_all_places_parallel] over the batches, on the path
    where no batch raises: the results so far, the output file, whether the
    set of existing results is non-empty, and the rate limiter. *)
Fixpoint batches_loop (search : service) (batches : list (list string))
    (all_results : list (string * string)) (file : list csv_row)
    (use_append : bool) (rate_limiter : SmartRateLimiter)
  : option (list (string * string) * list csv_row * SmartRateLimiter) :=
  match batches with
  | [] => Some (all_results, file, rate_limiter)
  | batch :: rest =>
      match process_batch_parallel search batch rate_limiter with
      | None => None
      | Some (batch_results, rate_limiter) =>
          let all_results := (all_results ++ batch_results)%list in
          let file :=
            if use_append
            then write_results_to_csv batch_results file false true
            else write_results_to_csv all_results file true false in
          batches_loop search rest all_results file use_append rate_limiter
      end
  end.

(** [process_all_places_parallel] *)
Definition process_all_places_parallel (search : service) (places : list string)
    (batch_size : nat) (file : list csv_row) (existing_results : option (list string))
    (rate_limiter : SmartRateLimiter)
  : option (list (string * string) * list csv_row * SmartRateLimiter) :=
  let use_append :=
    match existing_results with
    | Some (_ :: _) => true
    | _ => false
    end in
  batches_loop search (batches_of batch_size places) [] file use_append rate_limiter.

End Finder.

(** ** [scrape_municipal_staff.py]: signals and the end of [main] *)

Module StaffRun.
Import PyNum PyStr Soup Net StaffScraper.
Local Open Scope string_scope.

(** [signal_handler] *)
Definition signal_handler (g : globals) : globals :=
  {| should_stop := true; results_buffer := results_buffer g;
     output_file_handle := output_file_handle g;
     success_file_handle := success_file_handle g;
     not_found_file_handle := not_found_file_handle g;
     last_auto_save := last_auto_save g; flush_state := flush_state g;
     time_calls := time_calls g |}.

(** [handle.close()]: what is pending reaches the file. *)
Definition close (f : option csv_file) : option csv_file := option_map flush f.

(** The [finally] block of [main]: the buffer is written and cleared, and
    the three files are closed. *)
Definition finish (w : world) (g : globals) : globals :=
  let g :=
    match results_buffer g with
    | [] => g
    | _ => set_results_buffer (write_batch_to_csv w (results_buffer g) g) []
    end in
  {| should_stop := should_stop g; results_buffer := results_buffer g;
     output_file_handle := close (output_file_handle g);
     success_file_handle := close (success_file_handle g);
     not_found_file_handle := close (not_found_file_handle g);
     last_auto_save := last_auto_save g; flush_state := flush_state g;
     time_calls := time_calls g |}.

(** The rows written to the output file together with the rows of the
    records still in the buffer. *)
Definition ledger (g : globals) : list row :=
  (match output_file_handle g with
   | Some f => rows f
   | None => []
   end ++ map row_of (results_buffer g))%list.

(** The entry of the success log for a record. *)
Definition success_entry (municipality state : string) (r : record) : row :=
  [municipality; state; url (info r); person (info r); department (info r)].

(** What a step does to the output file, the buffer and the success log:
    with the output file open, it stays open and the ledger grows by the
    rows of the emitted records; a buffer below [BATCH_SIZE] stays below
    it; with the success log open, it stays open and grows by the entries of
    the emitted records, and has nothing pending if it had nothing
    pending. *)
Definition advances (municipality state : string) (g g' : globals)
    (emitted : list record) : Prop :=
  (forall f, output_file_handle g = Some f ->
             exists f', output_file_handle g' = Some f'
                        /\ ledger g' = (ledger g ++ map row_of emitted)%list)
  /\ ((List.length (results_buffer g) < BATCH_SIZE)%nat ->
      (List.length (results_buffer g') < BATCH_SIZE)%nat)
  /\ (forall f, success_file_handle g = Some f ->
                exists f', success_file_handle g' = Some f'
                           /\ rows f'
                              = (rows f ++ map (success_entry municipality state) emitted)%list
                           /\ (pending f = [] -> pending f' = [])).

(** Whether every attempt of a request raises, up to [retries] attempts. *)
Definition all_raise (retries : nat) (net : nat -> attempt) : bool :=
  forallb (fun k => match net k with Raised _ => true | Response _ _ => false end)
          (seq 0 retries).

End StaffRun.

(** ** [civicplus_scraper.py]: counting errors *)

Module CivicPlusRun.
Import PyNum PyStr Soup Net CivicPlus.
Local Open Scope string_scope.

(** Whether every one of the first [retries] attempts ends in an [except]
    clause of [fetch_with_retry]. *)
Definition all_caught (retries : nat) (net : nat -> attempt) : bool :=
  forallb (fun k => caught (net k)) (seq 0 retries).

End CivicPlusRun.

(** ** Sums over the reports of the rate limiter *)

Module LimiterRun.
Import RateLimiter.

(** The requests a report accounts for. *)
Definition size_of (e : report) : Z :=
  match e with
  | SuccessBatch n => n
  | RateLimitBatch n => n
  end.

Definition limited_of (e : report) : Z :=
  match e with
  | SuccessBatch _ => 0
  | RateLimitBatch n => n
  end.

Definition volume (es : list report) : Z := fold_right (fun e acc => size_of e + acc) 0 es.

Definition limited (es : list report) : Z := fold_right (fun e acc => limited_of e + acc) 0 es.

End LimiterRun.

(** ** Words for the results of the finder *)

Module FinderRun.
Import PyStr Finder.
Local Open Scope string_scope.

(** A search result the finder accepts: it has a link, and the link and the
    title pass [is_government_website]. *)
Definition qualifies (r : search_result) : bool :=
  truthy (get_or_empty (link r))
  && is_government_website (get_or_empty (link r)) (get_or_empty (title r)).

(** The website a task returns for a place; [None] when the task raises. *)
Definition returned (search : service) (place : string) : option string :=
  match search place with
  | Some outcome => Some (snd (find_government_website_parallel place outcome))
  | None => None
  end.

(** The task for a place returned the word ["rate_limited"]. *)
Definition rate_limited_place (search : service) (place : string) : bool :=
  match returned search place with
  | Some website => String.eqb website "rate_limited"
  | None => false
  end.

(** The task for a place returned a website other than ["none"] and
    ["rate_limited"]. *)
Definition found_place (search : service) (place : string) : bool :=
  match returned search place with
  | Some website =>
      negb (String.eqb website "rate_limited") && negb (String.eqb website "none")
  | None => false
  end.

(** The website written for a place. *)
Definition website_of (search : service) (place : string) : string :=
  match returned search place with
  | Some website => if String.eqb website "rate_limited" then "none" else website
  | None => "none"
  end.

(** The number of places of a batch that satisfy a test. *)
Definition count (p : string -> bool) (batch : list string) : Z :=
  Z.of_nat (List.length (filter p batch)).

End FinderRun.

(** ** More sample inputs *)

Module MoreSamples.
Import PyNum PyStr Soup Net Finder.
Local Open Scope string_scope.

(** A search service: the query for Akron is rate limited, the query for
    Boise finds the city's site after an encyclopedia page, the task for
    Cody raises, and every other query finds nothing. *)
Definition sample_search : service :=
  fun place =>
    if String.eqb place "Akron, Ohio" then Some RateLimited
    else if String.eqb place "Boise, Idaho" then
      Some (Organic [{| link := Some "https://en.wikipedia.org/wiki/Boise";
                        title := Some "Boise - Wikipedia" |};
                     {| link := Some "https://www.cityofboise.org";
                        title := Some "City of Boise" |}])
    else if String.eqb place "Cody, Wyoming" then None
    else Some NoAnswer.

Definition sample_places : list string :=
  ["Akron, Ohio"; "Boise, Idaho"; "Cody, Wyoming"].

End MoreSamples.

(** * Properties *)

(** ** The rate limiter *)

Section RateLimiterFacts.
Import PyNum RateLimiter.

(** On the limits the constructor's bounds allow, the two float products
    truncate to the integer quotients. *)
Lemma scaled_speedup (l : Z) :
  3 <= l <= 50 -> scaled l (speedup_factor init) = Some (l * 6 / 5).
Proof.
  intros H.
  assert (E : In l (range 3 51)).
  { unfold range. apply in_map_iff. exists (Z.to_nat (l - 3)). split; [lia|].
    apply in_seq. lia. }
  vm_compute in E.
  repeat (destruct E as [E | E]; [subst l; vm_compute; reflexivity|]).
  destruct E.
Qed.

Lemma scaled_backoff (l : Z) :
  3 <= l <= 50 -> scaled l (backoff_factor init) = Some (l * 7 / 10).
Proof.
  intros H.
  assert (E : In l (range 3 51)).
  { unfold range. apply in_map_iff. exists (Z.to_nat (l - 3)). split; [lia|].
    apply in_seq. lia. }
  vm_compute in E.
  repeat (destruct E as [E | E]; [subst l; vm_compute; reflexivity|]).
  destruct E.
Qed.

(** Every report keeps a configured limiter within its bounds, and never
    raises. *)
Lemma record_in_bounds (r : SmartRateLimiter) (e : report) :
  in_bounds r -> exists r', record r e = Some r' /\ in_bounds r'.
Proof.
  intros [(Hmin & Hmax & Hb & Hs) Hl].
  destruct e as [n | n]; simpl.
  - unfold record_success_batch.
    destruct (can_increase_concurrency _); cbn [concurrent_limit speedup_factor].
    + rewrite Hs, scaled_speedup by assumption.
      eexists; split; [reflexivity|].
      unfold in_bounds, configured; cbn. rewrite Hmax.
      repeat split; try assumption; try lia.
      apply Z.min_glb; [lia|]. apply Z.div_le_lower_bound; lia.
    + eexists; split; [reflexivity|].
      unfold in_bounds, configured; cbn. repeat split; try assumption; lia.
  - unfold record_rate_limit_batch.
    destruct (should_decrease_concurrency _); cbn [concurrent_limit backoff_factor].
    + rewrite Hb, scaled_backoff by assumption.
      eexists; split; [reflexivity|].
      unfold in_bounds, configured; cbn. rewrite Hmin.
      repeat split; try assumption; try lia.
      apply Z.max_lub; [lia|].
      apply Z.div_le_upper_bound; lia.
    + eexists; split; [reflexivity|].
      unfold in_bounds, configured; cbn. repeat split; try assumption; lia.
Qed.

Lemma record_all_in_bounds (es : list report) (r : SmartRateLimiter) :
  in_bounds r -> exists r', record_all r es = Some r' /\ in_bounds r'.
Proof.
  revert r; induction es as [|e es IH]; intros r H; simpl.
  - eauto.
  - destruct (record_in_bounds r e H) as (r1 & -> & H1). apply IH, H1.
Qed.

Lemma success_keeps_stuck (r : SmartRateLimiter) (n : Z) :
  stuck r -> exists r', record_success_batch r n = Some r' /\ stuck r'.
Proof.
  intros (Hl & Hmax & Hs).
  unfold record_success_batch.
  destruct (can_increase_concurrency _); cbn [concurrent_limit speedup_factor].
  - rewrite Hs, Hl, scaled_speedup by lia.
    eexists; split; [reflexivity|].
    unfold stuck; cbn. rewrite Hmax. repeat split; assumption.
  - eexists; split; [reflexivity|]. unfold stuck; cbn. repeat split; assumption.
Qed.

Lemma successes_keep_stuck (sizes : list Z) (r : SmartRateLimiter) :
  stuck r ->
  exists r', record_all r (map SuccessBatch sizes) = Some r' /\ stuck r'.
Proof.
  revert r; induction sizes as [|n sizes IH]; intros r H; simpl.
  - eauto.
  - destruct (success_keeps_stuck r n H) as (r1 & -> & H1). apply IH, H1.
Qed.

(** C7 (the code departs from the claim).  Three rate-limited batches take
    the limiter of the constructor from 15 to 4, within [min, max] and
    below max; from there no window of success batches, however long and
    whatever the batch sizes, raises the concurrency limit: it stays 4. *)
Theorem limiter_never_recovers_from_four :
  exists r4,
    record_all init [RateLimitBatch 2; RateLimitBatch 2; RateLimitBatch 2] = Some r4
    /\ concurrent_limit r4 = 4
    /\ min_concurrent r4 <= concurrent_limit r4 < max_concurrent r4
    /\ forall sizes : list Z,
         exists r, record_all r4 (map SuccessBatch sizes) = Some r
                   /\ concurrent_limit r = 4.
Proof.
  eexists. split; [vm_compute; reflexivity|].
  split; [reflexivity|]. split; [cbn; lia|].
  intros sizes.
  match goal with |- exists r, record_all ?r4 _ = _ /\ _ =>
    destruct (successes_keep_stuck sizes r4) as (r & Hr & Hs & _)
  end.
  - repeat split.
  - exists r; split; assumption.
Qed.

End RateLimiterFacts.

(** ** The fetch functions *)

Section FetchFacts.
Import Soup Net.
Local Open Scope nat_scope.

Lemma requests_cons_request (tr : list event) :
  requests (Request :: tr) = S (requests tr).
Proof. reflexivity. Qed.

Lemma requests_backoff (c : bool) (d : Z) (tr : list event) :
  requests ((if c then [Backoff d] else []) ++ tr) = requests tr.
Proof. destruct c; reflexivity. Qed.

Lemma backoffs_app (tr1 tr2 : list event) :
  backoffs (tr1 ++ tr2) = (backoffs tr1 ++ backoffs tr2)%list.
Proof.
  induction tr1 as [|e tr1 IH]; simpl; [reflexivity|].
  destruct e; simpl; rewrite IH; reflexivity.
Qed.

(** *** [fetch_with_retry] *)

Lemma fetch_loop_exhausted (retries : nat) (net : nat -> attempt) :
  forall remaining attempt,
    (forall j, j < remaining -> CivicPlus.caught (net (attempt + j)) = true) ->
    exists tr,
      CivicPlus.fetch_loop retries net attempt remaining = (None, true, tr)
      /\ requests tr = remaining.
Proof.
  induction remaining as [|rem IH]; intros a H; simpl.
  - eexists; split; reflexivity.
  - destruct (IH (S a)) as (tr & E & R).
    { intros j Hj. replace (S a + j) with (a + S j) by lia. apply H; lia. }
    specialize (H 0 (Nat.lt_0_succ _)). rewrite Nat.add_0_r in H.
    rewrite E.
    destruct (net a) as [f | status [f | pg]]; simpl in H |- *.
    + eexists; split; [reflexivity|].
      cbn [requests filter is_request List.length]. f_equal.
      fold (requests ((if S a <? retries then [Backoff (2 ^ Z.of_nat a)] else []) ++ tr)).
      rewrite requests_backoff. exact R.
    + apply negb_true_iff in H. rewrite H.
      eexists; split; [reflexivity|].
      cbn [requests filter is_request List.length]. f_equal.
      fold (requests ((if S a <? retries then [Backoff (2 ^ Z.of_nat a)] else []) ++ tr)).
      rewrite requests_backoff. exact R.
    + discriminate.
Qed.

Lemma fetch_loop_after_caught (retries : nat) (net : nat -> attempt) :
  forall k remaining attempt,
    (forall j, j < k -> CivicPlus.caught (net (attempt + j)) = true) ->
    exists tr0,
      requests tr0 = k /\
      forall r e tr,
        CivicPlus.fetch_loop retries net (attempt + k) remaining = (r, e, tr) ->
        CivicPlus.fetch_loop retries net attempt (k + remaining) = (r, e, (tr0 ++ tr)%list).
Proof.
  induction k as [|k IH]; intros rem a H.
  - exists []. split; [reflexivity|]. intros r e tr E.
    rewrite Nat.add_0_r in E. exact E.
  - destruct (IH rem (S a)) as (tr0 & R0 & K).
    { intros j Hj. replace (S a + j) with (a + S j) by lia. apply H; lia. }
    specialize (H 0 (Nat.lt_0_succ _)). rewrite Nat.add_0_r in H.
    exists (Politeness CivicPlus.REQUEST_DELAY :: Request ::
            (if S a <? retries then [Backoff (2 ^ Z.of_nat a)] else []) ++ tr0)%list.
    split.
    { cbn [requests filter is_request List.length]. f_equal.
      fold (requests ((if S a <? retries then [Backoff (2 ^ Z.of_nat a)] else []) ++ tr0)).
      rewrite requests_backoff. exact R0. }
    intros r e tr E.
    replace (a + S k) with (S a + k) in E by lia.
    apply K in E. simpl. rewrite E.
    destruct (net a) as [f | status [f | pg]]; simpl in H.
    + rewrite <- app_assoc. reflexivity.
    + apply negb_true_iff in H. rewrite H. rewrite <- app_assoc. reflexivity.
    + discriminate.
Qed.

(** [fetch_with_retry]: after [k] attempts that raised, a 404 at attempt [k]
    ends the fetch with no body and no further request; any other status
    whose body can be read ends it too, returning the status and the body,
    whatever the status is; when every attempt raises, the fetch makes
    [retries] requests, returns nothing and counts one error. *)
Lemma fetch_with_retry_classification
    (retries : nat) (net : nat -> attempt) (self : CivicPlus.CivicPlusScraper) :
  (forall k text,
      k < retries ->
      (forall j, j < k -> CivicPlus.caught (net j) = true) ->
      net k = Response 404 text ->
      exists tr, CivicPlus.fetch_with_retry_n retries net self = (None, self, tr)
                 /\ requests tr = S k)
  /\ (forall k status pg,
      k < retries ->
      (forall j, j < k -> CivicPlus.caught (net j) = true) ->
      net k = Response status (inr pg) -> status <> 404%Z ->
      exists tr, CivicPlus.fetch_with_retry_n retries net self = (Some (status, pg), self, tr)
                 /\ requests tr = S k)
  /\ ((forall j, j < retries -> CivicPlus.caught (net j) = true) ->
      exists tr,
        CivicPlus.fetch_with_retry_n retries net self
        = (None,
           {| CivicPlus.total_processed := CivicPlus.total_processed self;
              CivicPlus.total_errors := (CivicPlus.total_errors self + 1)%Z |}, tr)
        /\ requests tr = retries).
Proof.
  unfold CivicPlus.fetch_with_retry_n. repeat split.
  - intros k text Hk Hc E.
    destruct (fetch_loop_after_caught retries net k (retries - k) 0 Hc) as (tr0 & R0 & K).
    replace (k + (retries - k)) with retries in K by lia.
    destruct (retries - k) as [|rem] eqn:Er; [lia|].
    erewrite K.
    2:{ simpl. rewrite E. simpl. reflexivity. }
    eexists; split; [reflexivity|].
    unfold requests in *. rewrite filter_app, length_app, R0. simpl. lia.
  - intros k status pg Hk Hc E Hs.
    destruct (fetch_loop_after_caught retries net k (retries - k) 0 Hc) as (tr0 & R0 & K).
    replace (k + (retries - k)) with retries in K by lia.
    destruct (retries - k) as [|rem] eqn:Er; [lia|].
    erewrite K.
    2:{ simpl. rewrite E. apply Z.eqb_neq in Hs. rewrite Hs. reflexivity. }
    eexists; split; [reflexivity|].
    unfold requests in *. rewrite filter_app, length_app, R0. simpl. lia.
  - intros Hc.
    destruct (fetch_loop_exhausted retries net retries 0 Hc) as (tr & E & R).
    rewrite E. eexists; split; [reflexivity | exact R].
Qed.

(** *** [check_url_exists] and [fetch_content] *)

Lemma fetch_content_loop_exhausted (retries : nat) (net : nat -> attempt) :
  forall remaining attempt,
    (forall j, j < remaining -> StaffScraper.caught_get (net (attempt + j)) = true) ->
    exists tr,
      StaffScraper.fetch_content_loop retries net attempt remaining = (None, tr)
      /\ requests tr = remaining.
Proof.
  induction remaining as [|rem IH]; intros a H; simpl.
  - eexists; split; reflexivity.
  - destruct (IH (S a)) as (tr & E & R).
    { intros j Hj. replace (S a + j) with (a + S j) by lia. apply H; lia. }
    specialize (H 0 (Nat.lt_0_succ _)). rewrite Nat.add_0_r in H.
    rewrite E.
    destruct (net a) as [f | status [f | pg]]; simpl in H |- *.
    + eexists; split; [reflexivity|].
      rewrite requests_cons_request, requests_backoff. f_equal. exact R.
    + rewrite H.
      eexists; split; [reflexivity|].
      rewrite requests_cons_request, requests_backoff. f_equal. exact R.
    + discriminate.
Qed.

Lemma fetch_content_loop_after_caught (retries : nat) (net : nat -> attempt) :
  forall k remaining attempt,
    (forall j, j < k -> StaffScraper.caught_get (net (attempt + j)) = true) ->
    exists tr0,
      requests tr0 = k /\
      forall r tr,
        StaffScraper.fetch_content_loop retries net (attempt + k) remaining = (r, tr) ->
        StaffScraper.fetch_content_loop retries net attempt (k + remaining)
        = (r, (tr0 ++ tr)%list).
Proof.
  induction k as [|k IH]; intros rem a H.
  - exists []. split; [reflexivity|]. intros r tr E.
    rewrite Nat.add_0_r in E. exact E.
  - destruct (IH rem (S a)) as (tr0 & R0 & K).
    { intros j Hj. replace (S a + j) with (a + S j) by lia. apply H; lia. }
    specialize (H 0 (Nat.lt_0_succ _)). rewrite Nat.add_0_r in H.
    exists (Request ::
            (if S a <? retries then [Backoff StaffScraper.RETRY_DELAY] else []) ++ tr0)%list.
    split.
    { rewrite requests_cons_request, requests_backoff. f_equal. exact R0. }
    intros r tr E.
    replace (a + S k) with (S a + k) in E by lia.
    apply K in E. simpl. rewrite E.
    destruct (net a) as [f | status [f | pg]]; simpl in H.
    + rewrite <- app_assoc. reflexivity.
    + rewrite H. rewrite <- app_assoc. reflexivity.
    + discriminate.
Qed.

(** [fetch_content]: a status other than 200 ends the fetch with nothing, a
    200 with a readable body ends it with the body, and [retries] attempts
    that raise end it with nothing. *)
Lemma fetch_content_classification (retries : nat) (net : nat -> attempt) :
  (forall k status text,
      k < retries ->
      (forall j, j < k -> StaffScraper.caught_get (net j) = true) ->
      net k = Response status text -> status <> 200%Z ->
      exists tr, StaffScraper.fetch_content_n retries net = (None, tr)
                 /\ requests tr = S k)
  /\ (forall k pg,
      k < retries ->
      (forall j, j < k -> StaffScraper.caught_get (net j) = true) ->
      net k = Response 200 (inr pg) ->
      exists tr, StaffScraper.fetch_content_n retries net = (Some pg, tr)
                 /\ requests tr = S k)
  /\ ((forall j, j < retries -> StaffScraper.caught_get (net j) = true) ->
      exists tr, StaffScraper.fetch_content_n retries net = (None, tr)
                 /\ requests tr = retries).
Proof.
  unfold StaffScraper.fetch_content_n. repeat split.
  - intros k status text Hk Hc E Hs.
    destruct (fetch_content_loop_after_caught retries net k (retries - k) 0 Hc)
      as (tr0 & R0 & K).
    replace (k + (retries - k)) with retries in K by lia.
    destruct (retries - k) as [|rem] eqn:Er; [lia|].
    erewrite K.
    2:{ simpl. rewrite E. apply Z.eqb_neq in Hs. rewrite Hs. reflexivity. }
    eexists; split; [reflexivity|].
    unfold requests in *. rewrite filter_app, length_app, R0. simpl. lia.
  - intros k pg Hk Hc E.
    destruct (fetch_content_loop_after_caught retries net k (retries - k) 0 Hc)
      as (tr0 & R0 & K).
    replace (k + (retries - k)) with retries in K by lia.
    destruct (retries - k) as [|rem] eqn:Er; [lia|].
    erewrite K.
    2:{ simpl. rewrite E. simpl. reflexivity. }
    eexists; split; [reflexivity|].
    unfold requests in *. rewrite filter_app, length_app, R0. simpl. lia.
  - intros Hc.
    destruct (fetch_content_loop_exhausted retries net retries 0 Hc) as (tr & E & R).
    rewrite E. eexists; split; [reflexivity | exact R].
Qed.

(** *** Retry delays *)

Lemma doubling_pow2 (m a : nat) : doubling (map pow2 (seq a m)) = true.
Proof.
  revert a; induction m as [|m IH]; intros a; [reflexivity|].
  specialize (IH (S a)). destruct m as [|m]; [reflexivity|].
  change (map pow2 (seq a (S (S m)))) with (pow2 a :: map pow2 (seq (S a) (S m))).
  change (map pow2 (seq (S a) (S m))) with (pow2 (S a) :: map pow2 (seq (S (S a)) m)) in *.
  cbn [doubling]. apply andb_true_iff. split; [|exact IH].
  apply Z.eqb_eq. unfold pow2. rewrite Nat2Z.inj_succ, Z.pow_succ_r by lia. reflexivity.
Qed.

Lemma nondecreasing_pow2 (m a : nat) : nondecreasing (map pow2 (seq a m)) = true.
Proof.
  revert a; induction m as [|m IH]; intros a; [reflexivity|].
  specialize (IH (S a)). destruct m as [|m]; [reflexivity|].
  change (map pow2 (seq a (S (S m)))) with (pow2 a :: map pow2 (seq (S a) (S m))).
  change (map pow2 (seq (S a) (S m))) with (pow2 (S a) :: map pow2 (seq (S (S a)) m)) in *.
  cbn [nondecreasing]. apply andb_true_iff. split; [|exact IH].
  apply Z.leb_le. unfold pow2. rewrite Nat2Z.inj_succ, Z.pow_succ_r by lia.
  assert (0 < 2 ^ Z.of_nat a)%Z by (apply Z.pow_pos_nonneg; lia). lia.
Qed.

Lemma nondecreasing_repeat (d : Z) (m : nat) : nondecreasing (repeat d m) = true.
Proof.
  induction m as [|m IH]; [reflexivity|].
  destruct m as [|m]; [reflexivity|].
  change (repeat d (S (S m))) with (d :: repeat d (S m)).
  change (repeat d (S m)) with (d :: repeat d m) in *.
  cbn [nondecreasing]. apply andb_true_iff. split; [apply Z.leb_refl | exact IH].
Qed.

Lemma fetch_loop_backoffs (retries : nat) (net : nat -> attempt) :
  forall remaining attempt,
    exists m,
      backoffs (snd (CivicPlus.fetch_loop retries net attempt remaining))
      = map pow2 (seq attempt m)
      /\ (m = 0 \/ attempt + m < retries).
Proof.
  induction remaining as [|rem IH]; intros a; simpl.
  - exists 0; split; [reflexivity | left; reflexivity].
  - destruct (IH (S a)) as (m & E & Hm).
    assert (R : exists m',
      backoffs ((if S a <? retries then [Backoff (2 ^ Z.of_nat a)] else [])
                ++ snd (CivicPlus.fetch_loop retries net (S a) rem))
      = map pow2 (seq a m') /\ (m' = 0 \/ a + m' < retries)).
    { rewrite backoffs_app, E. destruct (S a <? retries) eqn:L.
      - apply Nat.ltb_lt in L. exists (S m). split; [reflexivity|]. right. lia.
      - apply Nat.ltb_ge in L. exists 0. destruct Hm as [-> | Hm]; [|lia].
        split; [reflexivity | left; reflexivity]. }
    destruct (CivicPlus.fetch_loop retries net (S a) rem) as [[r e] tr].
    destruct (net a) as [f | status [f | pg]]; simpl.
    + exact R.
    + destruct (status =? 404)%Z; simpl; [|exact R].
      exists 0; split; [reflexivity | left; reflexivity].
    + destruct (status =? 404)%Z; simpl;
        exists 0; (split; [reflexivity | left; reflexivity]).
Qed.

Lemma check_url_exists_loop_backoffs (retries : nat) (net : nat -> attempt) :
  forall remaining attempt,
    exists m,
      backoffs (snd (StaffScraper.check_url_exists_loop retries net attempt remaining))
      = repeat StaffScraper.RETRY_DELAY m
      /\ (m = 0 \/ attempt + m < retries).
Proof.
  induction remaining as [|rem IH]; intros a; simpl.
  - exists 0; split; [reflexivity | left; reflexivity].
  - destruct (IH (S a)) as (m & E & Hm).
    destruct (StaffScraper.check_url_exists_loop retries net (S a) rem) as [r tr].
    destruct (net a) as [f | status text]; simpl.
    + rewrite backoffs_app. simpl in E. rewrite E. destruct (S a <? retries) eqn:L.
      * apply Nat.ltb_lt in L. exists (S m). split; [reflexivity|]. right. lia.
      * apply Nat.ltb_ge in L. exists 0. destruct Hm as [-> | Hm]; [|lia].
        split; [reflexivity | left; reflexivity].
    + exists 0; split; [reflexivity | left; reflexivity].
Qed.

Lemma fetch_content_loop_backoffs (retries : nat) (net : nat -> attempt) :
  forall remaining attempt,
    exists m,
      backoffs (snd (StaffScraper.fetch_content_loop retries net attempt remaining))
      = repeat StaffScraper.RETRY_DELAY m
      /\ (m = 0 \/ attempt + m < retries).
Proof.
  induction remaining as [|rem IH]; intros a; simpl.
  - exists 0; split; [reflexivity | left; reflexivity].
  - destruct (IH (S a)) as (m & E & Hm).
    assert (R : exists m',
      backoffs ((if S a <? retries then [Backoff StaffScraper.RETRY_DELAY] else [])
                ++ snd (StaffScraper.fetch_content_loop retries net (S a) rem))
      = repeat StaffScraper.RETRY_DELAY m' /\ (m' = 0 \/ a + m' < retries)).
    { rewrite backoffs_app, E. destruct (S a <? retries) eqn:L.
      - apply Nat.ltb_lt in L. exists (S m). split; [reflexivity|]. right. lia.
      - apply Nat.ltb_ge in L. exists 0. destruct Hm as [-> | Hm]; [|lia].
        split; [reflexivity | left; reflexivity]. }
    destruct (StaffScraper.fetch_content_loop retries net (S a) rem) as [r tr].
    destruct (net a) as [f | status [f | pg]]; simpl.
    + exact R.
    + destruct (status =? 200)%Z; simpl; [exact R|].
      exists 0; split; [reflexivity | left; reflexivity].
    + destruct (status =? 200)%Z; simpl;
        exists 0; (split; [reflexivity | left; reflexivity]).
Qed.

End FetchFacts.

Section FetchClaims.
Import Soup Net Samples.
Local Open Scope nat_scope.

(** C5 (amended).  In [fetch_with_retry] a 404 is terminal: no body, no
    further request.  Every other status is terminal as well: the status
    and the body are returned at once, whatever the status.  Only attempts
    that raise are retried, and when all [retries] attempts raise the fetch
    returns nothing and adds one to [total_errors].  In [fetch_content] a
    status other than 200 returns nothing at once, a 200 returns the body,
    and [retries] raising attempts return nothing. *)
Theorem fetch_classification
    (retries : nat) (net : nat -> attempt) (self : CivicPlus.CivicPlusScraper) :
  ((forall k text,
      k < retries ->
      (forall j, j < k -> CivicPlus.caught (net j) = true) ->
      net k = Response 404 text ->
      exists tr, CivicPlus.fetch_with_retry_n retries net self = (None, self, tr)
                 /\ requests tr = S k)
   /\ (forall k status pg,
      k < retries ->
      (forall j, j < k -> CivicPlus.caught (net j) = true) ->
      net k = Response status (inr pg) -> status <> 404%Z ->
      exists tr, CivicPlus.fetch_with_retry_n retries net self = (Some (status, pg), self, tr)
                 /\ requests tr = S k)
   /\ ((forall j, j < retries -> CivicPlus.caught (net j) = true) ->
      exists tr,
        CivicPlus.fetch_with_retry_n retries net self
        = (None,
           {| CivicPlus.total_processed := CivicPlus.total_processed self;
              CivicPlus.total_errors := (CivicPlus.total_errors self + 1)%Z |}, tr)
        /\ requests tr = retries))
  /\
  ((forall k status text,
      k < retries ->
      (forall j, j < k -> StaffScraper.caught_get (net j) = true) ->
      net k = Response status text -> status <> 200%Z ->
      exists tr, StaffScraper.fetch_content_n retries net = (None, tr)
                 /\ requests tr = S k)
   /\ (forall k pg,
      k < retries ->
      (forall j, j < k -> StaffScraper.caught_get (net j) = true) ->
      net k = Response 200 (inr pg) ->
      exists tr, StaffScraper.fetch_content_n retries net = (Some pg, tr)
                 /\ requests tr = S k)
   /\ ((forall j, j < retries -> StaffScraper.caught_get (net j) = true) ->
      exists tr, StaffScraper.fetch_content_n retries net = (None, tr)
                 /\ requests tr = retries)).
Proof.
  split.
  - apply fetch_with_retry_classification.
  - apply fetch_content_classification.
Qed.

(** A timeout followed by a 503: two requests, and the 503 is returned. *)
Lemma fetch_classification_witness :
  exists tr,
    CivicPlus.fetch_with_retry_n 3 timeout_then_503 fresh_scraper
    = (Some (503%Z, blank_page), fresh_scraper, tr)
    /\ requests tr = 2.
Proof.
  destruct (fetch_classification 3 timeout_then_503 fresh_scraper) as ((_ & H & _) & _).
  apply (H 1 503%Z blank_page).
  - lia.
  - intros j Hj. assert (j = 0) as -> by lia. reflexivity.
  - reflexivity.
  - discriminate.
Defined.

(** C5 as stated fails: a 500 is not retried.  Against a server that always
    answers 500, either fetch function makes one request, not
    [REQUEST_RETRY_ATTEMPTS]; [fetch_with_retry] returns the 500 with its
    body and counts no error. *)
Lemma server_error_is_not_retried :
  requests (snd (CivicPlus.fetch_with_retry always_500 fresh_scraper)) = 1
  /\ requests (snd (CivicPlus.fetch_with_retry always_500 fresh_scraper))
     <> CivicPlus.REQUEST_RETRY_ATTEMPTS
  /\ fst (CivicPlus.fetch_with_retry always_500 fresh_scraper)
     = (Some (500%Z, blank_page), fresh_scraper)
  /\ requests (snd (StaffScraper.fetch_content always_500)) = 1
  /\ requests (snd (StaffScraper.fetch_content always_500)) <> StaffScraper.MAX_RETRIES.
Proof.
  repeat split; try reflexivity; vm_compute; discriminate.
Qed.

End FetchClaims.

(** ** The output file of [civicplus_scraper.py] *)

Section CivicPlusFileFacts.
Import PyStr Soup Net Samples CivicPlus.
Local Open Scope string_scope.

Lemma scrape_department_typed response u organization r :
  scrape_department response u organization = Some r -> typed r.
Proof.
  unfold scrape_department. destruct response as [[status html]|]; [|discriminate].
  destruct (negb _); [discriminate|].
  destruct (parse_department_page html u); [|discriminate].
  intros [= <-]. left. reflexivity.
Qed.

Lemma scrape_staff_typed response u organization r :
  scrape_staff response u organization = Some r -> typed r.
Proof.
  unfold scrape_staff. destruct response as [[status html]|]; [|discriminate].
  destruct (negb _); [discriminate|].
  destruct (parse_staff_page html u); [|discriminate].
  intros [= <-]. right. reflexivity.
Qed.

Lemma run_tasks_typed get_of scrape organization :
  (forall response u r, scrape response u organization = Some r -> typed r) ->
  forall urls self, Forall typed (fst (run_tasks get_of scrape organization urls self)).
Proof.
  intros Hs. induction urls as [|u urls IH]; intros self; simpl.
  - constructor.
  - destruct (fetch_with_retry (get_of u) self) as [[response self1] tr].
    specialize (IH self1).
    destruct (run_tasks get_of scrape organization urls self1) as [results self2].
    simpl in IH |- *.
    destruct (scrape response u organization) as [r|] eqn:E; [|exact IH].
    constructor; [eapply Hs; exact E | exact IH].
Qed.

Lemma scrape_municipality_typed get_of shutdown municipality state website self :
  Forall typed (fst (scrape_municipality get_of shutdown municipality state website self)).
Proof.
  unfold scrape_municipality. destruct shutdown; [constructor|].
  pose proof (run_tasks_typed get_of scrape_department (municipality ++ ", " ++ state)
                (fun response u r => scrape_department_typed response u _ r)
                (map (department_url website) (PyNum.range 1 100)) self) as Hd.
  destruct (run_tasks get_of scrape_department _ _ self) as [depts self1].
  pose proof (run_tasks_typed get_of scrape_staff (municipality ++ ", " ++ state)
                (fun response u r => scrape_staff_typed response u _ r)
                (map (staff_url website) (PyNum.range 1 1000)) self1) as Hst.
  destruct (run_tasks get_of scrape_staff _ _ self1) as [staff self2].
  simpl in *. apply Forall_app. split; assumption.
Qed.

Lemma append_batch_data_rows results file :
  Forall typed results -> Forall data_row file ->
  Forall data_row (write_results_batch results file false).
Proof.
  intros Hr Hf. unfold write_results_batch.
  destruct results as [|r results]; [exact Hf|].
  apply Forall_app. split; [exact Hf|].
  change (Forall data_row (map row_of (r :: results))).
  apply Forall_forall. intros l Hl. apply in_map_iff in Hl.
  destruct Hl as (x & <- & Hx). exists x. split; [|reflexivity].
  eapply Forall_forall in Hr; [exact Hr | exact Hx].
Qed.

Lemma main_loop_data_rows get_of shutdown :
  forall municipalities results_buffer file scraper,
    Forall typed results_buffer -> Forall data_row file ->
    let '(buffer', file', _) :=
      main_loop get_of shutdown municipalities results_buffer file scraper in
    Forall typed buffer' /\ Forall data_row file'.
Proof.
  induction municipalities as [|[[municipality state] website] rest IH];
    intros buffer file scraper Hb Hf; cbn [main_loop].
  - split; assumption.
  - destruct shutdown eqn:Es; [split; assumption|].
    pose proof (scrape_municipality_typed get_of false municipality state website scraper)
      as Hm.
    destruct (scrape_municipality get_of false municipality state website scraper)
      as [results scraper1].
    cbn [fst] in Hm.
    assert (Hb1 : Forall typed (buffer ++ results)) by (apply Forall_app; split; assumption).
    destruct (BATCH_SIZE <=? List.length (buffer ++ results))%nat.
    + apply IH; [constructor|]. apply append_batch_data_rows; assumption.
    + apply IH; assumption.
Qed.

Lemma fieldnames_not_data_row : ~ data_row fieldnames.
Proof.
  intros (r & [H | H] & E); unfold fieldnames, row_of in E;
    injection E as E _; rewrite H in E; discriminate.
Qed.

(** C4 (the code departs from the claim).  In every run of
    [civicplus_scraper.main] the output file holds data rows only: the
    header row is never written, because the initialising call
    [write_results_batch([], OUTPUT_FILE, write_header=True)] writes nothing
    for an empty batch.  On a site with one department page the file is the
    single data row of that page. *)
Theorem civicplus_header_never_written :
  (forall get_of shutdown municipalities,
      Forall data_row (main get_of shutdown municipalities)
      /\ ~ In fieldnames (main get_of shutdown municipalities))
  /\ write_results_batch [] [] true = []
  /\ main springfield false [("Springfield", "Ohio", "https://springfieldoh.example/")]
     = [["Municipal Department"; "Springfield, Ohio"; ""; "Parks"; ""; ""; ""; "";
         "https://springfieldoh.example/Directory.aspx?DID=7"]].
Proof.
  split; [|split; [reflexivity | vm_compute; reflexivity]].
  intros get_of shutdown municipalities.
  assert (H : Forall data_row (main get_of shutdown municipalities)).
  { unfold main.
    pose proof (main_loop_data_rows get_of shutdown municipalities [] []
                  {| total_processed := 0; total_errors := 0 |}
                  (Forall_nil _) (Forall_nil _)) as H.
    change (write_results_batch [] [] true) with (@nil row).
    destruct (main_loop get_of shutdown municipalities [] []
                {| total_processed := 0; total_errors := 0 |}) as [[buffer file] scraper].
    destruct H as [Hb Hf].
    destruct buffer as [|r buffer]; [exact Hf|].
    apply append_batch_data_rows; assumption. }
  split; [exact H|].
  intros Hin. eapply Forall_forall in H; [|exact Hin].
  exact (fieldnames_not_data_row H).
Qed.

End CivicPlusFileFacts.

(** ** The writer of [scrape_municipal_staff.py] *)

Section StaffWriterFacts.
Import PyNum PyStr Soup Net StaffScraper.
Local Open Scope string_scope.

Lemma writerows (batch : list record) (f : csv_file) :
  fold_left (fun f r => writerow f (row_of r)) batch f
  = {| flushed := flushed f; pending := (pending f ++ map row_of batch)%list |}.
Proof.
  revert f; induction batch as [|r batch IH]; intros f; simpl.
  - rewrite app_nil_r. destruct f; reflexivity.
  - rewrite IH. simpl. rewrite <- app_assoc. reflexivity.
Qed.

(** What [write_batch_to_csv] does to the output file. *)
Lemma write_batch_to_csv_file (w : world) (batch : list record) (g : globals)
    (f : csv_file) :
  batch <> [] ->
  output_file_handle g = Some f ->
  exists f',
    output_file_handle (write_batch_to_csv w batch g) = Some f'
    /\ rows f' = (rows f ++ map row_of batch)%list
    /\ pending f' = (if flush_due w g then []
                     else pending f ++ map row_of batch)%list.
Proof.
  intros Hb Hf. unfold write_batch_to_csv, flush_due.
  destruct batch as [|r batch]; [contradiction|].
  rewrite Hf, writerows.
  destruct (match flush_state g with
            | Some st => st
            | None => (0%Z, time_of w (time_calls g))
            end) as [batch_count last_flush_time].
  cbn [output_file_handle].
  destruct (_ || _).
  - eexists; split; [reflexivity|]. unfold rows, flush; simpl.
    rewrite app_nil_r. split; [rewrite app_assoc; reflexivity | reflexivity].
  - eexists; split; [reflexivity|]. unfold rows; simpl.
    split; [rewrite app_assoc; reflexivity | reflexivity].
Qed.

(** The functions that write leave the not-found log and the stop flag
    alone. *)
Lemma same_side_refl g : same_side g g.
Proof. split; reflexivity. Qed.

Lemma same_side_trans g1 g2 g3 : same_side g1 g2 -> same_side g2 g3 -> same_side g1 g3.
Proof. intros [A B] [C D]. split; congruence. Qed.

Lemma write_batch_to_csv_side w batch g : same_side g (write_batch_to_csv w batch g).
Proof.
  unfold write_batch_to_csv.
  destruct batch; [apply same_side_refl|].
  destruct (output_file_handle g); [|apply same_side_refl].
  destruct (match flush_state g with Some st => st | None => _ end).
  split; reflexivity.
Qed.

Lemma log_successful_eid_side m s u p d g : same_side g (log_successful_eid m s u p d g).
Proof.
  unfold log_successful_eid. destruct (success_file_handle g); split; reflexivity.
Qed.

Lemma check_auto_save_side w g : same_side g (check_auto_save w g).
Proof.
  unfold check_auto_save. destruct (results_buffer g) eqn:Eb; [apply same_side_refl|].
  cbn [last_auto_save]. destruct (last_auto_save g); [|split; reflexivity].
  destruct (fle _ _); [|split; reflexivity].
  eapply same_side_trans; [|split; reflexivity].
  eapply same_side_trans; [|apply write_batch_to_csv_side]. split; reflexivity.
Qed.

Lemma emit_side w m s u si acc g : same_side g (snd (emit w m s u si acc g)).
Proof.
  unfold emit. cbn [snd].
  destruct (BATCH_SIZE <=? _)%nat.
  - eapply same_side_trans; [apply log_successful_eid_side|].
    eapply same_side_trans; [|split; reflexivity].
    eapply same_side_trans; [|apply write_batch_to_csv_side]. split; reflexivity.
  - eapply same_side_trans; [apply log_successful_eid_side|]. split; reflexivity.
Qed.

Lemma emit_records w m s u si acc g :
  fst (emit w m s u si acc g) = (acc ++ [record_of m s si])%list.
Proof. reflexivity. Qed.

(** The loop of phase 2: the records it returns, and what it leaves alone. *)
Lemma content_loop_spec w m s :
  forall items acc g,
    fst (content_loop w m s items acc g)
    = (acc ++ if should_stop g then []
              else map (record_of m s)
                       (filter (fun si => truthy (person si)) (extractions items)))%list
    /\ same_side g (snd (content_loop w m s items acc g)).
Proof.
  induction items as [|[[u eid] content] items IH]; intros acc g; cbn [content_loop].
  - split; [|apply same_side_refl]. destruct (should_stop g); simpl; rewrite app_nil_r; reflexivity.
  - destruct (should_stop g) eqn:Es.
    { split; [simpl; rewrite app_nil_r; reflexivity | apply same_side_refl]. }
    destruct content as [pg|].
    2:{ destruct (IH acc g) as [A B]. rewrite A, Es. split; [reflexivity | exact B]. }
    unfold extractions. cbn [flat_map snd fst].
    fold (extractions items).
    destruct (extract_staff_info pg u) as [si|] eqn:Ex.
    + destruct (truthy (person si)) eqn:Ep.
      * pose proof (emit_side w m s u si acc g) as Se.
        pose proof (emit_records w m s u si acc g) as Re.
        destruct (emit w m s u si acc g) as [acc1 g1]. cbn [fst snd] in Se, Re.
        subst acc1.
        pose proof (check_auto_save_side w g1) as Sc.
        destruct (IH (acc ++ [record_of m s si])%list (check_auto_save w g1)) as [A B].
        assert (St : should_stop (check_auto_save w g1) = false).
        { destruct Sc as [_ ->]. destruct Se as [_ ->]. exact Es. }
        rewrite A, St. split.
        -- cbn [app filter]. rewrite Ep. cbn [map]. rewrite <- app_assoc. reflexivity.
        -- eapply same_side_trans; [exact Se|]. eapply same_side_trans; [exact Sc | exact B].
      * pose proof (check_auto_save_side w g) as Sc.
        destruct (IH acc (check_auto_save w g)) as [A B].
        assert (St : should_stop (check_auto_save w g) = false).
        { destruct Sc as [_ ->]. exact Es. }
        rewrite A, St. split.
        -- cbn [app filter]. rewrite Ep. reflexivity.
        -- eapply same_side_trans; [exact Sc | exact B].
    + pose proof (check_auto_save_side w g) as Sc.
      destruct (IH acc (check_auto_save w g)) as [A B].
      assert (St : should_stop (check_auto_save w g) = false).
      { destruct Sc as [_ ->]. exact Es. }
      rewrite A, St. split; [reflexivity|].
      eapply same_side_trans; [exact Sc | exact B].
Qed.

Lemma probe_loop_200 g :
  forall items u eid,
    In (u, eid) (probe_loop g items) -> In ((u, eid), Some 200%Z) items.
Proof.
  induction items as [|[[u0 e0] st] items IH]; intros u eid H; cbn [probe_loop] in H.
  - destruct H.
  - destruct (should_stop g); [destruct H|].
    destruct st as [status|]; [|right; apply IH, H].
    destruct (status =? 404)%Z; [right; apply IH, H|].
    destruct (status =? 200)%Z eqn:E200; [|right; apply IH, H].
    destruct H as [[= -> ->] | H]; [|right; apply IH, H].
    left. apply Z.eqb_eq in E200. subst. reflexivity.
Qed.

Lemma in_combine_map {A B : Type} (f : A -> B) (l : list A) (a : A) (b : B) :
  In (a, b) (combine l (map f l)) -> In a l /\ b = f a.
Proof.
  induction l as [|x l IH]; simpl; [intros []|].
  intros [[= -> ->] | H]; [split; [left|]; reflexivity|].
  destruct (IH H) as [A1 A2]. split; [right|]; assumption.
Qed.

Lemma valid_urls_probed w eid_base eid_range g u eid :
  In (u, eid) (valid_urls_of w eid_base eid_range g) -> probe w u = Some 200%Z.
Proof.
  unfold valid_urls_of. intros H. apply probe_loop_200 in H.
  apply in_combine_map in H. destruct H as [_ H]. symmetry. exact H.
Qed.

Lemma extract_staff_info_url pg u si :
  extract_staff_info pg u = Some si -> url si = u.
Proof.
  unfold extract_staff_info. destruct (soup pg); [|discriminate].
  destruct (match bio_text_elem n with Some _ => _ | None => _ end) as [[[d t] p] e].
  intros [= <-]. reflexivity.
Qed.

Lemma extractions_urls items si :
  In si (extractions items) -> exists item, In item items /\ url si = fst (fst item).
Proof.
  unfold extractions. intros H. apply in_flat_map in H.
  destruct H as (item & Hi & H). exists item. split; [exact Hi|].
  destruct (snd item) as [pg|]; [|destruct H].
  destruct (extract_staff_info pg (fst (fst item))) as [si'|] eqn:E; [|destruct H].
  destruct H as [<- | []]. eapply extract_staff_info_url, E.
Qed.

(** Every record of a batch comes from a URL whose probe answered 200. *)
Lemma process_eid_batch_probed w eid_base eid_range m s g r :
  In r (fst (process_eid_batch w eid_base eid_range m s g)) ->
  probe w (url (info r)) = Some 200%Z.
Proof.
  unfold process_eid_batch.
  destruct (content_loop_spec w m s (fetched w eid_base eid_range g) [] g) as [-> _].
  cbn [app]. destruct (should_stop g); [intros []|].
  intros H. apply in_map_iff in H. destruct H as (si & <- & H).
  apply filter_In in H. destruct H as [H _].
  apply extractions_urls in H. destruct H as ([[u eid] content] & Hi & Hu).
  cbn [record_of info]. rewrite Hu. cbn [fst].
  unfold fetched in Hi. apply in_combine_l in Hi.
  eapply valid_urls_probed, Hi.
Qed.

End StaffWriterFacts.

Section StaffWriterClaims.
Import PyNum PyStr Soup Net Samples.
Local Open Scope string_scope.

Lemma fetch_with_retry_result (net : nat -> attempt) (self self' : CivicPlus.CivicPlusScraper) :
  fst (fst (CivicPlus.fetch_with_retry net self))
  = fst (fst (CivicPlus.fetch_with_retry net self')).
Proof.
  unfold CivicPlus.fetch_with_retry, CivicPlus.fetch_with_retry_n.
  destruct (CivicPlus.fetch_loop _ net 0 _) as [[r e] tr]. reflexivity.
Qed.

Lemma run_tasks_keeps get_of scrape organization :
  forall urls self u r,
    In u urls ->
    (forall self', scrape (fst (fst (CivicPlus.fetch_with_retry (get_of u) self')))
                          u organization = Some r) ->
    In r (fst (CivicPlus.run_tasks get_of scrape organization urls self)).
Proof.
  induction urls as [|u0 urls IH]; intros self u r Hu Hs; [destruct Hu|].
  cbn [CivicPlus.run_tasks].
  destruct (CivicPlus.fetch_with_retry (get_of u0) self) as [[response self1] tr] eqn:Ef.
  destruct Hu as [-> | Hu].
  - specialize (Hs self). rewrite Ef in Hs. cbn [fst] in Hs.
    destruct (CivicPlus.run_tasks get_of scrape organization urls self1) as [results self2].
    rewrite Hs. left. reflexivity.
  - specialize (IH self1 u r Hu Hs).
    destruct (CivicPlus.run_tasks get_of scrape organization urls self1) as [results self2].
    cbn [fst] in IH |- *.
    destruct (scrape response u0 organization); [right|]; exact IH.
Qed.

(** C1 (amended).  In the two-phase staff pipeline a record is emitted for a
    successful extraction exactly when the extracted person name is not
    empty: the records of a batch are those built from the successful
    extractions with a non-empty name, in order.  The pipelines of
    [civicplus_scraper] have no identity test: [scrape_department] and
    [scrape_staff] emit a record for every successful extraction of a page
    answered 200, whatever the department name or the person name, the
    empty one included. *)
Theorem emission_and_identity :
  (forall w eid_base eid_range municipality state g,
      StaffScraper.should_stop g = false ->
      fst (StaffScraper.process_eid_batch w eid_base eid_range municipality state g)
      = map (StaffScraper.record_of municipality state)
            (filter (fun si => truthy (StaffScraper.person si))
                    (StaffScraper.extractions
                       (StaffScraper.fetched w eid_base eid_range g))))
  /\ (forall get_of organization urls self u pg info,
      In u urls ->
      (forall self', fst (fst (CivicPlus.fetch_with_retry (get_of u) self'))
                     = Some (200%Z, pg)) ->
      CivicPlus.parse_department_page pg u = Some info ->
      exists r,
        In r (fst (CivicPlus.run_tasks get_of CivicPlus.scrape_department
                                       organization urls self))
        /\ CivicPlus.Note r = u
        /\ CivicPlus.Department r = CivicPlus.dept_department info)
  /\ (forall get_of organization urls self u pg info,
      In u urls ->
      (forall self', fst (fst (CivicPlus.fetch_with_retry (get_of u) self'))
                     = Some (200%Z, pg)) ->
      CivicPlus.parse_staff_page pg u = Some info ->
      exists r,
        In r (fst (CivicPlus.run_tasks get_of CivicPlus.scrape_staff
                                       organization urls self))
        /\ CivicPlus.Note r = u
        /\ CivicPlus.Person r = CivicPlus.person info).
Proof.
  split; [|split].
  - intros w eid_base eid_range municipality state g Hs.
    unfold StaffScraper.process_eid_batch.
    destruct (content_loop_spec w municipality state
                (StaffScraper.fetched w eid_base eid_range g) [] g) as [-> _].
    rewrite Hs. reflexivity.
  - intros get_of organization urls self u pg info Hu Hf Hp.
    eexists. split; [|split].
    + eapply run_tasks_keeps; [exact Hu|]. intros self'.
      rewrite Hf. unfold CivicPlus.scrape_department. cbn [Z.eqb negb].
      rewrite Hp. reflexivity.
    + reflexivity.
    + reflexivity.
  - intros get_of organization urls self u pg info Hu Hf Hp.
    eexists. split; [|split].
    + eapply run_tasks_keeps; [exact Hu|]. intros self'.
      rewrite Hf. unfold CivicPlus.scrape_staff. cbn [Z.eqb negb].
      rewrite Hp. reflexivity.
    + reflexivity.
    + reflexivity.
Qed.

(** Of the staff pages 42 and 43, the first names Jane Doe and the second
    nobody: the batch has Jane Doe's record only. *)
Lemma emission_and_identity_witness :
  fst (StaffScraper.process_eid_batch staff_site eid_base [42; 43]%Z
                                      "Springfield" "Ohio" opened)
  = [jane_record].
Proof.
  exact (eq_trans
           (proj1 emission_and_identity staff_site eid_base [42; 43]%Z
                  "Springfield" "Ohio" opened eq_refl)
           eq_refl).
Defined.

(** C1 as stated fails in [civicplus_scraper], for departments and for
    staff.  Department page 7 of a site answers 200 without a heading: the
    extracted department name is empty and the record is emitted all the
    same.  Staff page 7 of a site answers 200 with a biography block and no
    name: the extracted person name is empty and the record is emitted all
    the same. *)
Lemma nameless_pages_are_emitted :
  fst (CivicPlus.run_tasks headless_site CivicPlus.scrape_department
         "Springfield, Ohio" ["https://springfieldoh.example/Directory.aspx?DID=7"]
         fresh_scraper)
  = [{| CivicPlus.Type_ := "Municipal Department";
        CivicPlus.Organization := "Springfield, Ohio";
        CivicPlus.Person := ""; CivicPlus.Department := "";
        CivicPlus.Title := ""; CivicPlus.Phone := ""; CivicPlus.Email := "";
        CivicPlus.Address := "";
        CivicPlus.Note := "https://springfieldoh.example/Directory.aspx?DID=7" |}]
  /\ fst (CivicPlus.run_tasks vacant_site CivicPlus.scrape_staff
            "Springfield, Ohio" ["https://springfieldoh.example/directory.aspx?EID=7"]
            fresh_scraper)
     = [{| CivicPlus.Type_ := "Municipal Staff";
           CivicPlus.Organization := "Springfield, Ohio";
           CivicPlus.Person := ""; CivicPlus.Department := "Vacant";
           CivicPlus.Title := ""; CivicPlus.Phone := ""; CivicPlus.Email := "";
           CivicPlus.Address := "";
           CivicPlus.Note := "https://springfieldoh.example/directory.aspx?EID=7" |}].
Proof. split; reflexivity. Qed.




(** C3 (amended).  A batch never writes to the not-found log: the call of
    [log_404_eid] is disabled, so a 404 probe appends no entry.  Every
    record of the batch comes from a URL whose probe answered 200; for an id
    whose probe answered 404 no record is emitted. *)
Theorem not_found_ids_leave_no_trace
    (w : StaffScraper.world) (eid_base : string) (eid_range : list Z)
    (municipality state : string) (g : StaffScraper.globals) :
  StaffScraper.not_found_file_handle
    (snd (StaffScraper.process_eid_batch w eid_base eid_range municipality state g))
  = StaffScraper.not_found_file_handle g
  /\ (forall r,
      In r (fst (StaffScraper.process_eid_batch w eid_base eid_range municipality state g)) ->
      StaffScraper.probe w (StaffScraper.url (StaffScraper.info r)) = Some 200%Z)
  /\ (forall eid r,
      StaffScraper.probe w (eid_base ++ str_of_int eid) = Some 404%Z ->
      In r (fst (StaffScraper.process_eid_batch w eid_base eid_range municipality state g)) ->
      StaffScraper.url (StaffScraper.info r) <> eid_base ++ str_of_int eid).
Proof.
  split; [|split].
  - unfold StaffScraper.process_eid_batch.
    destruct (content_loop_spec w municipality state
                (StaffScraper.fetched w eid_base eid_range g) [] g) as [_ [H _]].
    exact H.
  - intros r. apply process_eid_batch_probed.
  - intros eid r H404 Hr E.
    apply process_eid_batch_probed in Hr. rewrite E, H404 in Hr. discriminate.
Qed.

(** C3 as stated fails: the probe of staff id 43 answers 404, and after the
    batch the not-found log still holds its header only; no record was
    emitted either. *)
Lemma not_found_log_gains_nothing :
  StaffScraper.probe site_without_43 (eid_base ++ str_of_int 43) = Some 404%Z
  /\ option_map StaffScraper.rows
       (StaffScraper.not_found_file_handle
          (snd (StaffScraper.process_eid_batch site_without_43 eid_base [43]%Z
                  "Springfield" "Ohio" opened)))
     = Some [["Municipality"; "State"; "URL"]]
  /\ fst (StaffScraper.process_eid_batch site_without_43 eid_base [43]%Z
            "Springfield" "Ohio" opened) = [].
Proof. repeat split. Qed.

End StaffWriterClaims.

(** ** The email of a staff page *)

Section EmailFacts.
Import PyStr Pattern Soup Samples StaffScraper.
Local Open Scope string_scope.

(** Induction on a tree, with the hypothesis on every child. *)
Lemma node_ind_forall (P : node -> Prop) :
  (forall s, P (NavigableString s)) ->
  (forall name attrs cs, Forall P cs -> P (Tag name attrs cs)) ->
  forall n, P n.
Proof.
  intros Hs Ht.
  fix rec 1. intros [s | name attrs cs]; [apply Hs|].
  apply Ht. induction cs as [|c cs IH]; constructor; [apply rec | exact IH].
Qed.

Lemma subtree_trans (n : node) :
  forall m x, In m (subtree n) -> In x (subtree m) -> In x (subtree n).
Proof.
  induction n as [s | name attrs cs IH] using node_ind_forall; intros m x Hm Hx.
  - destruct Hm as [<- | []]. exact Hx.
  - cbn [subtree] in Hm |- *. destruct Hm as [<- | Hm]; [exact Hx|].
    right. apply in_flat_map in Hm. destruct Hm as (c & Hc & Hm).
    apply in_flat_map. exists c. split; [exact Hc|].
    rewrite Forall_forall in IH. eapply IH; eassumption.
Qed.

Lemma descendants_subtree (n x : node) : In x (descendants n) -> In x (subtree n).
Proof. destruct n; [intros []|]. intros H. right. exact H. Qed.

(** What lies below a descendant lies below the node. *)
Lemma descendants_trans (n m x : node) :
  In m (descendants n) -> In x (descendants m) -> In x (descendants n).
Proof.
  destruct n as [s | name attrs cs]; [intros []|].
  cbn [descendants]. intros Hm Hx.
  apply in_flat_map in Hm. destruct Hm as (c & Hc & Hm).
  apply in_flat_map. exists c. split; [exact Hc|].
  eapply subtree_trans; [exact Hm | apply descendants_subtree, Hx].
Qed.

Lemma find_descendant (p : node -> bool) (n x : node) :
  find p n = Some x -> In x (descendants n) /\ p x = true.
Proof. unfold find. intros H. apply find_some in H. exact H. Qed.

(** The loop over the anchors stops at the first [mailto:] link of the
    page, in document order. *)
Lemma first_mailto_find (l : list node) :
  first_mailto (filter is_anchor_with_href l)
  = match List.find is_mailto_anchor l with
    | Some link => drop 7 (href_text link)
    | None => ""
    end.
Proof.
  induction l as [|n l IH]; [reflexivity|].
  cbn [filter List.find]. unfold is_mailto_anchor at 1.
  destruct (is_anchor_with_href n); cbn [andb first_mailto].
  - destruct (startswith (href_text n) "mailto:"); [reflexivity | exact IH].
  - exact IH.
Qed.

Lemma no_mailto_on_page (l : list node) :
  (forall n, In n l -> is_mailto_anchor n = false) ->
  List.find is_mailto_anchor l = None.
Proof.
  intros H. destruct (List.find is_mailto_anchor l) as [x|] eqn:E; [|reflexivity].
  apply find_some in E. destruct E as [Hx Hp]. rewrite (H x Hx) in Hp. discriminate.
Qed.

Lemma no_mailto_in_bio (doc bio : node) :
  (forall n, In n (descendants doc) -> is_mailto_anchor n = false) ->
  bio_text_elem doc = Some bio ->
  bio_email bio = "".
Proof.
  intros H Hb. unfold bio_text_elem in Hb. apply find_descendant in Hb.
  destruct Hb as [Hb _]. unfold bio_email.
  destruct (find is_anchor_with_href bio) as [link|] eqn:El; [|reflexivity].
  apply find_descendant in El. destruct El as [Hl Ha].
  pose proof (H link (descendants_trans doc bio link Hb Hl)) as Hm.
  unfold is_mailto_anchor in Hm. rewrite Ha in Hm. cbn [andb] in Hm.
  rewrite Hm. reflexivity.
Qed.

(** The email of [extract_staff_info], spelled out. *)
Lemma extract_staff_info_email (pg : page) (u : string) (doc : node) :
  soup pg = Some doc ->
  exists si,
    extract_staff_info pg u = Some si
    /\ email si
       = extract_email (html_content pg) doc
           match bio_text_elem doc with
           | Some bio => bio_email bio
           | None => ""
           end.
Proof.
  intros Hs. unfold extract_staff_info. rewrite Hs.
  destruct (bio_text_elem doc) as [bio|].
  - destruct (scan_lines _ "" "") as [t p]. eexists; split; reflexivity.
  - eexists; split; reflexivity.
Qed.

(** C9 (amended).  The email of a staff page is: the address of the first
    anchor with an [href] inside the biography block, when that anchor is a
    [mailto:] link with a non-empty address; otherwise the address of the
    first [mailto:] anchor anywhere on the page, when it is non-empty;
    otherwise, and only when the raw HTML contains [mailto:] in some
    capitalisation, the address [wsd@xsd] rebuilt from the script variable
    assignments, or else from a quoted concatenation with ['@']; otherwise
    the empty string. *)
Theorem email_fallback_chain (pg : page) (u : string) (doc : node) :
  soup pg = Some doc ->
  exists si,
    extract_staff_info pg u = Some si
    /\ email si
       = let in_bio :=
           match bio_text_elem doc with
           | Some bio =>
               match find is_anchor_with_href bio with
               | Some link =>
                   if startswith (href_text link) "mailto:"
                   then drop 7 (href_text link) else ""
               | None => ""
               end
           | None => ""
           end in
         if truthy in_bio then in_bio
         else
           let on_page :=
             match List.find is_mailto_anchor (descendants doc) with
             | Some link => drop 7 (href_text link)
             | None => ""
             end in
           if truthy on_page then on_page
           else if contains "mailto:" (lower (html_content pg))
           then
             match search_var_assign "wsd" (html_content pg),
                   search_var_assign "xsd" (html_content pg) with
             | Some username, Some domain => username ++ "@" ++ domain
             | _, _ =>
                 match search_email_construct (html_content pg) with
                 | Some (username, domain) => username ++ "@" ++ domain
                 | None => ""
                 end
             end
           else "".
Proof.
  intros Hs. destruct (extract_staff_info_email pg u doc Hs) as (si & E & Em).
  exists si. split; [exact E|]. rewrite Em. clear E Em.
  cbv zeta. fold (extract_email_from_javascript (html_content pg)).
  unfold extract_email, find_all. rewrite first_mailto_find.
  change (match bio_text_elem doc with
          | Some bio =>
              match find is_anchor_with_href bio with
              | Some link =>
                  if startswith (href_text link) "mailto:"
                  then drop 7 (href_text link) else ""
              | None => ""
              end
          | None => ""
          end)
    with (match bio_text_elem doc with Some bio => bio_email bio | None => "" end).
  destruct (truthy (match bio_text_elem doc with Some bio => bio_email bio | None => "" end));
    cbn [negb]; [reflexivity|].
  destruct (List.find is_mailto_anchor (descendants doc)) as [link|].
  - destruct (truthy (drop 7 (href_text link))) eqn:Et; cbn [negb andb]; [reflexivity|].
    destruct (contains "mailto:" (lower (html_content pg))); [reflexivity|].
    destruct (drop 7 (href_text link)); [reflexivity | discriminate].
  - cbn [truthy negb andb].
    destruct (contains "mailto:" (lower (html_content pg))); reflexivity.
Qed.

(** Jane Doe's page: the mail link of the biography block gives the email. *)
Lemma email_fallback_chain_witness :
  exists si,
    extract_staff_info jane_page (Samples.eid_base ++ "42") = Some si
    /\ email si = "jdoe@springfieldoh.example".
Proof.
  exact (email_fallback_chain jane_page (Samples.eid_base ++ "42") _ eq_refl).
Defined.

(** C9 as stated fails: a page assigns [wsd] and [xsd] but has no mail link
    and no [mailto:] text; the variables compose [jroe@city.gov], and the
    extracted email is empty. *)
Lemma script_address_needs_mailto_text :
  search_var_assign "wsd" (html_content script_page) = Some "jroe"
  /\ search_var_assign "xsd" (html_content script_page) = Some "city.gov"
  /\ option_map email (extract_staff_info script_page "u") = Some "".
Proof. repeat split. Qed.

(** C10.  On a staff page without any [mailto:] anchor, the email is
    rebuilt from the script when the raw HTML contains [mailto:] in some
    capitalisation, and is empty when it does not, whatever the script
    assigns. *)
Theorem javascript_fallback_is_gated (pg : page) (u : string) (doc : node) :
  soup pg = Some doc ->
  (forall n, In n (descendants doc) -> is_mailto_anchor n = false) ->
  exists si,
    extract_staff_info pg u = Some si
    /\ email si
       = if contains "mailto:" (lower (html_content pg))
         then extract_email_from_javascript (html_content pg)
         else "".
Proof.
  intros Hs Hn. destruct (extract_staff_info_email pg u doc Hs) as (si & E & Em).
  exists si. split; [exact E|]. rewrite Em. clear E Em.
  assert (Hb : match bio_text_elem doc with Some bio => bio_email bio | None => "" end = "").
  { destruct (bio_text_elem doc) as [bio|] eqn:Eb; [|reflexivity].
    eapply no_mailto_in_bio; eassumption. }
  rewrite Hb. unfold extract_email, find_all.
  rewrite first_mailto_find, (no_mailto_on_page _ Hn). cbn [truthy negb andb].
  destruct (contains "mailto:" (lower (html_content pg))); reflexivity.
Qed.

(** Two pages assign the same variables and link no address: without
    [mailto:] in the text the email is empty, with it the email is
    rebuilt. *)
Lemma javascript_fallback_is_gated_witness :
  (exists si,
      extract_staff_info script_page "u" = Some si /\ email si = "")
  /\ extract_email_from_javascript (html_content script_page) = "jroe@city.gov"
  /\ (exists si,
      extract_staff_info obfuscated_page "u" = Some si /\ email si = "jroe@city.gov").
Proof.
  split; [|split].
  - refine (javascript_fallback_is_gated script_page "u" _ eq_refl _).
    intros n Hn. cbn in Hn.
    repeat (destruct Hn as [<- | Hn]; [reflexivity|]). destruct Hn.
  - reflexivity.
  - refine (javascript_fallback_is_gated obfuscated_page "u" _ eq_refl _).
    intros n Hn. cbn in Hn.
    repeat (destruct Hn as [<- | Hn]; [reflexivity|]). destruct Hn.
Defined.

End EmailFacts.

(** ** Candidate URLs *)

Section UrlFacts.
Import PyStr Urllib Samples.
Local Open Scope string_scope.

Lemma append_assoc (a b c : string) : (a ++ b) ++ c = a ++ (b ++ c).
Proof. induction a as [|x a IH]; simpl; [reflexivity | rewrite IH; reflexivity]. Qed.

Lemma append_nil_r (a : string) : a ++ "" = a.
Proof. induction a as [|x a IH]; simpl; [reflexivity | rewrite IH; reflexivity]. Qed.

Lemma has_char_app (c : ascii) (a b : string) :
  has_char c (a ++ b) = has_char c a || has_char c b.
Proof.
  induction a as [|x a IH]; simpl; [reflexivity|]. rewrite IH, orb_assoc. reflexivity.
Qed.

Lemma partition_absent (c : ascii) (s : string) :
  has_char c s = false -> partition c s = None.
Proof.
  induction s as [|x s IH]; simpl; [reflexivity|].
  intros H. apply orb_false_iff in H. destruct H as [H1 H2].
  rewrite H1, (IH H2). reflexivity.
Qed.

Lemma partition_first (c : ascii) (a r : string) :
  has_char c a = false -> partition c (a ++ String c r) = Some (a, r).
Proof.
  induction a as [|x a IH]; simpl.
  - intros _. rewrite Ascii.eqb_refl. reflexivity.
  - intros H. apply orb_false_iff in H. destruct H as [H1 H2].
    rewrite H1, (IH H2). reflexivity.
Qed.

Lemma cut_absent (c : ascii) (s : string) : has_char c s = false -> cut c s = (s, "").
Proof. intros H. unfold cut. rewrite (partition_absent c s H). reflexivity. Qed.

Lemma cut_first (c : ascii) (a r : string) :
  has_char c a = false -> cut c (a ++ String c r) = (a, r).
Proof. intros H. unfold cut. rewrite (partition_first c a r H). reflexivity. Qed.

Lemma host_char_not_delim (c : ascii) : host_char c = true -> is_delim c = false.
Proof.
  destruct c as [[] [] [] [] [] [] [] []]; vm_compute; intros H;
    first [reflexivity | discriminate H].
Qed.

Lemma splitnetloc_host (host rest : string) :
  all_chars host_char host = true ->
  (rest = "" \/ exists c r, rest = String c r /\ is_delim c = true) ->
  splitnetloc (host ++ rest) = (host, rest).
Proof.
  intros Hh Hr. induction host as [|x host IH]; simpl.
  - destruct Hr as [-> | (c & r & -> & Hc)]; simpl; [reflexivity|]. rewrite Hc. reflexivity.
  - simpl in Hh. apply andb_true_iff in Hh. destruct Hh as [Hx Hh].
    rewrite (host_char_not_delim x Hx), (IH Hh). reflexivity.
Qed.

Lemma split_scheme_http (rest default : string) :
  split_scheme ("http" ++ "://" ++ rest) default = ("http", "//" ++ rest).
Proof.
  unfold split_scheme.
  change ("http" ++ "://" ++ rest) with ("http" ++ String ":" ("//" ++ rest)).
  rewrite partition_first by reflexivity. reflexivity.
Qed.

Lemma split_scheme_https (rest default : string) :
  split_scheme ("https" ++ "://" ++ rest) default = ("https", "//" ++ rest).
Proof.
  unfold split_scheme.
  change ("https" ++ "://" ++ rest) with ("https" ++ String ":" ("//" ++ rest)).
  rewrite partition_first by reflexivity. reflexivity.
Qed.

Lemma split_scheme_slash (x default : string) :
  split_scheme (String "/" x) default = (default, String "/" x).
Proof.
  unfold split_scheme. cbn [partition].
  change (Ascii.eqb "/" ":") with false. cbv iota.
  destruct (partition ":" x) as [[l r]|]; reflexivity.
Qed.

Lemma has_char_slashes (c : ascii) (k : nat) :
  Ascii.eqb "/" c = false -> has_char c (slashes k) = false.
Proof.
  intros H. induction k as [|k IH]; cbn [has_char slashes]; [reflexivity|].
  rewrite H, IH. reflexivity.
Qed.

Lemma slashes_delim (k : nat) :
  slashes k = "" \/ exists c r, slashes k = String c r /\ is_delim c = true.
Proof. destruct k; [left; reflexivity|]. right. exists "/"%char, (slashes k). split; reflexivity. Qed.

(** The parse of a site address. *)
Lemma urlparse_site (sch host : string) (k : nat) :
  sch = "http" \/ sch = "https" ->
  all_chars host_char host = true ->
  urlparse (sch ++ "://" ++ host ++ slashes k) ""
  = {| scheme := sch; netloc := host; path := slashes k; params := "";
       query := ""; fragment := "" |}.
Proof.
  intros Hs Hh. unfold urlparse.
  assert (E : split_scheme (sch ++ "://" ++ host ++ slashes k) ""
              = (sch, "//" ++ host ++ slashes k)).
  { destruct Hs as [-> | ->]; [apply split_scheme_http | apply split_scheme_https]. }
  rewrite E.
  change (startswith ("//" ++ host ++ slashes k) "//") with true.
  change (drop 2 ("//" ++ host ++ slashes k)) with (host ++ slashes k).
  cbv iota.
  rewrite (splitnetloc_host host (slashes k) Hh (slashes_delim k)).
  rewrite (cut_absent "#" (slashes k)) by (apply has_char_slashes; reflexivity).
  rewrite (cut_absent "?" (slashes k)) by (apply has_char_slashes; reflexivity).
  rewrite (has_char_slashes ";" k) by reflexivity.
  rewrite andb_false_r. reflexivity.
Qed.

(** The parse of a reference with an absolute path and a query. *)
Lemma urlparse_reference (p q default : string) :
  startswith p "/" = false ->
  has_char "#" p = false -> has_char "?" p = false -> has_char ";" p = false ->
  has_char "#" q = false ->
  urlparse (String "/" p ++ "?" ++ q) default
  = {| scheme := default; netloc := ""; path := String "/" p; params := "";
       query := q; fragment := "" |}.
Proof.
  intros Hp H1 H2 H3 Hq. unfold urlparse.
  change (String "/" p ++ "?" ++ q) with (String "/" (p ++ String "?" q)).
  rewrite split_scheme_slash.
  change (startswith (String "/" (p ++ String "?" q)) "//")
    with (startswith (p ++ String "?" q) "/").
  assert (E : startswith (p ++ String "?" q) "/" = false).
  { destruct p as [|c p]; [reflexivity | exact Hp]. }
  rewrite E.
  rewrite (cut_absent "#" (String "/" (p ++ String "?" q))).
  2:{ change (String "/" (p ++ String "?" q)) with (String "/" p ++ String "?" q).
      rewrite has_char_app. cbn [has_char]. rewrite H1, Hq. reflexivity. }
  change (String "/" (p ++ String "?" q)) with (String "/" p ++ String "?" q).
  rewrite (cut_first "?" (String "/" p) q) by (cbn [has_char]; rewrite H2; reflexivity).
  cbn [has_char]. rewrite H3.
  change (Ascii.eqb "/" ";") with false. cbn [orb]. rewrite andb_false_r. reflexivity.
Qed.

Ltac join_site Hs Hh Hq Hqn p :=
  let Hne := fresh "Hne" in
  let Eb := fresh "Eb" in
  apply andb_true_iff in Hh; destruct Hh as [Hne Hh];
  unfold urljoin;
  match goal with
  | |- context [urlparse (?sch ++ "://" ++ ?host) ""] =>
      pose proof (urlparse_site sch host 0 Hs Hh) as Eb;
      change (slashes 0) with "" in Eb; rewrite append_nil_r in Eb; rewrite Eb;
      cbn [scheme netloc path params query fragment];
      rewrite (urlparse_reference p _ sch) by (reflexivity || exact Hq);
      cbn [scheme netloc path params query fragment];
      destruct host; [discriminate Hne|];
      destruct Hs as [-> | ->]; cbn; rewrite Hqn; rewrite append_assoc; reflexivity
  end.

Lemma urljoin_Directory (sch host q : string) :
  sch = "http" \/ sch = "https" ->
  host_ok host = true ->
  has_char "#" q = false -> truthy q = true ->
  urljoin (sch ++ "://" ++ host) ("/Directory.aspx" ++ "?" ++ q)
  = sch ++ "://" ++ host ++ "/Directory.aspx" ++ "?" ++ q.
Proof. intros Hs Hh Hq Hqn. join_site Hs Hh Hq Hqn "Directory.aspx". Qed.

Lemma urljoin_directory (sch host q : string) :
  sch = "http" \/ sch = "https" ->
  host_ok host = true ->
  has_char "#" q = false -> truthy q = true ->
  urljoin (sch ++ "://" ++ host) ("/directory.aspx" ++ "?" ++ q)
  = sch ++ "://" ++ host ++ "/directory.aspx" ++ "?" ++ q.
Proof. intros Hs Hh Hq Hqn. join_site Hs Hh Hq Hqn "directory.aspx". Qed.

Lemma has_char_uint (c : ascii) (d : Decimal.uint) :
  is_digit c = false -> has_char c (NilEmpty.string_of_uint d) = false.
Proof.
  intros Hc. induction d; cbn [NilEmpty.string_of_uint has_char]; try reflexivity;
    rewrite IHd, orb_false_r;
    match goal with |- Ascii.eqb ?x c = false =>
      destruct (Ascii.eqb x c) eqn:E; [apply Ascii.eqb_eq in E; subst c; discriminate Hc | reflexivity]
    end.
Qed.

Lemma has_char_str_of_int (c : ascii) (n : Z) :
  is_digit c = false -> Ascii.eqb "-" c = false -> has_char c (str_of_int n) = false.
Proof.
  intros Hc Hm. unfold str_of_int, NilZero.string_of_int.
  destruct (Z.to_int n) as [d | d]; unfold NilZero.string_of_uint.
  - destruct d; try (apply has_char_uint; exact Hc).
    cbn [has_char]. destruct (Ascii.eqb "0" c) eqn:E; [|reflexivity].
    apply Ascii.eqb_eq in E. subst c. discriminate Hc.
  - cbn [has_char]. rewrite Hm. cbn [orb].
    destruct d; try (apply has_char_uint; exact Hc).
    cbn [has_char]. destruct (Ascii.eqb "0" c) eqn:E; [|reflexivity].
    apply Ascii.eqb_eq in E. subst c. discriminate Hc.
Qed.

Lemma rstrip_by_all (p : ascii -> bool) (s : string) :
  all_chars p s = true -> rstrip_by p s = "".
Proof.
  induction s as [|c s IH]; cbn [all_chars rstrip_by]; [reflexivity|].
  intros H. apply andb_true_iff in H. destruct H as [Hc Hs].
  rewrite (IH Hs), Hc. reflexivity.
Qed.

Lemma rstrip_by_none (p : ascii -> bool) (s : string) :
  all_chars (fun c => negb (p c)) s = true -> rstrip_by p s = s.
Proof.
  induction s as [|c s IH]; cbn [all_chars rstrip_by]; [reflexivity|].
  intros H. apply andb_true_iff in H. destruct H as [Hc Hs].
  rewrite (IH Hs). apply negb_true_iff in Hc. rewrite Hc.
  destruct s; reflexivity.
Qed.

Lemma rstrip_by_app_drop (p : ascii -> bool) (a b : string) :
  rstrip_by p b = "" -> rstrip_by p (a ++ b) = rstrip_by p a.
Proof.
  intros Hb. induction a as [|c a IH]; cbn [append rstrip_by]; [exact Hb|].
  rewrite IH. reflexivity.
Qed.

Lemma rstrip_by_app_keep (p : ascii -> bool) (a b : string) :
  rstrip_by p b = b -> truthy b = true -> rstrip_by p (a ++ b) = a ++ b.
Proof.
  intros Hb Hn. induction a as [|c a IH]; cbn [append rstrip_by]; [exact Hb|].
  rewrite IH. destruct (a ++ b) eqn:E; [|reflexivity].
  destruct a; [|discriminate E]. cbn [append] in E. subst b. discriminate Hn.
Qed.

Lemma host_char_not_slash (c : ascii) : host_char c = true -> Ascii.eqb "/" c = false.
Proof.
  intros H. apply host_char_not_delim in H. unfold is_delim in H.
  apply orb_false_iff in H. destruct H as [H _]. apply orb_false_iff in H.
  destruct H as [H _]. rewrite Ascii.eqb_sym. exact H.
Qed.

Lemma all_chars_impl (p q : ascii -> bool) (s : string) :
  (forall c, p c = true -> q c = true) -> all_chars p s = true -> all_chars q s = true.
Proof.
  intros Hpq. induction s as [|c s IH]; cbn [all_chars]; [reflexivity|].
  intros H. apply andb_true_iff in H. destruct H as [Hc Hs].
  rewrite (Hpq c Hc), (IH Hs). reflexivity.
Qed.

Lemma all_chars_slashes (k : nat) : all_chars (Ascii.eqb "/") (slashes k) = true.
Proof. induction k as [|k IH]; [reflexivity|]. cbn [slashes all_chars]. rewrite IH. reflexivity. Qed.

Lemma rstrip_slash_site (sch host : string) (k : nat) :
  host_ok host = true ->
  rstrip_slash (sch ++ "://" ++ host ++ slashes k) = sch ++ "://" ++ host.
Proof.
  intros Hh. apply andb_true_iff in Hh. destruct Hh as [Hne Hh].
  unfold rstrip_slash.
  rewrite <- (append_assoc "://" host (slashes k)).
  rewrite <- (append_assoc sch ("://" ++ host) (slashes k)).
  rewrite rstrip_by_app_drop by (apply rstrip_by_all, all_chars_slashes).
  rewrite <- (append_assoc sch "://" host).
  apply rstrip_by_app_keep; [|exact Hne].
  apply rstrip_by_none.
  eapply all_chars_impl; [|exact Hh].
  intros c Hc. rewrite (host_char_not_slash c Hc). reflexivity.
Qed.

Lemma host_ok_with_www (host : string) : host_ok host = true -> host_ok (with_www host) = true.
Proof.
  intros H. unfold with_www. destruct (startswith host "www."); [exact H|].
  apply andb_true_iff in H. destruct H as [_ H].
  unfold host_ok. cbn [append truthy all_chars andb].
  change (host_char "w") with true. change (host_char ".") with true.
  cbn [andb]. exact H.
Qed.

Lemma eid_base_of_site (sch host : string) (k : nat) :
  sch = "http" \/ sch = "https" ->
  host_ok host = true ->
  StaffScraper.eid_base_of (sch ++ "://" ++ host ++ slashes k)
  = sch ++ "://" ++ with_www host ++ "/directory.aspx?EID=".
Proof.
  intros Hs Hh. unfold StaffScraper.eid_base_of.
  assert (E : startswith (sch ++ "://" ++ host ++ slashes k) "http://"
              || startswith (sch ++ "://" ++ host ++ slashes k) "https://" = true).
  { destruct Hs as [-> | ->]; reflexivity. }
  rewrite E.
  pose proof Hh as Hh'. apply andb_true_iff in Hh'. destruct Hh' as [_ Hc].
  rewrite (urlparse_site sch host k Hs Hc).
  cbn [scheme netloc path].
  assert (W : (if negb (startswith host "www.")
               then sch ++ "://www." ++ host ++ slashes k
               else sch ++ "://" ++ host ++ slashes k)
              = sch ++ "://" ++ with_www host ++ slashes k).
  { unfold with_www. destruct (startswith host "www."); cbn [negb]; [reflexivity|].
    destruct Hs as [-> | ->]; reflexivity. }
  rewrite W, (rstrip_slash_site sch (with_www host) k (host_ok_with_www host Hh)).
  apply (urljoin_directory sch (with_www host) "EID=" Hs (host_ok_with_www host Hh));
    reflexivity.
Qed.

(** C8 (amended).  For a site whose address is a scheme [http] or [https],
    [://], a host and any number of trailing slashes, and for every id: the
    department URL and the staff URL of [civicplus_scraper] are the scheme
    and host followed by [/Directory.aspx?DID=<n>] and
    [/directory.aspx?EID=<n>], all trailing slashes removed; the staff URL
    of [scrape_municipal_staff] is the same with [www.] put in front of a
    host that does not start with it. *)
Theorem candidate_urls (sch host : string) (k : nat) (n : Z) :
  sch = "http" \/ sch = "https" ->
  host_ok host = true ->
  CivicPlus.department_url (sch ++ "://" ++ host ++ slashes k) n
  = sch ++ "://" ++ host ++ "/Directory.aspx?DID=" ++ str_of_int n
  /\ CivicPlus.staff_url (sch ++ "://" ++ host ++ slashes k) n
     = sch ++ "://" ++ host ++ "/directory.aspx?EID=" ++ str_of_int n
  /\ StaffScraper.staff_url (sch ++ "://" ++ host ++ slashes k) n
     = sch ++ "://" ++ with_www host ++ "/directory.aspx?EID=" ++ str_of_int n.
Proof.
  intros Hs Hh.
  assert (Hd : has_char "#" (str_of_int n) = false)
    by (apply has_char_str_of_int; reflexivity).
  split; [|split].
  - unfold CivicPlus.department_url. rewrite (rstrip_slash_site sch host k Hh).
    apply (urljoin_Directory sch host ("DID=" ++ str_of_int n) Hs Hh); [|reflexivity].
    cbn [append has_char]. rewrite Hd. reflexivity.
  - unfold CivicPlus.staff_url. rewrite (rstrip_slash_site sch host k Hh).
    apply (urljoin_directory sch host ("EID=" ++ str_of_int n) Hs Hh); [|reflexivity].
    cbn [append has_char]. rewrite Hd. reflexivity.
  - unfold StaffScraper.staff_url. rewrite (eid_base_of_site sch host k Hs Hh).
    rewrite !append_assoc. reflexivity.
Qed.

(** The site of Springfield, with one trailing slash, and id 7. *)
Lemma candidate_urls_witness :
  CivicPlus.department_url "https://springfieldoh.example/" 7
  = "https://springfieldoh.example/Directory.aspx?DID=7"
  /\ CivicPlus.staff_url "https://springfieldoh.example/" 7
     = "https://springfieldoh.example/directory.aspx?EID=7"
  /\ StaffScraper.staff_url "https://springfieldoh.example/" 7
     = "https://www.springfieldoh.example/directory.aspx?EID=7".
Proof.
  exact (candidate_urls "https" "springfieldoh.example" 1 7 (or_intror eq_refl) eq_refl).
Defined.

(** C8 as stated fails: removing the trailing slash is not the only
    normalisation.  The two-phase scraper puts [www.] in front of the host
    (and [https://] in front of an address without a scheme); in
    [civicplus_scraper] a path after the host is replaced, and an address
    without a scheme is dropped altogether. *)
Lemma www_is_put_in_front :
  StaffScraper.staff_url "https://springfieldoh.example" 42
  = "https://www.springfieldoh.example/directory.aspx?EID=42"
  /\ StaffScraper.staff_url "https://springfieldoh.example" 42
     <> rstrip_slash "https://springfieldoh.example" ++ "/directory.aspx?EID=" ++ str_of_int 42
  /\ StaffScraper.staff_url "springfieldoh.example" 42
     = "https://www.springfieldoh.example/directory.aspx?EID=42"
  /\ CivicPlus.department_url "https://springfieldoh.example/gov/" 7
     = "https://springfieldoh.example/Directory.aspx?DID=7"
  /\ CivicPlus.department_url "springfieldoh.example" 7 = "/Directory.aspx?DID=7".
Proof.
  split; [reflexivity|]. split; [vm_compute; discriminate|].
  repeat split.
Qed.

End UrlFacts.

(** ** More on the rate limiter *)

Section LimiterExtras.
Import PyNum RateLimiter LimiterRun.

Lemma init_in_bounds : in_bounds init.
Proof. unfold in_bounds, configured. cbn. repeat split; lia. Qed.

(** X1.  A limiter with the constructor's bounds and factors whose limit
    is within [3, 50] handles every sequence of success and rate-limit
    reports without raising, and its limit stays within [3, 50]. *)
Theorem limiter_stays_within_bounds (es : list report) (r : SmartRateLimiter) :
  in_bounds r ->
  exists r', record_all r es = Some r'
             /\ min_concurrent r' = 3 /\ max_concurrent r' = 50
             /\ 3 <= concurrent_limit r' <= 50.
Proof.
  intros H. destruct (record_all_in_bounds es r H) as (r' & E & (Hmin & Hmax & _) & Hl).
  exists r'. repeat split; try assumption; lia.
Qed.

Lemma limiter_stays_within_bounds_witness :
  exists r', record_all init [SuccessBatch 5; RateLimitBatch 2; RateLimitBatch 7] = Some r'
             /\ min_concurrent r' = 3 /\ max_concurrent r' = 50
             /\ 3 <= concurrent_limit r' <= 50.
Proof.
  exact (limiter_stays_within_bounds
           [SuccessBatch 5; RateLimitBatch 2; RateLimitBatch 7] init init_in_bounds).
Defined.

(** X2.  When the failure streak reaches 2 and the limit is above the
    minimum, [record_rate_limit_batch] strictly lowers the limit, not below
    3, and resets both streak counters. *)
Theorem rate_limit_batch_lowers_limit (r : SmartRateLimiter) (failed_count : Z) :
  in_bounds r ->
  3 < concurrent_limit r ->
  2 <= consecutive_failures r + failed_count ->
  exists r', record_rate_limit_batch r failed_count = Some r'
             /\ 3 <= concurrent_limit r' < concurrent_limit r
             /\ consecutive_failures r' = 0
             /\ consecutive_successes r' = 0.
Proof.
  intros [(Hmin & Hmax & Hb & Hs) Hl] Habove Hstreak.
  unfold record_rate_limit_batch, should_decrease_concurrency.
  cbn [consecutive_failures concurrent_limit backoff_factor].
  apply Z.leb_le in Hstreak. rewrite Hstreak.
  rewrite Hb, scaled_backoff by assumption.
  eexists. split; [reflexivity|]. cbn. rewrite Hmin.
  assert (concurrent_limit r * 7 / 10 < concurrent_limit r)
    by (apply Z.div_lt_upper_bound; lia).
  repeat split; lia.
Qed.

Lemma rate_limit_batch_lowers_limit_witness :
  exists r', record_rate_limit_batch init 2 = Some r'
             /\ 3 <= concurrent_limit r' < concurrent_limit init
             /\ consecutive_failures r' = 0
             /\ consecutive_successes r' = 0.
Proof.
  refine (rate_limit_batch_lowers_limit init 2 init_in_bounds _ _); cbn; lia.
Defined.

(** X3.  When the success streak reaches 5 and the limit is at least 5 and
    below the maximum, [record_success_batch] strictly raises the limit, not
    above 50, and resets both streak counters. *)
Theorem success_batch_raises_limit (r : SmartRateLimiter) (batch_size : Z) :
  in_bounds r ->
  5 <= concurrent_limit r < 50 ->
  5 <= consecutive_successes r + batch_size ->
  exists r', record_success_batch r batch_size = Some r'
             /\ concurrent_limit r < concurrent_limit r' <= 50
             /\ consecutive_successes r' = 0
             /\ consecutive_failures r' = 0.
Proof.
  intros [(Hmin & Hmax & Hb & Hs) Hl] Hrange Hstreak.
  unfold record_success_batch, can_increase_concurrency.
  cbn [consecutive_successes concurrent_limit max_concurrent speedup_factor].
  apply Z.leb_le in Hstreak. rewrite Hstreak, Hmax.
  assert (Hlt : (concurrent_limit r <? 50) = true) by (apply Z.ltb_lt; lia).
  rewrite Hlt. cbn [andb].
  rewrite Hs, scaled_speedup by assumption.
  eexists. split; [reflexivity|]. cbn.
  assert (concurrent_limit r + 1 <= concurrent_limit r * 6 / 5)
    by (apply Z.div_le_lower_bound; lia).
  repeat split; lia.
Qed.

Lemma success_batch_raises_limit_witness :
  exists r', record_success_batch init 5 = Some r'
             /\ concurrent_limit init < concurrent_limit r' <= 50
             /\ consecutive_successes r' = 0
             /\ consecutive_failures r' = 0.
Proof.
  refine (success_batch_raises_limit init 5 init_in_bounds _ _); cbn; lia.
Defined.

Lemma record_counts (r : SmartRateLimiter) (e : report) (r' : SmartRateLimiter) :
  record r e = Some r' ->
  total_requests r' = total_requests r + size_of e
  /\ rate_limited_requests r' = rate_limited_requests r + limited_of e.
Proof.
  destruct e as [n | n]; cbn [record size_of limited_of].
  - unfold record_success_batch. destruct (can_increase_concurrency _).
    + destruct (scaled _ _); [|discriminate]. intros [= <-]. cbn. split; lia.
    + intros [= <-]. cbn. split; lia.
  - unfold record_rate_limit_batch. destruct (should_decrease_concurrency _).
    + destruct (scaled _ _); [|discriminate]. intros [= <-]. cbn. split; lia.
    + intros [= <-]. cbn. split; lia.
Qed.

(** X4.  The statistics counters are exact: after any sequence of reports
    [total_requests] has grown by the sum of all batch sizes and
    [rate_limited_requests] by the sum of the rate-limited counts, whether
    or not the limit was adjusted on the way. *)
Theorem limiter_counts_requests (es : list report) (r : SmartRateLimiter) :
  in_bounds r ->
  exists r', record_all r es = Some r'
             /\ total_requests r' = total_requests r + volume es
             /\ rate_limited_requests r' = rate_limited_requests r + limited es.
Proof.
  revert r. induction es as [|e es IH]; intros r H.
  - exists r. cbn. repeat split; lia.
  - destruct (record_in_bounds r e H) as (r1 & E1 & H1).
    destruct (IH r1 H1) as (r' & E & Ht & Hl).
    destruct (record_counts r e r1 E1) as [Ct Cl].
    exists r'. cbn [record_all]. rewrite E1. split; [exact E|].
    cbn [volume limited fold_right]. fold (volume es). fold (limited es).
    split; lia.
Qed.

Lemma limiter_counts_requests_witness :
  exists r', record_all init [SuccessBatch 40; RateLimitBatch 3; SuccessBatch 7] = Some r'
             /\ total_requests r' = 50
             /\ rate_limited_requests r' = 3.
Proof.
  exact (limiter_counts_requests
           [SuccessBatch 40; RateLimitBatch 3; SuccessBatch 7] init init_in_bounds).
Defined.

End LimiterExtras.

(** ** The website finder *)

Section FinderExtras.
Import PyNum PyStr RateLimiter Finder FinderRun MoreSamples.
Local Open Scope string_scope.

Lemma lower_app (a b : string) : lower (a ++ b) = lower a ++ lower b.
Proof. induction a as [|c a IH]; cbn [append lower]; [reflexivity | rewrite IH; reflexivity]. Qed.

Lemma startswith_app_self (d y : string) : startswith (d ++ y) d = true.
Proof.
  induction d as [|c d IH]; cbn [append startswith]; [reflexivity|].
  rewrite Ascii.eqb_refl, IH. reflexivity.
Qed.

Lemma contains_here (d y : string) : contains d (d ++ y) = true.
Proof.
  destruct (d ++ y) eqn:E; cbn [contains]; rewrite <- E, startswith_app_self; reflexivity.
Qed.

Lemma contains_app_l (d x s : string) : contains d s = true -> contains d (x ++ s) = true.
Proof.
  intros H. induction x as [|c x IH]; cbn [append]; [exact H|].
  cbn [contains]. rewrite IH. apply orb_true_r.
Qed.

Lemma state_domains_lower :
  forallb (fun d => String.eqb (lower d) d) state_domains = true.
Proof. vm_compute. reflexivity. Qed.

(** X5.  A URL in which a state domain of the list occurs anywhere, in any
    capitalisation, is rejected, whatever the title: the test is a substring
    test, so it also rejects a city whose own domain ends in such a name
    ([austin.gov] holds [in.gov]). *)
Theorem state_domain_substring_rejects (a d b title : string) :
  In (lower d) state_domains ->
  is_government_website (a ++ d ++ b) title = false.
Proof.
  intros Hd. unfold is_government_website.
  assert (E : any_in state_domains (lower (a ++ d ++ b)) = true).
  { unfold any_in. apply existsb_exists. exists (lower d). split; [exact Hd|].
    rewrite !lower_app. apply contains_app_l, contains_here. }
  rewrite E. reflexivity.
Qed.

Lemma state_domain_substring_rejects_witness :
  is_government_website "https://www.AUSTIN.gov/departments" "City of Austin" = false.
Proof.
  refine (state_domain_substring_rejects "https://www.AUST" "IN.gov" "/departments"
            "City of Austin" _).
  cbn [lower]. unfold state_domains.
  repeat (first [left; reflexivity | right]).
Defined.

Lemma first_government_site_first (results : list search_result) :
  match first_government_site results with
  | Some url =>
      exists before r after,
        results = (before ++ r :: after)%list
        /\ forallb (fun x => negb (qualifies x)) before = true
        /\ qualifies r = true
        /\ link r = Some url
  | None => forallb (fun x => negb (qualifies x)) results = true
  end.
Proof.
  induction results as [|r results IH]; cbn [first_government_site]; [reflexivity|].
  fold (qualifies r).
  destruct (qualifies r) eqn:Q.
  - exists [], r, results. repeat split; [exact Q|].
    unfold qualifies in Q. apply andb_true_iff in Q. destruct Q as [Q _].
    destruct (link r) as [u|]; [reflexivity | discriminate Q].
  - destruct (first_government_site results) as [url|].
    + destruct IH as (before & x & after & -> & Hb & Hq & Hl).
      exists (r :: before), x, after. repeat split; try assumption.
      cbn [forallb]. rewrite Q. exact Hb.
    + cbn [forallb]. rewrite Q. exact IH.
Qed.

(** X6.  [find_government_website_parallel] answers for the place it was
    asked about.  On organic results it returns the link of the first
    result, among the first ten, that has a link accepted by
    [is_government_website], and ["none"] when none of the ten qualifies;
    results after the tenth are never returned. *)
Theorem finder_returns_first_of_ten (place : string) (results : list search_result) :
  fst (find_government_website_parallel place (Organic results)) = place
  /\ ((exists before r after,
         firstn 10 results = (before ++ r :: after)%list
         /\ forallb (fun x => negb (qualifies x)) before = true
         /\ qualifies r = true
         /\ link r = Some (snd (find_government_website_parallel place (Organic results))))
      \/ (forallb (fun x => negb (qualifies x)) (firstn 10 results) = true
          /\ snd (find_government_website_parallel place (Organic results)) = "none")).
Proof.
  cbn [find_government_website_parallel].
  pose proof (first_government_site_first (firstn 10 results)) as H.
  destruct (first_government_site (firstn 10 results)) as [url|].
  - split; [reflexivity|]. left. exact H.
  - split; [reflexivity|]. right. split; [exact H | reflexivity].
Qed.

Lemma collect_spec (search : service) :
  forall batch final rl sc,
    collect batch
      (map (fun place =>
              match search place with
              | Some outcome => Some (find_government_website_parallel place outcome)
              | None => None
              end) batch) final rl sc
    = ((final ++ map (fun p => (p, website_of search p)) batch)%list,
       (rl + count (rate_limited_place search) batch)%Z,
       (sc + count (found_place search) batch)%Z).
Proof.
  induction batch as [|p batch IH]; intros final rl sc.
  - cbn. rewrite app_nil_r, !Z.add_0_r. reflexivity.
  - assert (Hfst : forall o, fst (find_government_website_parallel p o) = p).
    { intros [rs | |]; cbn; [destruct (first_government_site _)|..]; reflexivity. }
    unfold count. cbn [map collect filter].
    destruct (search p) as [o|] eqn:Es.
    + specialize (Hfst o).
      assert (R : returned search p = Some (snd (find_government_website_parallel p o)))
        by (unfold returned; rewrite Es; reflexivity).
      destruct (find_government_website_parallel p o) as [p' website].
      cbn [fst snd] in Hfst, R. subst p'.
      assert (W : website_of search p
                  = if String.eqb website "rate_limited" then "none" else website)
        by (unfold website_of; rewrite R; reflexivity).
      assert (L : rate_limited_place search p = String.eqb website "rate_limited")
        by (unfold rate_limited_place; rewrite R; reflexivity).
      assert (F : found_place search p
                  = negb (String.eqb website "rate_limited")
                    && negb (String.eqb website "none"))
        by (unfold found_place; rewrite R; reflexivity).
      rewrite W, L, F.
      destruct (String.eqb website "rate_limited") eqn:Er; cbn [negb andb].
      * rewrite IH. unfold count. rewrite <- app_assoc. cbn [app List.length].
        f_equal. f_equal. lia.
      * destruct (String.eqb website "none") eqn:En; cbn [negb].
        -- rewrite IH. unfold count. rewrite <- app_assoc. reflexivity.
        -- rewrite IH. unfold count. rewrite <- app_assoc. cbn [app List.length].
           f_equal. lia.
    + assert (R : returned search p = None) by (unfold returned; rewrite Es; reflexivity).
      assert (W : website_of search p = "none")
        by (unfold website_of; rewrite R; reflexivity).
      assert (L : rate_limited_place search p = false)
        by (unfold rate_limited_place; rewrite R; reflexivity).
      assert (F : found_place search p = false)
        by (unfold found_place; rewrite R; reflexivity).
      rewrite W, L, F, IH. unfold count. rewrite <- app_assoc. reflexivity.
Qed.

Lemma count_nonneg (p : string -> bool) (batch : list string) : (0 <= count p batch)%Z.
Proof. unfold count. lia. Qed.

(** X7.  With a rate limiter within its bounds, [process_batch_parallel]
    does not raise and returns one row per place of the batch, in the order
    of the batch; a task that raised, or that was rate limited, is written
    as ["none"], so the word ["rate_limited"] never reaches the results.
    Each rate-limited task is counted once in [rate_limited_requests], and
    [total_requests] grows by the rate-limited and the found places
    only. *)
Theorem batch_results_and_counts (search : service) (batch : list string)
    (rl : SmartRateLimiter) :
  in_bounds rl ->
  exists final rl',
    process_batch_parallel search batch rl = Some (final, rl')
    /\ final = map (fun p => (p, website_of search p)) batch
    /\ (forall x, In x final -> snd x <> "rate_limited")
    /\ in_bounds rl'
    /\ rate_limited_requests rl'
       = (rate_limited_requests rl + count (rate_limited_place search) batch)%Z
    /\ total_requests rl'
       = (total_requests rl + count (rate_limited_place search) batch
          + count (found_place search) batch)%Z.
Proof.
  intros Hb. unfold process_batch_parallel. rewrite collect_spec. cbn [app].
  rewrite !Z.add_0_l.
  pose proof (count_nonneg (rate_limited_place search) batch) as Hr.
  pose proof (count_nonneg (found_place search) batch) as Hf.
  set (nr := count (rate_limited_place search) batch) in *.
  set (nf := count (found_place search) batch) in *.
  assert (S1 : exists r1,
    (if (0 <? nr)%Z then record_rate_limit_batch rl nr else Some rl) = Some r1
    /\ in_bounds r1
    /\ rate_limited_requests r1 = (rate_limited_requests rl + nr)%Z
    /\ total_requests r1 = (total_requests rl + nr)%Z).
  { destruct (0 <? nr)%Z eqn:E.
    - destruct (record_in_bounds rl (RateLimitBatch nr) Hb) as (r1 & E1 & B1).
      destruct (record_counts rl (RateLimitBatch nr) r1 E1) as [Ct Cl].
      exists r1. cbn [record] in E1. cbn [LimiterRun.size_of LimiterRun.limited_of] in *.
      split; [exact E1 | split; [exact B1 | split; [exact Cl | exact Ct]]].
    - apply Z.ltb_ge in E. exists rl.
      split; [reflexivity | split; [exact Hb | split; lia]]. }
  destruct S1 as (r1 & -> & B1 & L1 & T1).
  assert (S2 : exists r2,
    (if (0 <? nf)%Z then record_success_batch r1 nf else Some r1) = Some r2
    /\ in_bounds r2
    /\ rate_limited_requests r2 = rate_limited_requests r1
    /\ total_requests r2 = (total_requests r1 + nf)%Z).
  { destruct (0 <? nf)%Z eqn:E.
    - destruct (record_in_bounds r1 (SuccessBatch nf) B1) as (r2 & E2 & B2).
      destruct (record_counts r1 (SuccessBatch nf) r2 E2) as [Ct Cl].
      exists r2. cbn [record] in E2. cbn [LimiterRun.size_of LimiterRun.limited_of] in *.
      split; [exact E2 | split; [exact B2 | split; [lia | exact Ct]]].
    - apply Z.ltb_ge in E. exists r1.
      split; [reflexivity | split; [exact B1 | split; lia]]. }
  destruct S2 as (r2 & -> & B2 & L2 & T2).
  eexists _, r2. split; [reflexivity|]. split; [reflexivity|].
  split; [|split; [exact B2 | split; lia]].
  intros x Hx. apply in_map_iff in Hx. destruct Hx as (p & <- & _).
  cbn [snd]. unfold website_of.
  destruct (returned search p) as [website|]; [|discriminate].
  destruct (String.eqb website "rate_limited") eqn:E; [discriminate|].
  intros ->. discriminate E.
Qed.

Lemma batch_results_and_counts_witness :
  exists final rl',
    process_batch_parallel sample_search sample_places init = Some (final, rl')
    /\ final = [("Akron, Ohio", "none"); ("Boise, Idaho", "https://www.cityofboise.org");
                ("Cody, Wyoming", "none")]
    /\ (forall x, In x final -> snd x <> "rate_limited")
    /\ in_bounds rl'
    /\ rate_limited_requests rl' = 1%Z
    /\ total_requests rl' = 2%Z.
Proof.
  exact (batch_results_and_counts sample_search sample_places init init_in_bounds).
Defined.

(** Cutting a list into batches loses nothing. *)
Lemma chunks_concat (b : nat) :
  forall m (l : list string),
    (List.length l <= m * b)%nat ->
    List.concat (map (fun k => firstn b (skipn (k * b) l)) (seq 0 m)) = l.
Proof.
  induction m as [|m IH]; intros l Hl.
  - destruct l; [reflexivity | cbn in Hl; lia].
  - rewrite <- cons_seq, <- seq_shift. cbn [map List.concat]. rewrite map_map.
    change (skipn (0 * b) l) with l.
    transitivity (firstn b l ++ skipn b l)%list; [|apply firstn_skipn].
    f_equal.
    etransitivity; [|apply (IH (skipn b l)); rewrite length_skipn; cbn [Nat.mul] in Hl; lia].
    f_equal. apply map_ext. intros k.
    rewrite skipn_skipn. f_equal. f_equal. cbn [Nat.mul]. lia.
Qed.

Lemma batches_of_concat (b : nat) (places : list string) :
  (0 < b)%nat -> List.concat (batches_of b places) = places.
Proof.
  intros Hb. unfold batches_of. apply chunks_concat.
  pose proof (Nat.div_mod_eq (List.length places + b - 1) b) as E.
  pose proof (Nat.mod_upper_bound (List.length places + b - 1) b ltac:(lia)) as U.
  rewrite (Nat.mul_comm _ b). lia.
Qed.

Lemma batches_of_nil (b : nat) (places : list string) :
  (0 < b)%nat -> batches_of b places = [] -> places = [].
Proof.
  intros Hb E. rewrite <- (batches_of_concat b places Hb), E. reflexivity.
Qed.

Lemma batches_loop_spec (search : service) (use_append : bool) :
  forall batches all_results file rl,
    in_bounds rl ->
    exists rl',
      batches_loop search batches all_results file use_append rl
      = Some ((all_results ++ map (fun p => (p, website_of search p)) (List.concat batches))%list,
              (if use_append
               then file ++ map row_of
                              (map (fun p => (p, website_of search p)) (List.concat batches))
               else match batches with
                    | [] => file
                    | _ => header ::
                           map row_of
                             (all_results
                              ++ map (fun p => (p, website_of search p)) (List.concat batches))
                    end)%list,
              rl')
      /\ in_bounds rl'.
Proof.
  induction batches as [|batch rest IH]; intros all_results file rl Hb.
  - exists rl. cbn [batches_loop List.concat map]. rewrite !app_nil_r.
    split; [|exact Hb]. destruct use_append; reflexivity.
  - cbn [batches_loop].
    destruct (batch_results_and_counts search batch rl Hb)
      as (final & rl1 & -> & -> & _ & Hb1 & _).
    set (f := fun p => (p, website_of search p)) in *.
    destruct (IH (all_results ++ map f batch)%list
                 (if use_append
                  then write_results_to_csv (map f batch) file false true
                  else write_results_to_csv (all_results ++ map f batch)%list file true false)
                 rl1 Hb1) as (rl' & E & Hb').
    exists rl'. split; [|exact Hb'].
    rewrite E. cbn [List.concat]. rewrite !map_app, <- !app_assoc.
    destruct use_append.
    + unfold write_results_to_csv. cbn [andb app negb]. rewrite <- !app_assoc.
      reflexivity.
    + destruct rest as [|batch2 rest]; [|reflexivity].
      unfold write_results_to_csv. cbn [List.concat map andb negb app].
      rewrite !app_nil_r, map_app. reflexivity.
Qed.

(** X8.  With a positive batch size and a rate limiter within its bounds,
    [process_all_places_parallel] returns exactly one result per place, in
    the order of the places.  When there are no existing results the output
    file is rewritten after every batch and ends as the header followed by
    all the results (and is left as it was when there is no place at all);
    when there are existing results, the new rows are appended to the file
    without a header. *)
Theorem every_place_is_written_once (search : service) (places : list string)
    (batch_size : nat) (file : list csv_row) (existing_results : option (list string))
    (rl : SmartRateLimiter) :
  (0 < batch_size)%nat ->
  in_bounds rl ->
  exists rl',
    process_all_places_parallel search places batch_size file existing_results rl
    = Some (map (fun p => (p, website_of search p)) places,
            match existing_results with
            | Some (_ :: _) =>
                (file ++ map row_of (map (fun p => (p, website_of search p)) places))%list
            | _ =>
                match places with
                | [] => file
                | _ => header :: map row_of (map (fun p => (p, website_of search p)) places)
                end
            end,
            rl')
    /\ in_bounds rl'.
Proof.
  intros Hsize Hb. unfold process_all_places_parallel.
  destruct (batches_loop_spec search
              match existing_results with Some (_ :: _) => true | _ => false end
              (batches_of batch_size places) [] file rl Hb) as (rl' & E & Hb').
  exists rl'. split; [|exact Hb'].
  rewrite E, (batches_of_concat batch_size places Hsize). cbn [app].
  assert (F : match batches_of batch_size places with
              | [] => file
              | _ => header :: map row_of (map (fun p => (p, website_of search p)) places)
              end
              = match places with
                | [] => file
                | _ => header :: map row_of (map (fun p => (p, website_of search p)) places)
                end).
  { destruct (batches_of batch_size places) eqn:Eb.
    - rewrite (batches_of_nil batch_size places Hsize Eb). reflexivity.
    - destruct places; [|reflexivity].
      unfold batches_of in Eb. cbn [List.length] in Eb.
      replace ((0 + batch_size - 1) / batch_size)%nat with 0%nat in Eb
        by (symmetry; apply Nat.div_small; lia).
      discriminate Eb. }
  destruct existing_results as [[|e es]|]; rewrite ?F; reflexivity.
Qed.

Lemma every_place_is_written_once_witness :
  exists rl',
    process_all_places_parallel sample_search sample_places 2 [] None init
    = Some ([("Akron, Ohio", "none"); ("Boise, Idaho", "https://www.cityofboise.org");
             ("Cody, Wyoming", "none")],
            [["place"; "website"]; ["Akron, Ohio"; "none"];
             ["Boise, Idaho"; "https://www.cityofboise.org"]; ["Cody, Wyoming"; "none"]],
            rl')
    /\ in_bounds rl'.
Proof.
  exact (every_place_is_written_once sample_search sample_places 2 [] None init
           (Nat.lt_0_succ 1) init_in_bounds).
Defined.

End FinderExtras.

(** ** The staff scraper as a whole *)

Section StaffRunExtras.
Import PyNum PyStr Soup Net StaffScraper StaffRun Samples.
Local Open Scope string_scope.

Lemma advances_refl m s g : advances m s g g [].
Proof.
  split; [|split].
  - intros f Hf. exists f. split; [exact Hf|]. cbn [map]. rewrite app_nil_r. reflexivity.
  - intros H. exact H.
  - intros f Hf. exists f. split; [exact Hf|]. cbn [map]. rewrite app_nil_r.
    split; [reflexivity | intros H; exact H].
Qed.

Lemma advances_trans m s g1 g2 g3 e1 e2 :
  advances m s g1 g2 e1 -> advances m s g2 g3 e2 -> advances m s g1 g3 (e1 ++ e2).
Proof.
  intros (A1 & B1 & C1) (A2 & B2 & C2). split; [|split].
  - intros f Hf. destruct (A1 f Hf) as (f2 & Hf2 & L2).
    destruct (A2 f2 Hf2) as (f3 & Hf3 & L3).
    exists f3. split; [exact Hf3|]. rewrite L3, L2, map_app, app_assoc. reflexivity.
  - intros H. apply B2, B1, H.
  - intros f Hf. destruct (C1 f Hf) as (f2 & Hf2 & R2 & P2).
    destruct (C2 f2 Hf2) as (f3 & Hf3 & R3 & P3).
    exists f3. split; [exact Hf3|]. split.
    + rewrite R3, R2, map_app, app_assoc. reflexivity.
    + intros H. apply P3, P2, H.
Qed.

Lemma write_batch_to_csv_frame w batch g :
  success_file_handle (write_batch_to_csv w batch g) = success_file_handle g
  /\ results_buffer (write_batch_to_csv w batch g) = results_buffer g.
Proof.
  unfold write_batch_to_csv.
  destruct batch; [split; reflexivity|].
  destruct (output_file_handle g); [|split; reflexivity].
  destruct (match flush_state g with Some st => st | None => _ end).
  split; reflexivity.
Qed.

(** Writing the buffer and clearing it. *)
Lemma write_and_clear_advances w m s g :
  advances m s g (set_results_buffer (write_batch_to_csv w (results_buffer g) g) []) [].
Proof.
  destruct (write_batch_to_csv_frame w (results_buffer g) g) as [Fs Fb].
  split; [|split].
  - intros f Hf. cbn [map]. rewrite app_nil_r.
    destruct (results_buffer g) as [|r b] eqn:Eb.
    + cbn [write_batch_to_csv]. exists f. split; [exact Hf|].
      unfold ledger. cbn [set_results_buffer output_file_handle results_buffer].
      rewrite Eb. reflexivity.
    + destruct (write_batch_to_csv_file w (r :: b) g f) as (f' & Hf' & R & _);
        [discriminate | exact Hf |].
      exists f'. split; [exact Hf'|].
      unfold ledger. cbn [set_results_buffer output_file_handle results_buffer map].
      rewrite Hf', Hf, Eb, app_nil_r. exact R.
  - intros _. cbn. unfold BATCH_SIZE. lia.
  - intros f Hf. exists f. cbn [set_results_buffer success_file_handle].
    rewrite Fs. split; [exact Hf|]. cbn [map]. rewrite app_nil_r.
    split; [reflexivity | intros H; exact H].
Qed.

Lemma tick_advances m s g n :
  advances m s g
    {| should_stop := should_stop g; results_buffer := results_buffer g;
       output_file_handle := output_file_handle g;
       success_file_handle := success_file_handle g;
       not_found_file_handle := not_found_file_handle g;
       last_auto_save := n; flush_state := flush_state g;
       time_calls := S (time_calls g) |} [].
Proof.
  split; [|split].
  - intros f Hf. exists f. split; [exact Hf|]. cbn [map]. rewrite app_nil_r. reflexivity.
  - intros H. exact H.
  - intros f Hf. exists f. split; [exact Hf|]. cbn [map]. rewrite app_nil_r.
    split; [reflexivity | intros H; exact H].
Qed.

Lemma check_auto_save_advances w m s g : advances m s g (check_auto_save w g) [].
Proof.
  unfold check_auto_save.
  destruct (results_buffer g) as [|r b] eqn:Eb.
  { apply advances_refl. }
  rewrite <- Eb. clear Eb. cbn [last_auto_save].
  destruct (last_auto_save g) as [saved|] eqn:El.
  - destruct (fle _ _).
    + change (@nil record) with (@nil record ++ [])%list.
      eapply advances_trans; [apply (tick_advances m s g (last_auto_save g))|].
      rewrite El.
      apply (write_and_clear_advances w m s
        {| should_stop := should_stop g; results_buffer := results_buffer g;
           output_file_handle := output_file_handle g;
           success_file_handle := success_file_handle g;
           not_found_file_handle := not_found_file_handle g;
           last_auto_save := Some saved; flush_state := flush_state g;
           time_calls := S (time_calls g) |}).
    + apply (tick_advances m s g (Some saved)).
  - apply (tick_advances m s g (Some (time_of w (time_calls g)))).
Qed.

Lemma emit_advances w m s u si acc g :
  url si = u -> advances m s g (snd (emit w m s u si acc g)) [record_of m s si].
Proof.
  intros Hu. unfold emit. cbn [snd].
  set (g1 := log_successful_eid m s u (person si) (department si) g).
  set (g2 := set_results_buffer g1 _).
  assert (O1 : output_file_handle g2 = output_file_handle g).
  { unfold g2, g1, log_successful_eid. destruct (success_file_handle g); reflexivity. }
  assert (B1 : results_buffer g2 = (results_buffer g ++ [record_of m s si])%list).
  { unfold g2, g1, log_successful_eid. destruct (success_file_handle g); reflexivity. }
  assert (S1 : forall f, success_file_handle g = Some f ->
                 success_file_handle g2
                 = Some (flush (writerow f [m; s; u; person si; department si]))).
  { intros f Hf. unfold g2, g1, log_successful_eid. rewrite Hf. reflexivity. }
  assert (L1 : forall f, output_file_handle g = Some f ->
                 ledger g2 = (ledger g ++ map row_of [record_of m s si])%list).
  { intros f Hf. unfold ledger. rewrite O1, B1, Hf, map_app, app_assoc. reflexivity. }
  destruct (write_and_clear_advances w m s g2) as (A & B & C).
  split; [|split].
  - intros f Hf. destruct (BATCH_SIZE <=? _)%nat.
    + destruct (A f (eq_trans O1 Hf)) as (f' & Hf' & L). exists f'.
      split; [exact Hf'|]. rewrite L. cbn [map]. rewrite app_nil_r. apply (L1 f Hf).
    + exists f. split; [exact (eq_trans O1 Hf) | apply (L1 f Hf)].
  - intros _. destruct (BATCH_SIZE <=? List.length (results_buffer g2))%nat eqn:E.
    + cbn. unfold BATCH_SIZE. lia.
    + apply Nat.leb_gt in E. exact E.
  - intros f Hf. pose proof (S1 f Hf) as Hs.
    assert (R1 : rows (flush (writerow f [m; s; u; person si; department si]))
                 = (rows f ++ map (success_entry m s) [record_of m s si])%list).
    { unfold rows, flush, writerow, success_entry. cbn. rewrite Hu, !app_nil_r, app_assoc.
      reflexivity. }
    destruct (BATCH_SIZE <=? _)%nat.
    + destruct (C _ Hs) as (f' & Hf' & R & P). exists f'. split; [exact Hf'|]. split.
      * rewrite R. cbn [map]. rewrite app_nil_r. exact R1.
      * intros _. apply P. reflexivity.
    + eexists. split; [exact Hs|]. split; [exact R1 | intros _; reflexivity].
Qed.

(** The loop of phase 2. *)
Lemma content_loop_advances w m s :
  forall items acc g,
    exists emitted,
      fst (content_loop w m s items acc g) = (acc ++ emitted)%list
      /\ advances m s g (snd (content_loop w m s items acc g)) emitted.
Proof.
  induction items as [|[[u eid] content] items IH]; intros acc g; cbn [content_loop].
  - exists []. split; [cbn; rewrite app_nil_r; reflexivity | apply advances_refl].
  - destruct (should_stop g).
    { exists []. split; [cbn; rewrite app_nil_r; reflexivity | apply advances_refl]. }
    destruct content as [pg|]; [|apply IH].
    assert (Step : forall acc' g' e, acc' = (acc ++ e)%list -> advances m s g g' e ->
              exists emitted,
                fst (content_loop w m s items acc' (check_auto_save w g'))
                = (acc ++ emitted)%list
                /\ advances m s g
                     (snd (content_loop w m s items acc' (check_auto_save w g'))) emitted).
    { intros acc' g' e -> Hadv.
      destruct (IH (acc ++ e)%list (check_auto_save w g')) as (e' & F & A).
      exists (e ++ e')%list. split; [rewrite F, app_assoc; reflexivity|].
      eapply advances_trans; [|exact A].
      rewrite <- (app_nil_r e). eapply advances_trans; [exact Hadv|].
      apply check_auto_save_advances. }
    destruct (extract_staff_info pg u) as [si|] eqn:E.
    + destruct (truthy (person si)).
      * destruct (emit w m s u si acc g) as [acc' g'] eqn:Ee.
        apply (Step acc' g' [record_of m s si]).
        -- change acc' with (fst (acc', g')). rewrite <- Ee. apply emit_records.
        -- change g' with (snd (acc', g')). rewrite <- Ee. apply emit_advances.
           eapply extract_staff_info_url, E.
      * apply (Step acc g []); [rewrite app_nil_r; reflexivity | apply advances_refl].
    + apply (Step acc g []); [rewrite app_nil_r; reflexivity | apply advances_refl].
Qed.

Lemma process_eid_batch_advances w eid_base eid_range m s g :
  advances m s g (snd (process_eid_batch w eid_base eid_range m s g))
           (fst (process_eid_batch w eid_base eid_range m s g)).
Proof.
  unfold process_eid_batch.
  destruct (content_loop_advances w m s (fetched w eid_base eid_range g) [] g)
    as (e & F & A).
  rewrite F. exact A.
Qed.

Lemma batches_loop_advances w eid_base m s :
  forall batches records g,
    exists emitted,
      fst (batches_loop w eid_base m s batches records g) = (records ++ emitted)%list
      /\ advances m s g (snd (batches_loop w eid_base m s batches records g)) emitted.
Proof.
  induction batches as [|b batches IH]; intros records g; cbn [batches_loop].
  - exists []. split; [cbn; rewrite app_nil_r; reflexivity | apply advances_refl].
  - destruct (should_stop g).
    { exists []. split; [cbn; rewrite app_nil_r; reflexivity | apply advances_refl]. }
    pose proof (process_eid_batch_advances w eid_base b m s g) as A.
    destruct (process_eid_batch w eid_base b m s g) as [e g'].
    cbn [fst snd] in A.
    destruct (IH (records ++ e)%list g') as (e' & F & A').
    exists (e ++ e')%list. split; [rewrite F, app_assoc; reflexivity|].
    eapply advances_trans; [exact A | exact A'].
Qed.

Lemma process_municipality_advances w m s website g :
  advances m s g (snd (process_municipality w m s website g))
           (fst (process_municipality w m s website g)).
Proof.
  unfold process_municipality.
  destruct (batches_loop_advances w (eid_base_of website) m s eid_batches [] g)
    as (e & F & A).
  rewrite F. exact A.
Qed.

Lemma finish_spec w g f :
  output_file_handle g = Some f ->
  output_file_handle (finish w g) = Some {| flushed := ledger g; pending := [] |}
  /\ results_buffer (finish w g) = [].
Proof.
  intros Hf. unfold finish.
  destruct (results_buffer g) as [|r b] eqn:Eb.
  - cbn [output_file_handle results_buffer]. rewrite Hf, Eb. split; [|reflexivity].
    unfold ledger. rewrite Hf, Eb. cbn. rewrite app_nil_r. reflexivity.
  - rewrite <- Eb.
    destruct (write_and_clear_advances w "" "" g) as (A & _ & _).
    destruct (A f Hf) as (f' & Hf' & L).
    cbn [output_file_handle results_buffer]. split; [|reflexivity].
    cbn [set_results_buffer output_file_handle] in Hf' |- *. rewrite Hf'.
    cbn [map] in L. rewrite app_nil_r in L. rewrite <- L.
    unfold ledger. cbn [set_results_buffer output_file_handle results_buffer map].
    rewrite Hf', app_nil_r. reflexivity.
Qed.

Lemma finish_success w g :
  success_file_handle (finish w g) = close (success_file_handle g).
Proof.
  unfold finish. destruct (results_buffer g) as [|r b] eqn:Eb; [reflexivity|].
  cbn [success_file_handle set_results_buffer].
  rewrite (proj1 (write_batch_to_csv_frame w (r :: b) g)). reflexivity.
Qed.

(** X9.  While the output file is open, no record is lost and none is
    written twice: a batch of staff ids, and the whole run of a
    municipality, leave the file open and add to the rows written to the
    file and the rows still waiting in the buffer, taken together, exactly
    the rows of the records returned, in order. *)
Theorem no_record_lost_or_duplicated
    (w : world) (eid_base : string) (eid_range : list Z)
    (municipality state website : string) (g : globals) (f : csv_file) :
  output_file_handle g = Some f ->
  (exists f',
      output_file_handle
        (snd (process_eid_batch w eid_base eid_range municipality state g)) = Some f'
      /\ ledger (snd (process_eid_batch w eid_base eid_range municipality state g))
         = (ledger g
            ++ map row_of
                 (fst (process_eid_batch w eid_base eid_range municipality state g)))%list)
  /\ (exists f',
      output_file_handle (snd (process_municipality w municipality state website g))
      = Some f'
      /\ ledger (snd (process_municipality w municipality state website g))
         = (ledger g
            ++ map row_of
                 (fst (process_municipality w municipality state website g)))%list).
Proof.
  intros Hf. split.
  - apply (proj1 (process_eid_batch_advances w eid_base eid_range municipality state g) f Hf).
  - apply (proj1 (process_municipality_advances w municipality state website g) f Hf).
Qed.

Lemma no_record_lost_or_duplicated_witness :
  (exists f',
      output_file_handle
        (snd (process_eid_batch staff_site Samples.eid_base [42%Z] "Springfield" "Ohio" opened))
      = Some f'
      /\ ledger (snd (process_eid_batch staff_site Samples.eid_base [42%Z]
                        "Springfield" "Ohio" opened))
         = (ledger opened
            ++ map row_of
                 (fst (process_eid_batch staff_site Samples.eid_base [42%Z]
                         "Springfield" "Ohio" opened)))%list)
  /\ (exists f',
      output_file_handle
        (snd (process_municipality staff_site "Springfield" "Ohio"
                "springfieldoh.example" opened))
      = Some f'
      /\ ledger (snd (process_municipality staff_site "Springfield" "Ohio"
                        "springfieldoh.example" opened))
         = (ledger opened
            ++ map row_of
                 (fst (process_municipality staff_site "Springfield" "Ohio"
                         "springfieldoh.example" opened)))%list).
Proof.
  apply (no_record_lost_or_duplicated staff_site Samples.eid_base [42%Z]
           "Springfield" "Ohio" "springfieldoh.example" opened (created header)).
  reflexivity.
Defined.

(** X10.  The buffer never holds [BATCH_SIZE] records between steps: if it
    holds fewer than [BATCH_SIZE] before a batch of staff ids, or before the
    run of a municipality, it holds fewer than [BATCH_SIZE] after it. *)
Theorem buffer_stays_below_batch_size
    (w : world) (eid_base : string) (eid_range : list Z)
    (municipality state website : string) (g : globals) :
  (List.length (results_buffer g) < BATCH_SIZE)%nat ->
  (List.length
     (results_buffer (snd (process_eid_batch w eid_base eid_range municipality state g)))
   < BATCH_SIZE)%nat
  /\ (List.length
        (results_buffer (snd (process_municipality w municipality state website g)))
      < BATCH_SIZE)%nat.
Proof.
  intros Hb. split.
  - apply (proj1 (proj2 (process_eid_batch_advances w eid_base eid_range
                           municipality state g)) Hb).
  - apply (proj1 (proj2 (process_municipality_advances w municipality state website g)) Hb).
Qed.

Lemma buffer_stays_below_batch_size_witness :
  (List.length
     (results_buffer
        (snd (process_eid_batch staff_site Samples.eid_base [42%Z] "Springfield" "Ohio" opened)))
   < BATCH_SIZE)%nat
  /\ (List.length
        (results_buffer
           (snd (process_municipality staff_site "Springfield" "Ohio"
                   "springfieldoh.example" opened)))
      < BATCH_SIZE)%nat.
Proof.
  apply (buffer_stays_below_batch_size staff_site Samples.eid_base [42%Z]
           "Springfield" "Ohio" "springfieldoh.example" opened).
  unfold BATCH_SIZE. cbn. lia.
Defined.

(** X11.  The success log has one entry for each record returned, in the
    order of the records, and nothing of it is left unflushed: with the log
    open and nothing pending, a batch of staff ids, and the run of a
    municipality, leave it open with the entries of the returned records
    appended and nothing pending. *)
Theorem success_log_matches_records
    (w : world) (eid_base : string) (eid_range : list Z)
    (municipality state website : string) (g : globals) (f : csv_file) :
  success_file_handle g = Some f ->
  pending f = [] ->
  (exists f',
      success_file_handle
        (snd (process_eid_batch w eid_base eid_range municipality state g)) = Some f'
      /\ rows f'
         = (rows f
            ++ map (success_entry municipality state)
                 (fst (process_eid_batch w eid_base eid_range municipality state g)))%list
      /\ pending f' = [])
  /\ (exists f',
      success_file_handle (snd (process_municipality w municipality state website g))
      = Some f'
      /\ rows f'
         = (rows f
            ++ map (success_entry municipality state)
                 (fst (process_municipality w municipality state website g)))%list
      /\ pending f' = []).
Proof.
  intros Hf Hp. split.
  - destruct (proj2 (proj2 (process_eid_batch_advances w eid_base eid_range
                              municipality state g)) f Hf) as (f' & Hf' & R & P).
    exists f'. split; [exact Hf'|]. split; [exact R | exact (P Hp)].
  - destruct (proj2 (proj2 (process_municipality_advances w municipality state website g))
                f Hf) as (f' & Hf' & R & P).
    exists f'. split; [exact Hf'|]. split; [exact R | exact (P Hp)].
Qed.

Lemma success_log_matches_records_witness :
  (exists f',
      success_file_handle
        (snd (process_eid_batch staff_site Samples.eid_base [42%Z] "Springfield" "Ohio" opened))
      = Some f'
      /\ rows f'
         = (rows (created ["Municipality"; "State"; "URL"; "Person"; "Department"])
            ++ map (success_entry "Springfield" "Ohio")
                 (fst (process_eid_batch staff_site Samples.eid_base [42%Z]
                         "Springfield" "Ohio" opened)))%list
      /\ pending f' = [])
  /\ (exists f',
      success_file_handle
        (snd (process_municipality staff_site "Springfield" "Ohio"
                "springfieldoh.example" opened))
      = Some f'
      /\ rows f'
         = (rows (created ["Municipality"; "State"; "URL"; "Person"; "Department"])
            ++ map (success_entry "Springfield" "Ohio")
                 (fst (process_municipality staff_site "Springfield" "Ohio"
                         "springfieldoh.example" opened)))%list
      /\ pending f' = []).
Proof.
  apply (success_log_matches_records staff_site Samples.eid_base [42%Z]
           "Springfield" "Ohio" "springfieldoh.example" opened
           (created ["Municipality"; "State"; "URL"; "Person"; "Department"]));
    reflexivity.
Defined.

Lemma content_loop_stopped w m s items acc g :
  should_stop g = true -> content_loop w m s items acc g = (acc, g).
Proof.
  intros Hs. destruct items as [|[[u eid] content] items]; cbn [content_loop];
    [|rewrite Hs]; reflexivity.
Qed.

(** X12.  After [signal_handler] has run, processing yields nothing more:
    a batch of staff ids and the run of a municipality return no record and
    leave the buffer, the three files and every other global as the handler
    left them. *)
Theorem nothing_is_processed_after_a_signal
    (w : world) (eid_base : string) (eid_range : list Z)
    (municipality state website : string) (g : globals) :
  process_eid_batch w eid_base eid_range municipality state (signal_handler g)
  = ([], signal_handler g)
  /\ process_municipality w municipality state website (signal_handler g)
     = ([], signal_handler g).
Proof.
  split.
  - unfold process_eid_batch. apply content_loop_stopped. reflexivity.
  - unfold process_municipality.
    destruct eid_batches as [|b bs]; reflexivity.
Qed.

(** X13.  A run of [main] over one municipality leaves everything on disk:
    after the files are opened, the municipality is processed and the
    [finally] block has run, the output file holds the header followed by
    the rows of all the records returned, in order, the success log holds
    its header followed by one entry for each of them, neither file has
    anything unflushed, and the buffer is empty. *)
Theorem single_municipality_run_is_written_out
    (w : world) (municipality state website : string) :
  let run := process_municipality w municipality state website
               (open_output_files initial) in
  output_file_handle (finish w (snd run))
  = Some {| flushed := header :: map row_of (fst run); pending := [] |}
  /\ success_file_handle (finish w (snd run))
     = Some {| flushed := ["Municipality"; "State"; "URL"; "Person"; "Department"]
                          :: map (success_entry municipality state) (fst run);
               pending := [] |}
  /\ results_buffer (finish w (snd run)) = [].
Proof.
  cbv zeta.
  destruct (process_municipality_advances w municipality state website
              (open_output_files initial)) as (A & _ & C).
  destruct (A (created header) eq_refl) as (f' & Hf' & L).
  destruct (C (created ["Municipality"; "State"; "URL"; "Person"; "Department"]) eq_refl)
    as (s' & Hs' & R & P).
  destruct (finish_spec w _ f' Hf') as [Fo Fb].
  split; [|split].
  - rewrite Fo, L. reflexivity.
  - rewrite finish_success, Hs'. cbn [close option_map]. unfold flush.
    rewrite (P eq_refl). f_equal. f_equal.
    transitivity (rows s'); [unfold rows; rewrite (P eq_refl); reflexivity|].
    rewrite R. reflexivity.
  - exact Fb.
Qed.

End StaffRunExtras.


(** ** The probe of the staff scraper *)

Section ProbeExtras.
Import Soup Net StaffScraper StaffRun Samples.
Local Open Scope nat_scope.

Lemma all_raise_at (k : nat) (net : nat -> attempt) (j : nat) :
  all_raise k net = true -> j < k -> exists f, net j = Raised f.
Proof.
  unfold all_raise. intros H Hj.
  rewrite forallb_forall in H. specialize (H j).
  destruct (net j) as [f|status text]; [exists f; reflexivity|].
  discriminate H. apply in_seq. lia.
Qed.

Lemma check_url_exists_loop_answered (retries : nat) (net : nat -> attempt)
    (status : Z) (text : failure + page) :
  forall k remaining attempt,
    (forall j, j < k -> exists f, net (attempt + j) = Raised f) ->
    net (attempt + k) = Response status text ->
    attempt + k < retries ->
    exists tr,
      check_url_exists_loop retries net attempt (k + S remaining) = (Some status, tr)
      /\ requests tr = S k
      /\ backoffs tr = repeat RETRY_DELAY k.
Proof.
  induction k as [|k IH]; intros rem a Hr Hk Hlt.
  - rewrite Nat.add_0_r in Hk. cbn [Nat.add check_url_exists_loop]. rewrite Hk.
    eexists. split; [reflexivity|]. split; reflexivity.
  - destruct (IH rem (S a)) as (tr & E & R & B).
    { intros j Hj. replace (S a + j) with (a + S j) by lia. apply Hr. lia. }
    { replace (S a + k) with (a + S k) by lia. exact Hk. }
    { lia. }
    destruct (Hr 0) as (f & Hf); [lia|]. rewrite Nat.add_0_r in Hf.
    cbn [Nat.add check_url_exists_loop]. rewrite Hf, E.
    assert (L : (S a <? retries) = true) by (apply Nat.ltb_lt; lia).
    rewrite L. eexists. split; [reflexivity|]. split.
    + rewrite requests_cons_request. f_equal. exact R.
    + cbn. f_equal. exact B.
Qed.

Lemma check_url_exists_loop_gives_up (retries : nat) (net : nat -> attempt) :
  forall remaining attempt,
    (forall j, j < remaining -> exists f, net (attempt + j) = Raised f) ->
    attempt + remaining = retries ->
    exists tr,
      check_url_exists_loop retries net attempt remaining = (None, tr)
      /\ requests tr = remaining
      /\ backoffs tr = repeat RETRY_DELAY (remaining - 1).
Proof.
  induction remaining as [|rem IH]; intros a Hr Hs.
  - eexists. split; [reflexivity|]. split; reflexivity.
  - destruct (IH (S a)) as (tr & E & R & B).
    { intros j Hj. replace (S a + j) with (a + S j) by lia. apply Hr. lia. }
    { lia. }
    destruct (Hr 0) as (f & Hf); [lia|]. rewrite Nat.add_0_r in Hf.
    cbn [check_url_exists_loop]. rewrite Hf, E.
    eexists. split; [reflexivity|]. split.
    + rewrite requests_cons_request, requests_backoff. f_equal. exact R.
    + cbn [backoffs]. rewrite backoffs_app, B.
      destruct rem as [|rem].
      * assert (L : (S a <? retries) = false) by (apply Nat.ltb_ge; lia).
        rewrite L. reflexivity.
      * assert (L : (S a <? retries) = true) by (apply Nat.ltb_lt; lia).
        rewrite L. cbn. rewrite Nat.sub_0_r. reflexivity.
Qed.

(** X14.  The probe reports the first response it gets, whatever its
    status: when the first [k] attempts raise and attempt [k], one of the
    [retries] allowed, is answered, [check_url_exists] returns the status of
    that answer after [k + 1] requests and [k] sleeps of [RETRY_DELAY]
    seconds.  A 429 or a 5xx is returned like any other status and is not
    tried again. *)
Theorem probe_reports_first_response
    (retries : nat) (net : nat -> attempt) (k : nat) (status : Z)
    (text : failure + page) :
  k < retries ->
  all_raise k net = true ->
  net k = Response status text ->
  exists tr,
    check_url_exists_n retries net = (Some status, tr)
    /\ requests tr = S k
    /\ backoffs tr = repeat RETRY_DELAY k.
Proof.
  intros Hk Hr Hn. unfold check_url_exists_n.
  pose proof (check_url_exists_loop_answered retries net status text k
                (retries - S k) 0) as H.
  replace (k + S (retries - S k)) with retries in H by lia.
  apply H.
  - intros j Hj. apply (all_raise_at k net j Hr Hj).
  - exact Hn.
  - exact Hk.
Qed.

Lemma probe_reports_first_response_witness :
  exists tr,
    check_url_exists_n 3 timeout_then_503 = (Some 503%Z, tr)
    /\ requests tr = 2
    /\ backoffs tr = repeat RETRY_DELAY 1.
Proof.
  apply (probe_reports_first_response 3 timeout_then_503 1 503%Z (inr blank_page)).
  - lia.
  - reflexivity.
  - reflexivity.
Defined.



End ProbeExtras.


(** ** Extraction *)

Section ExtractionExtras.
Import PyStr Pattern Soup Urllib StaffScraper Samples.
Local Open Scope string_scope.

Lemma rstrip_by_cons (p : ascii -> bool) (c : ascii) (s : string) :
  rstrip_by p s <> "" -> rstrip_by p (String c s) = String c (rstrip_by p s).
Proof.
  intros H. cbn [rstrip_by]. destruct (rstrip_by p s); [contradiction | reflexivity].
Qed.

Lemma rstrip_by_idem (p : ascii -> bool) (s : string) :
  rstrip_by p (rstrip_by p s) = rstrip_by p s.
Proof.
  induction s as [|c s IH]; cbn [rstrip_by]; [reflexivity|].
  destruct (rstrip_by p s) as [|d r] eqn:E.
  - destruct (p c) eqn:Ec; cbn [rstrip_by]; [reflexivity|]. rewrite Ec. reflexivity.
  - rewrite rstrip_by_cons; rewrite IH; [reflexivity | discriminate].
Qed.

Lemma rstrip_by_head (p : ascii -> bool) (c : ascii) (s : string) :
  p c = false -> rstrip_by p (String c s) = String c (rstrip_by p s).
Proof.
  intros H. cbn [rstrip_by]. destruct (rstrip_by p s); [rewrite H|]; reflexivity.
Qed.

Lemma lstrip_by_head (p : ascii -> bool) (s : string) :
  lstrip_by p s = "" \/ exists c t, lstrip_by p s = String c t /\ p c = false.
Proof.
  induction s as [|c s IH]; cbn [lstrip_by]; [left; reflexivity|].
  destruct (p c) eqn:E; [exact IH|]. right. exists c, s. split; [reflexivity | exact E].
Qed.

Lemma lstrip_by_length (p : ascii -> bool) (s : string) :
  (String.length (lstrip_by p s) <= String.length s)%nat.
Proof.
  induction s as [|c s IH]; cbn [lstrip_by String.length]; [lia|].
  destruct (p c); cbn [String.length]; lia.
Qed.

Lemma rstrip_by_length (p : ascii -> bool) (s : string) :
  (String.length (rstrip_by p s) <= String.length s)%nat.
Proof.
  induction s as [|c s IH]; cbn [rstrip_by String.length]; [lia|].
  destruct (rstrip_by p s); [destruct (p c)|]; cbn [String.length] in *; lia.
Qed.

(** A string that [strip] leaves alone is empty or starts with a character
    that is not a space, and [rstrip_by] leaves it alone too. *)
Lemma strip_fixed (s : string) :
  strip s = s ->
  rstrip_by isspace s = s
  /\ (s = "" \/ exists c t, s = String c t /\ isspace c = false).
Proof.
  intros H. destruct s as [|c t]; [split; [reflexivity | left; reflexivity]|].
  destruct (isspace c) eqn:E.
  - exfalso. unfold strip in H. cbn [lstrip_by] in H. rewrite E in H.
    pose proof (rstrip_by_length isspace (lstrip_by isspace t)) as L1.
    pose proof (lstrip_by_length isspace t) as L2.
    rewrite H in L1. cbn [String.length] in L1. lia.
  - split; [|right; exists c, t; split; [reflexivity | exact E]].
    unfold strip in H. cbn [lstrip_by] in H. rewrite E in H. exact H.
Qed.

Lemma strip_idem (s : string) : strip (strip s) = strip s.
Proof.
  unfold strip.
  destruct (lstrip_by_head isspace s) as [E | (c & t & E & Hc)]; rewrite E;
    [reflexivity|].
  rewrite (rstrip_by_head isspace c t Hc). cbn [lstrip_by]. rewrite Hc.
  rewrite (rstrip_by_head isspace c _ Hc), rstrip_by_idem. reflexivity.
Qed.

Lemma strip_app (a b : string) :
  strip a = a -> a <> "" -> strip b = b -> strip (a ++ b) = a ++ b.
Proof.
  intros Ha Hn Hb.
  destruct (strip_fixed a Ha) as [Ra [-> | (c & t & -> & Hc)]]; [contradiction|].
  unfold strip. cbn [append lstrip_by]. rewrite Hc.
  change (String c (t ++ b)) with (String c t ++ b).
  destruct (strip_fixed b Hb) as [Rb [-> | (d & u & -> & Hd)]].
  - rewrite append_nil_r. exact Ra.
  - apply rstrip_by_app_keep; [exact Rb | reflexivity].
Qed.

Lemma strip_join (l : list string) :
  Forall (fun x => strip x = x /\ x <> "") l -> strip (join "" l) = join "" l.
Proof.
  induction l as [|x l IH]; intros H; [reflexivity|].
  inversion H as [|? ? [Hx Hn] Hl]; subst.
  destruct l as [|y l]; [exact Hx|].
  change (join "" (x :: y :: l)) with (x ++ join "" (y :: l)).
  apply strip_app; [exact Hx | exact Hn | apply IH, Hl].
Qed.

Lemma stripped_strings_trimmed (n : node) :
  Forall (fun x => strip x = x /\ x <> "") (stripped_strings n).
Proof.
  unfold stripped_strings. apply Forall_flat_map, Forall_forall.
  intros d _. destruct d as [s|]; [|constructor].
  destruct (strip s) eqn:E; cbn [truthy]; constructor; [|constructor].
  split; [|discriminate]. rewrite <- E. apply strip_idem.
Qed.

Lemma nonblank_lines_trimmed (text : string) :
  Forall (fun x => strip x = x) (nonblank_lines text).
Proof.
  unfold nonblank_lines. apply Forall_map, Forall_forall.
  intros x _. apply strip_idem.
Qed.

Lemma scan_lines_trimmed (lines : list string) :
  forall t p,
    strip t = t -> strip p = p ->
    strip (fst (scan_lines lines t p)) = fst (scan_lines lines t p)
    /\ strip (snd (scan_lines lines t p)) = snd (scan_lines lines t p).
Proof.
  induction lines as [|line rest IH]; intros t p Ht Hp; cbn [scan_lines].
  - split; assumption.
  - destruct (startswith (lower line) "title:").
    { apply IH; [apply strip_idem | exact Hp]. }
    destruct (startswith (lower line) "phone:"); [|apply IH; assumption].
    destruct rest as [|next rest'].
    + apply IH; [exact Ht | apply strip_idem].
    + destruct (truthy (strip (drop 6 line))); apply IH;
        first [exact Ht | apply strip_idem].
Qed.

(** X16.  The name, department, title and phone of an extraction carry no
    leading or trailing whitespace: [strip] leaves each of them as it
    is. *)
Theorem extracted_fields_are_stripped (pg : page) (u : string) (si : staff_info) :
  extract_staff_info pg u = Some si ->
  strip (person si) = person si
  /\ strip (department si) = department si
  /\ strip (title si) = title si
  /\ strip (phone si) = phone si.
Proof.
  unfold extract_staff_info. destruct (soup pg) as [doc|]; [|discriminate].
  assert (Hperson : strip (extract_person doc) = extract_person doc).
  { unfold extract_person. destruct (bio_name_elem doc) as [e|]; [|reflexivity].
    apply strip_join, stripped_strings_trimmed. }
  destruct (bio_text_elem doc) as [bio|].
  - pose proof (nonblank_lines_trimmed (get_text (String (ascii_of_nat 10) "") bio)) as Hl.
    pose proof (scan_lines_trimmed (nonblank_lines (get_text (String (ascii_of_nat 10) "") bio))
                  "" "" eq_refl eq_refl) as [Ht Hp].
    destruct (scan_lines _ "" "") as [t p]. cbn [fst snd] in Ht, Hp.
    intros [= <-]. cbn [person department title phone].
    split; [exact Hperson|]. split; [|split; assumption].
    set (i := match nonblank_lines _ with [] => 0%nat | _ => _ end). clearbody i.
    revert i. induction Hl as [|x l Hx Hl IH]; intros [|i]; cbn [nth];
      first [reflexivity | exact Hx | apply IH].
  - intros [= <-]. cbn [person department title phone].
    split; [exact Hperson|]. repeat split.
Qed.

Lemma extracted_fields_are_stripped_witness :
  strip (person jane_info) = person jane_info
  /\ strip (department jane_info) = department jane_info
  /\ strip (title jane_info) = title jane_info
  /\ strip (phone jane_info) = phone jane_info.
Proof.
  apply (extracted_fields_are_stripped jane_page (Samples.eid_base ++ "42") jane_info).
  vm_compute. reflexivity.
Defined.

(** *** [extract_email_from_javascript] *)

Lemma run_group (s : string) :
  all_chars (fun c => negb (is_quote c)) (fst (run s)) = true.
Proof.
  induction s as [|c s IH]; cbn [run]; [reflexivity|].
  destruct (is_quote c) eqn:E; [reflexivity|].
  destruct (run s) as [r rest]. cbn [fst all_chars] in *. rewrite E, IH. reflexivity.
Qed.

Lemma quoted_group (s g rest : string) :
  quoted s = Some (g, rest) ->
  g <> "" /\ all_chars (fun c => negb (is_quote c)) g = true.
Proof.
  unfold quoted. destruct (quote s) as [s1|]; [|discriminate].
  pose proof (run_group s1) as H. destruct (run s1) as [[|c r] s2]; [discriminate|].
  destruct (quote s2); [|discriminate]. intros [= <- _].
  split; [discriminate | exact H].
Qed.

Lemma search_var_assign_group (name s g : string) :
  search_var_assign name s = Some g ->
  g <> "" /\ all_chars (fun c => negb (is_quote c)) g = true.
Proof.
  assert (A : forall t, var_assign_at name t = Some g ->
                g <> "" /\ all_chars (fun c => negb (is_quote c)) g = true).
  { intros t. unfold var_assign_at.
    destruct (literal true "var" t) as [s1|]; [|discriminate].
    destruct (spaces1 s1) as [s2|]; [|discriminate].
    destruct (literal true name s2) as [s3|]; [|discriminate].
    destruct (literal true "=" (spaces s3)) as [s4|]; [|discriminate].
    destruct (quoted (spaces s4)) as [[g' rest]|] eqn:E; [|discriminate].
    intros [= <-]. eapply quoted_group, E. }
  induction s as [|c s IH]; cbn [search_var_assign].
  - destruct (var_assign_at name "") eqn:E; [|discriminate].
    intros [= ->]. apply (A _ E).
  - destruct (var_assign_at name (String c s)) eqn:E.
    + intros [= ->]. apply (A _ E).
    + exact IH.
Qed.

Lemma search_email_construct_groups (s g1 g2 : string) :
  search_email_construct s = Some (g1, g2) ->
  (g1 <> "" /\ all_chars (fun c => negb (is_quote c)) g1 = true)
  /\ (g2 <> "" /\ all_chars (fun c => negb (is_quote c)) g2 = true).
Proof.
  assert (A : forall t, email_construct_at t = Some (g1, g2) ->
                (g1 <> "" /\ all_chars (fun c => negb (is_quote c)) g1 = true)
                /\ (g2 <> "" /\ all_chars (fun c => negb (is_quote c)) g2 = true)).
  { intros t. unfold email_construct_at.
    destruct (quoted t) as [[a s1]|] eqn:E1; [|discriminate].
    destruct (literal false "+" (spaces s1)) as [s2|]; [|discriminate].
    destruct (quote (spaces s2)) as [s3|]; [|discriminate].
    destruct (literal false "@" s3) as [s4|]; [|discriminate].
    destruct (quote s4) as [s5|]; [|discriminate].
    destruct (literal false "+" (spaces s5)) as [s6|]; [|discriminate].
    destruct (quoted (spaces s6)) as [[b rest]|] eqn:E2; [|discriminate].
    intros [= <- <-]. split; [eapply quoted_group, E1 | eapply quoted_group, E2]. }
  induction s as [|c s IH]; cbn [search_email_construct].
  - destruct (email_construct_at "") eqn:E; [|discriminate].
    intros [= ->]. apply (A _ E).
  - destruct (email_construct_at (String c s)) eqn:E.
    + intros [= ->]. apply (A _ E).
    + exact IH.
Qed.

(** X17.  [extract_email_from_javascript] never returns half an address:
    its result is either empty or a user part, an at sign and a domain
    part, where both parts are non-empty and hold no quote character. *)
Theorem javascript_email_is_whole_or_empty (html : string) :
  extract_email_from_javascript html = ""
  \/ exists username domain,
       extract_email_from_javascript html = username ++ "@" ++ domain
       /\ username <> "" /\ domain <> ""
       /\ all_chars (fun c => negb (is_quote c)) username = true
       /\ all_chars (fun c => negb (is_quote c)) domain = true.
Proof.
  unfold extract_email_from_javascript.
  assert (C : match search_email_construct html with
              | Some (username, domain) => username ++ "@" ++ domain
              | None => ""
              end = ""
              \/ exists username domain,
                   match search_email_construct html with
                   | Some (username, domain) => username ++ "@" ++ domain
                   | None => ""
                   end = username ++ "@" ++ domain
                   /\ username <> "" /\ domain <> ""
                   /\ all_chars (fun c => negb (is_quote c)) username = true
                   /\ all_chars (fun c => negb (is_quote c)) domain = true).
  { destruct (search_email_construct html) as [[a b]|] eqn:E; [|left; reflexivity].
    destruct (search_email_construct_groups html a b E) as [[Ha1 Ha2] [Hb1 Hb2]].
    right. exists a, b. repeat split; assumption. }
  destruct (search_var_assign "wsd" html) as [a|] eqn:Ea; [|exact C].
  destruct (search_var_assign "xsd" html) as [b|] eqn:Eb; [|exact C].
  destruct (search_var_assign_group "wsd" html a Ea) as [Ha1 Ha2].
  destruct (search_var_assign_group "xsd" html b Eb) as [Hb1 Hb2].
  right. exists a, b. repeat split; assumption.
Qed.

End ExtractionExtras.


(** ** [civicplus_scraper.py] as a whole *)

Section CivicPlusExtras.
Import PyNum PyStr Soup Net Samples CivicPlus CivicPlusRun.
Local Open Scope string_scope.

Lemma run_tasks_results get_of scrape organization :
  forall urls self self',
    fst (run_tasks get_of scrape organization urls self)
    = fst (run_tasks get_of scrape organization urls self').
Proof.
  induction urls as [|u urls IH]; intros self self'; cbn [run_tasks]; [reflexivity|].
  pose proof (fetch_with_retry_result (get_of u) self self') as Hr.
  destruct (fetch_with_retry (get_of u) self) as [[response self1] tr].
  destruct (fetch_with_retry (get_of u) self') as [[response' self1'] tr'].
  cbn [fst] in Hr. subst response'.
  specialize (IH self1 self1').
  destruct (run_tasks get_of scrape organization urls self1) as [results self2].
  destruct (run_tasks get_of scrape organization urls self1') as [results' self2'].
  cbn [fst] in IH |- *. rewrite IH. reflexivity.
Qed.

Lemma scrape_municipality_results get_of shutdown municipality state website self self' :
  fst (scrape_municipality get_of shutdown municipality state website self)
  = fst (scrape_municipality get_of shutdown municipality state website self').
Proof.
  unfold scrape_municipality. destruct shutdown; [reflexivity|].
  pose proof (run_tasks_results get_of scrape_department (municipality ++ ", " ++ state)
                (map (department_url website) (range 1 100)) self self') as Hd.
  destruct (run_tasks get_of scrape_department _ _ self) as [depts self1].
  destruct (run_tasks get_of scrape_department _ _ self') as [depts' self1'].
  pose proof (run_tasks_results get_of scrape_staff (municipality ++ ", " ++ state)
                (map (staff_url website) (range 1 1000)) self1 self1') as Hs.
  destruct (run_tasks get_of scrape_staff _ _ self1) as [staff self2].
  destruct (run_tasks get_of scrape_staff _ _ self1') as [staff' self2'].
  cbn [fst] in *. rewrite Hd, Hs. reflexivity.
Qed.

Lemma write_results_batch_append results file :
  write_results_batch results file false = (file ++ map row_of results)%list.
Proof.
  unfold write_results_batch. destruct results; [|reflexivity].
  cbn [map]. rewrite app_nil_r. reflexivity.
Qed.

(** The file and the buffer, taken together, through the loop of [main]. *)
Lemma main_loop_file get_of :
  forall municipalities results_buffer file scraper,
    (snd (fst (main_loop get_of false municipalities results_buffer file scraper))
     ++ map row_of
          (fst (fst (main_loop get_of false municipalities results_buffer file scraper))))%list
    = (file ++ map row_of results_buffer
       ++ map row_of
            (flat_map (fun muni =>
                         fst (scrape_municipality get_of false (fst (fst muni))
                                (snd (fst muni)) (snd muni) fresh_scraper))
                      municipalities))%list.
Proof.
  induction municipalities as [|[[municipality state] website] rest IH];
    intros buffer file scraper; cbn [main_loop flat_map fst snd].
  - cbn [map]. rewrite app_nil_r. reflexivity.
  - rewrite (scrape_municipality_results get_of false municipality state website
               fresh_scraper scraper).
    destruct (scrape_municipality get_of false municipality state website scraper)
      as [results scraper1].
    cbn [fst].
    destruct (BATCH_SIZE <=? List.length (buffer ++ results))%nat.
    + rewrite IH, write_results_batch_append. cbn [map app].
      rewrite !map_app, <- !app_assoc. reflexivity.
    + rewrite IH. rewrite !map_app, <- !app_assoc. reflexivity.
Qed.

(** X18.  When no shutdown is requested, the output file of
    [civicplus_scraper.main] holds exactly the rows of the results of every
    municipality, each once, in the order of the input and of the pages,
    wherever the batches of [BATCH_SIZE] fall; the results of a
    municipality do not depend on the counters of the scraper. *)
Theorem civicplus_file_holds_every_result
    (get_of : string -> nat -> attempt)
    (municipalities : list (string * string * string)) :
  main get_of false municipalities
  = map row_of
      (flat_map (fun muni =>
                   fst (scrape_municipality get_of false (fst (fst muni))
                          (snd (fst muni)) (snd muni) fresh_scraper))
                municipalities)
  /\ (forall municipality state website self,
       fst (scrape_municipality get_of false municipality state website self)
       = fst (scrape_municipality get_of false municipality state website fresh_scraper)).
Proof.
  split.
  - unfold main. change (write_results_batch [] [] true) with (@nil row).
    pose proof (main_loop_file get_of municipalities [] []
                  {| total_processed := 0; total_errors := 0 |}) as H.
    destruct (main_loop get_of false municipalities [] []
                {| total_processed := 0; total_errors := 0 |}) as [[buffer file] scraper].
    cbn [fst snd map app] in H. rewrite <- H.
    destruct buffer as [|r buffer].
    + cbn [map]. rewrite app_nil_r. reflexivity.
    + apply write_results_batch_append.
  - intros municipality state website self. apply scrape_municipality_results.
Qed.

(** *** Counting errors *)

Lemma fetch_loop_flag (retries : nat) (net : nat -> attempt) :
  forall remaining attempt,
    snd (fst (fetch_loop retries net attempt remaining))
    = forallb (fun k => caught (net k)) (seq attempt remaining).
Proof.
  induction remaining as [|rem IH]; intros a; cbn [fetch_loop seq forallb]; [reflexivity|].
  specialize (IH (S a)).
  destruct (fetch_loop retries net (S a) rem) as [[r e] tr]. cbn [fst snd] in IH.
  destruct (net a) as [f | status [f | pg]]; cbn [caught].
  - exact IH.
  - destruct (status =? 404)%Z; [reflexivity | exact IH].
  - destruct (status =? 404)%Z; reflexivity.
Qed.

Lemma fetch_with_retry_counters (net : nat -> attempt) (self : CivicPlusScraper) :
  total_processed (snd (fst (fetch_with_retry net self))) = total_processed self
  /\ total_errors (snd (fst (fetch_with_retry net self)))
     = (total_errors self
        + if all_caught REQUEST_RETRY_ATTEMPTS net then 1 else 0)%Z.
Proof.
  unfold fetch_with_retry, fetch_with_retry_n, all_caught.
  pose proof (fetch_loop_flag REQUEST_RETRY_ATTEMPTS net REQUEST_RETRY_ATTEMPTS 0) as H.
  destruct (fetch_loop REQUEST_RETRY_ATTEMPTS net 0 REQUEST_RETRY_ATTEMPTS) as [[r e] tr].
  cbn [fst snd] in H |- *. rewrite <- H.
  destruct e; cbn [total_processed total_errors]; split; first [reflexivity | lia].
Qed.

Lemma run_tasks_counters get_of scrape organization :
  forall urls self,
    total_processed (snd (run_tasks get_of scrape organization urls self))
    = total_processed self
    /\ total_errors (snd (run_tasks get_of scrape organization urls self))
       = (total_errors self
          + Z.of_nat (List.length
                        (filter (fun u => all_caught REQUEST_RETRY_ATTEMPTS (get_of u))
                                urls)))%Z.
Proof.
  induction urls as [|u urls IH]; intros self; cbn [run_tasks filter].
  - cbn. split; [reflexivity | lia].
  - destruct (fetch_with_retry_counters (get_of u) self) as [Hp He].
    destruct (fetch_with_retry (get_of u) self) as [[response self1] tr].
    cbn [fst snd] in Hp, He.
    destruct (IH self1) as [Hp' He'].
    destruct (run_tasks get_of scrape organization urls self1) as [results self2].
    cbn [snd] in *. split; [congruence|].
    rewrite He', He.
    destruct (all_caught REQUEST_RETRY_ATTEMPTS (get_of u)); cbn [List.length]; lia.
Qed.

(** X19.  [total_errors] counts the pages that could not be fetched and
    nothing else: scraping a municipality adds to it the number of
    department and staff URLs on which all [REQUEST_RETRY_ATTEMPTS] attempts
    ended in an exception, and leaves [total_processed] alone.  A page
    answered 404 or with another status, or one that does not parse, adds
    nothing. *)
Theorem total_errors_counts_unfetched_pages
    (get_of : string -> nat -> attempt) (municipality state website : string)
    (self : CivicPlusScraper) :
  total_errors (snd (scrape_municipality get_of false municipality state website self))
  = (total_errors self
     + Z.of_nat (List.length
                   (filter (fun u => all_caught REQUEST_RETRY_ATTEMPTS (get_of u))
                           (map (department_url website) (range 1 100)
                            ++ map (staff_url website) (range 1 1000)))))%Z
  /\ total_processed (snd (scrape_municipality get_of false municipality state website self))
     = total_processed self.
Proof.
  unfold scrape_municipality.
  destruct (run_tasks_counters get_of scrape_department (municipality ++ ", " ++ state)
              (map (department_url website) (range 1 100)) self) as [Hp1 He1].
  destruct (run_tasks get_of scrape_department _ _ self) as [depts self1].
  destruct (run_tasks_counters get_of scrape_staff (municipality ++ ", " ++ state)
              (map (staff_url website) (range 1 1000)) self1) as [Hp2 He2].
  destruct (run_tasks get_of scrape_staff _ _ self1) as [staff self2].
  cbn [snd] in *. split; [|congruence].
  rewrite He2, He1, filter_app, length_app. lia.
Qed.

(** *** The fields of a result *)

Lemma get_text_stripped (n : node) : strip (get_text "" n) = get_text "" n.
Proof. apply strip_join, stripped_strings_trimmed. Qed.

Lemma civicplus_scan_lines_trimmed (lines : list string) :
  forall t p,
    strip t = t -> strip p = p ->
    strip (fst (scan_lines lines t p)) = fst (scan_lines lines t p)
    /\ strip (snd (scan_lines lines t p)) = snd (scan_lines lines t p).
Proof.
  induction lines as [|line rest IH]; intros t p Ht Hp; cbn [scan_lines].
  - split; assumption.
  - destruct (startswith (lower (strip line)) "title:").
    { apply IH; [apply strip_idem | exact Hp]. }
    destruct (startswith (lower (strip line)) "phone:"); apply IH;
      first [assumption | apply strip_idem].
Qed.

Lemma nth_stripped (l : list string) (i : nat) :
  strip (nth i (map strip l) "") = nth i (map strip l) "".
Proof.
  revert i. induction l as [|x l IH]; intros [|i]; cbn [map nth];
    first [reflexivity | apply strip_idem | apply IH].
Qed.

(** X20.  In every result of [scrape_department] and [scrape_staff] the
    person, department, title, phone and address carry no leading or
    trailing whitespace: [strip] leaves each of them as it is. *)
Theorem civicplus_fields_are_stripped
    (response : option (Z * page)) (u organization : string) (r : result) :
  scrape_department response u organization = Some r
  \/ scrape_staff response u organization = Some r ->
  strip (Person r) = Person r
  /\ strip (Department r) = Department r
  /\ strip (Title r) = Title r
  /\ strip (Phone r) = Phone r
  /\ strip (Address r) = Address r.
Proof.
  intros [H | H].
  - unfold scrape_department in H. destruct response as [[status html]|]; [|discriminate].
    destruct (negb _); [discriminate|].
    unfold parse_department_page in H. destruct (soup html) as [doc|]; [|discriminate].
    injection H as <-.
    cbn [Person Department Title Phone Address dept_department dept_phone dept_address].
    split; [reflexivity|]. split.
    { destruct (find (named "h1") doc); [apply get_text_stripped | reflexivity]. }
    split; [reflexivity|]. split.
    { destruct (select_p_nth_child_10 0 doc); [reflexivity | apply get_text_stripped]. }
    destruct (select_viewMap_next_p false doc); [reflexivity | apply get_text_stripped].
  - unfold scrape_staff in H. destruct response as [[status html]|]; [|discriminate].
    destruct (negb _); [discriminate|].
    unfold parse_staff_page in H. destruct (soup html) as [doc|]; [|discriminate].
    assert (Hperson : strip (match find (has_class "BioName") doc with
                             | Some e => get_text "" e
                             | None => ""
                             end)
                      = match find (has_class "BioName") doc with
                        | Some e => get_text "" e
                        | None => ""
                        end).
    { destruct (find (has_class "BioName") doc); [apply get_text_stripped | reflexivity]. }
    destruct (find (fun n => named "div" n && has_class "BioText" n) doc) as [bio|].
    + pose proof (civicplus_scan_lines_trimmed
                    (split newline (get_text (String newline "") bio)) "" ""
                    eq_refl eq_refl) as [Ht Hp].
      destruct (scan_lines _ "" "") as [t p]. cbn [fst snd] in Ht, Hp.
      injection H as <-.
      cbn [Person Department Title Phone Address person department title phone].
      split; [exact Hperson|]. split; [apply nth_stripped|].
      split; [exact Ht|]. split; [exact Hp | reflexivity].
    + injection H as <-.
      cbn [Person Department Title Phone Address person department title phone].
      split; [exact Hperson|]. repeat split.
Qed.

Lemma civicplus_fields_are_stripped_witness :
  strip "" = ""
  /\ strip "Parks" = "Parks"
  /\ strip "" = ""
  /\ strip "" = ""
  /\ strip "" = "".
Proof.
  apply (civicplus_fields_are_stripped (Some (200%Z, parks_page))
           "https://springfieldoh.example/Directory.aspx?DID=7" "Springfield, Ohio"
           {| Type_ := "Municipal Department"; Organization := "Springfield, Ohio";
              Person := ""; Department := "Parks"; Title := ""; Phone := ""; Email := "";
              Address := "";
              Note := "https://springfieldoh.example/Directory.aspx?DID=7" |}).
  left. vm_compute. reflexivity.
Defined.

End CivicPlusExtras.


(** ** Batching of the staff ids *)

Section BatchingExtras.
Import PyNum PyStr Soup Net StaffScraper StaffRun Samples.
Local Open Scope string_scope.

Lemma combine_map_self {A B : Type} (f : A -> B) (l : list A) :
  combine l (map f l) = map (fun x => (x, f x)) l.
Proof. induction l as [|x l IH]; cbn [map combine]; [|rewrite IH]; reflexivity. Qed.

Lemma probe_loop_app g l1 l2 :
  should_stop g = false ->
  probe_loop g (l1 ++ l2) = (probe_loop g l1 ++ probe_loop g l2)%list.
Proof.
  intros Hs. induction l1 as [|[[u eid] st] l1 IH]; cbn [app probe_loop]; [reflexivity|].
  rewrite Hs. destruct st as [status|]; [|exact IH].
  destruct (status =? 404)%Z; [exact IH|].
  destruct (status =? 200)%Z; [|exact IH].
  cbn [app]. rewrite IH. reflexivity.
Qed.

Lemma probe_loop_ext g g' l :
  should_stop g' = should_stop g -> probe_loop g' l = probe_loop g l.
Proof.
  intros Hs. induction l as [|[[u eid] st] l IH]; cbn [probe_loop]; [reflexivity|].
  rewrite Hs, IH. reflexivity.
Qed.

Lemma fetched_ext w eid_base eid_range g g' :
  should_stop g' = should_stop g ->
  fetched w eid_base eid_range g' = fetched w eid_base eid_range g.
Proof.
  intros Hs. unfold fetched, valid_urls_of.
  rewrite (probe_loop_ext g g' _ Hs). reflexivity.
Qed.

Lemma fetched_app w eid_base r1 r2 g :
  should_stop g = false ->
  fetched w eid_base (r1 ++ r2) g
  = (fetched w eid_base r1 g ++ fetched w eid_base r2 g)%list.
Proof.
  intros Hs. unfold fetched, valid_urls_of.
  rewrite !combine_map_self, !map_app, (probe_loop_app g _ _ Hs), map_app.
  reflexivity.
Qed.

Lemma extractions_app l1 l2 :
  extractions (l1 ++ l2) = (extractions l1 ++ extractions l2)%list.
Proof. unfold extractions. apply flat_map_app. Qed.

Lemma batches_loop_records w eid_base m s :
  forall batches records g,
    should_stop g = false ->
    fst (batches_loop w eid_base m s batches records g)
    = (records
       ++ map (record_of m s)
            (filter (fun si => truthy (person si))
                    (extractions (fetched w eid_base (List.concat batches) g))))%list.
Proof.
  induction batches as [|b batches IH]; intros records g Hs; cbn [batches_loop List.concat].
  - cbn. rewrite app_nil_r. reflexivity.
  - rewrite Hs. unfold process_eid_batch.
    destruct (content_loop_spec w m s (fetched w eid_base b g) [] g) as [Hr [_ Hs']].
    rewrite Hs in Hr. cbn [app] in Hr.
    destruct (content_loop w m s (fetched w eid_base b g) [] g) as [recs g'].
    cbn [fst snd] in Hr, Hs'. rewrite Hs in Hs'.
    rewrite (IH _ g' Hs'), (fetched_ext w eid_base _ g g' (eq_trans Hs' (eq_sym Hs))).
    rewrite (fetched_app w eid_base b _ g Hs), extractions_app, filter_app, map_app.
    rewrite Hr, <- app_assoc. reflexivity.
Qed.

(** X21.  Batching is transparent: unless a stop was requested, the
    records a municipality returns are those of the staff ids 1 to 999,
    every id taken once and in increasing order, as if the ids were
    processed in a single batch. *)
Theorem municipality_covers_ids_1_to_999
    (w : world) (municipality state website : string) (g : globals) :
  should_stop g = false ->
  fst (process_municipality w municipality state website g)
  = map (record_of municipality state)
        (filter (fun si => truthy (person si))
                (extractions (fetched w (eid_base_of website) (range 1 1000) g))).
Proof.
  intros Hs. unfold process_municipality.
  rewrite (batches_loop_records w (eid_base_of website) municipality state
             eid_batches [] g Hs).
  cbn [app]. replace (List.concat eid_batches) with (range 1 1000); [reflexivity|].
  vm_compute. reflexivity.
Qed.

Lemma municipality_covers_ids_1_to_999_witness :
  fst (process_municipality staff_site "Springfield" "Ohio" "springfieldoh.example" opened)
  = map (record_of "Springfield" "Ohio")
        (filter (fun si => truthy (person si))
                (extractions (fetched staff_site (eid_base_of "springfieldoh.example")
                                      (range 1 1000) opened))).
Proof.
  apply (municipality_covers_ids_1_to_999 staff_site "Springfield" "Ohio"
           "springfieldoh.example" opened).
  reflexivity.
Defined.

End BatchingExtras.


(** ** Retry delays *)

Section RetryDelays.
Import Soup Net Samples.
Local Open Scope nat_scope.

(** [fetch_with_retry]: the first [k] attempts end in an [except] clause
    and attempt [k] does not. *)
Lemma fetch_loop_delays_answered (retries : nat) (net : nat -> attempt) :
  forall k remaining attempt,
    (forall j, j < k -> CivicPlus.caught (net (attempt + j)) = true) ->
    CivicPlus.caught (net (attempt + k)) = false ->
    attempt + k < retries ->
    backoffs (snd (CivicPlus.fetch_loop retries net attempt (k + S remaining)))
    = map pow2 (seq attempt k).
Proof.
  induction k as [|k IH]; intros rem a Hc Hk Hlt.
  - rewrite Nat.add_0_r in Hk. cbn [Nat.add CivicPlus.fetch_loop].
    destruct (CivicPlus.fetch_loop retries net (S a) rem) as [[r e] tr].
    destruct (net a) as [f | status [f | pg]]; cbn [CivicPlus.caught] in Hk.
    + discriminate.
    + apply negb_false_iff in Hk. rewrite Hk. reflexivity.
    + destruct (status =? 404)%Z; reflexivity.
  - specialize (IH rem (S a)).
    assert (E : backoffs (snd (CivicPlus.fetch_loop retries net (S a) (k + S rem)))
                = map pow2 (seq (S a) k)).
    { apply IH.
      - intros j Hj. replace (S a + j) with (a + S j) by lia. apply Hc. lia.
      - replace (S a + k) with (a + S k) by lia. exact Hk.
      - lia. }
    specialize (Hc 0 (Nat.lt_0_succ _)). rewrite Nat.add_0_r in Hc.
    assert (L : (S a <? retries) = true) by (apply Nat.ltb_lt; lia).
    cbn [Nat.add CivicPlus.fetch_loop].
    destruct (CivicPlus.fetch_loop retries net (S a) (k + S rem)) as [[r e] tr].
    cbn [snd] in E. rewrite L.
    destruct (net a) as [f | status [f | pg]]; cbn [CivicPlus.caught] in Hc.
    + cbn [snd backoffs app seq map]. rewrite E. reflexivity.
    + apply negb_true_iff in Hc. rewrite Hc.
      cbn [snd backoffs app seq map]. rewrite E. reflexivity.
    + discriminate.
Qed.

(** [fetch_with_retry]: every attempt ends in an [except] clause. *)
Lemma fetch_loop_delays_exhausted (retries : nat) (net : nat -> attempt) :
  forall remaining attempt,
    (forall j, j < remaining -> CivicPlus.caught (net (attempt + j)) = true) ->
    attempt + remaining = retries ->
    backoffs (snd (CivicPlus.fetch_loop retries net attempt remaining))
    = map pow2 (seq attempt (remaining - 1)).
Proof.
  induction remaining as [|rem IH]; intros a Hc Hs; [reflexivity|].
  assert (E : backoffs (snd (CivicPlus.fetch_loop retries net (S a) rem))
              = map pow2 (seq (S a) (rem - 1))).
  { apply IH; [|lia].
    intros j Hj. replace (S a + j) with (a + S j) by lia. apply Hc. lia. }
  specialize (Hc 0 (Nat.lt_0_succ _)). rewrite Nat.add_0_r in Hc.
  cbn [CivicPlus.fetch_loop].
  destruct (CivicPlus.fetch_loop retries net (S a) rem) as [[r e] tr] eqn:El.
  cbn [snd] in E.
  assert (R : backoffs (Politeness CivicPlus.REQUEST_DELAY :: Request ::
                        (if S a <? retries then [Backoff (2 ^ Z.of_nat a)] else [])
                        ++ tr)
              = map pow2 (seq a (S rem - 1))).
  { cbn [backoffs]. rewrite backoffs_app, E. destruct rem as [|rem].
    - assert (L : (S a <? retries) = false) by (apply Nat.ltb_ge; lia).
      rewrite L. reflexivity.
    - assert (L : (S a <? retries) = true) by (apply Nat.ltb_lt; lia).
      rewrite L. cbn. rewrite Nat.sub_0_r. reflexivity. }
  destruct (net a) as [f | status [f | pg]]; cbn [CivicPlus.caught] in Hc.
  + exact R.
  + apply negb_true_iff in Hc. rewrite Hc. exact R.
  + discriminate.
Qed.

(** [fetch_content]: the first [k] attempts end in an [except] clause and
    attempt [k] does not. *)
Lemma fetch_content_loop_delays_answered (retries : nat) (net : nat -> attempt) :
  forall k remaining attempt,
    (forall j, j < k -> StaffScraper.caught_get (net (attempt + j)) = true) ->
    StaffScraper.caught_get (net (attempt + k)) = false ->
    attempt + k < retries ->
    backoffs (snd (StaffScraper.fetch_content_loop retries net attempt (k + S remaining)))
    = repeat StaffScraper.RETRY_DELAY k.
Proof.
  induction k as [|k IH]; intros rem a Hc Hk Hlt.
  - rewrite Nat.add_0_r in Hk. cbn [Nat.add StaffScraper.fetch_content_loop].
    destruct (StaffScraper.fetch_content_loop retries net (S a) rem) as [r tr].
    destruct (net a) as [f | status [f | pg]]; cbn [StaffScraper.caught_get] in Hk.
    + discriminate.
    + rewrite Hk. reflexivity.
    + destruct (status =? 200)%Z; reflexivity.
  - specialize (IH rem (S a)).
    assert (E : backoffs (snd (StaffScraper.fetch_content_loop retries net (S a)
                                 (k + S rem)))
                = repeat StaffScraper.RETRY_DELAY k).
    { apply IH.
      - intros j Hj. replace (S a + j) with (a + S j) by lia. apply Hc. lia.
      - replace (S a + k) with (a + S k) by lia. exact Hk.
      - lia. }
    specialize (Hc 0 (Nat.lt_0_succ _)). rewrite Nat.add_0_r in Hc.
    assert (L : (S a <? retries) = true) by (apply Nat.ltb_lt; lia).
    cbn [Nat.add StaffScraper.fetch_content_loop].
    destruct (StaffScraper.fetch_content_loop retries net (S a) (k + S rem)) as [r tr].
    cbn [snd] in E. rewrite L.
    destruct (net a) as [f | status [f | pg]]; cbn [StaffScraper.caught_get] in Hc.
    + cbn [snd backoffs app repeat]. rewrite E. reflexivity.
    + rewrite Hc. cbn [snd backoffs app repeat]. rewrite E. reflexivity.
    + discriminate.
Qed.

(** [fetch_content]: every attempt ends in an [except] clause. *)
Lemma fetch_content_loop_delays_exhausted (retries : nat) (net : nat -> attempt) :
  forall remaining attempt,
    (forall j, j < remaining -> StaffScraper.caught_get (net (attempt + j)) = true) ->
    attempt + remaining = retries ->
    backoffs (snd (StaffScraper.fetch_content_loop retries net attempt remaining))
    = repeat StaffScraper.RETRY_DELAY (remaining - 1).
Proof.
  induction remaining as [|rem IH]; intros a Hc Hs; [reflexivity|].
  assert (E : backoffs (snd (StaffScraper.fetch_content_loop retries net (S a) rem))
              = repeat StaffScraper.RETRY_DELAY (rem - 1)).
  { apply IH; [|lia].
    intros j Hj. replace (S a + j) with (a + S j) by lia. apply Hc. lia. }
  specialize (Hc 0 (Nat.lt_0_succ _)). rewrite Nat.add_0_r in Hc.
  cbn [StaffScraper.fetch_content_loop].
  destruct (StaffScraper.fetch_content_loop retries net (S a) rem) as [r tr] eqn:El.
  cbn [snd] in E.
  assert (R : backoffs (Request ::
                        (if S a <? retries then [Backoff StaffScraper.RETRY_DELAY] else [])
                        ++ tr)
              = repeat StaffScraper.RETRY_DELAY (S rem - 1)).
  { cbn [backoffs]. rewrite backoffs_app, E. destruct rem as [|rem].
    - assert (L : (S a <? retries) = false) by (apply Nat.ltb_ge; lia).
      rewrite L. reflexivity.
    - assert (L : (S a <? retries) = true) by (apply Nat.ltb_lt; lia).
      rewrite L. cbn. rewrite Nat.sub_0_r. reflexivity. }
  destruct (net a) as [f | status [f | pg]]; cbn [StaffScraper.caught_get] in Hc.
  + exact R.
  + rewrite Hc. exact R.
  + discriminate.
Qed.

(** Two equal delays or more do not double. *)
Lemma constant_delays_do_not_double (m : nat) :
  2 <= m -> doubling (repeat StaffScraper.RETRY_DELAY m) = false.
Proof.
  intros H. destruct m as [|[|m]]; [lia | lia | reflexivity].
Qed.

(** C6 (amended).  In the three functions a sleep follows every failed
    attempt but the last one allowed: when the first [k] attempts fail and
    attempt [k] does not, there are [k] sleeps, and when all [retries]
    attempts fail there are [retries - 1].  In [fetch_with_retry] the sleep
    after failed attempt [j] lasts [2 ** j]: the delays are
    [2 ** 0, 2 ** 1, ...], each twice the one before.  In
    [check_url_exists] and [fetch_content] every sleep lasts [RETRY_DELAY]:
    two delays or more never double.  In the three functions no delay is
    shorter than the one before. *)
Theorem retry_delays
    (retries : nat) (net : nat -> attempt) (self : CivicPlus.CivicPlusScraper) :
  ((forall k,
       k < retries ->
       (forall j, j < k -> CivicPlus.caught (net j) = true) ->
       CivicPlus.caught (net k) = false ->
       backoffs (snd (CivicPlus.fetch_with_retry_n retries net self))
       = map pow2 (seq 0 k))
   /\ ((forall j, j < retries -> CivicPlus.caught (net j) = true) ->
       backoffs (snd (CivicPlus.fetch_with_retry_n retries net self))
       = map pow2 (seq 0 (retries - 1)))
   /\ (exists m, m <= retries - 1
                 /\ backoffs (snd (CivicPlus.fetch_with_retry_n retries net self))
                    = map pow2 (seq 0 m))
   /\ doubling (backoffs (snd (CivicPlus.fetch_with_retry_n retries net self))) = true
   /\ nondecreasing (backoffs (snd (CivicPlus.fetch_with_retry_n retries net self)))
      = true)
  /\
  ((forall k status text,
       k < retries ->
       (forall j, j < k -> exists f, net j = Raised f) ->
       net k = Response status text ->
       backoffs (snd (StaffScraper.check_url_exists_n retries net))
       = repeat StaffScraper.RETRY_DELAY k)
   /\ ((forall j, j < retries -> exists f, net j = Raised f) ->
       backoffs (snd (StaffScraper.check_url_exists_n retries net))
       = repeat StaffScraper.RETRY_DELAY (retries - 1))
   /\ (exists m, m <= retries - 1
                 /\ backoffs (snd (StaffScraper.check_url_exists_n retries net))
                    = repeat StaffScraper.RETRY_DELAY m)
   /\ (2 <= List.length (backoffs (snd (StaffScraper.check_url_exists_n retries net))) ->
       doubling (backoffs (snd (StaffScraper.check_url_exists_n retries net))) = false)
   /\ nondecreasing (backoffs (snd (StaffScraper.check_url_exists_n retries net))) = true)
  /\
  ((forall k,
       k < retries ->
       (forall j, j < k -> StaffScraper.caught_get (net j) = true) ->
       StaffScraper.caught_get (net k) = false ->
       backoffs (snd (StaffScraper.fetch_content_n retries net))
       = repeat StaffScraper.RETRY_DELAY k)
   /\ ((forall j, j < retries -> StaffScraper.caught_get (net j) = true) ->
       backoffs (snd (StaffScraper.fetch_content_n retries net))
       = repeat StaffScraper.RETRY_DELAY (retries - 1))
   /\ (exists m, m <= retries - 1
                 /\ backoffs (snd (StaffScraper.fetch_content_n retries net))
                    = repeat StaffScraper.RETRY_DELAY m)
   /\ (2 <= List.length (backoffs (snd (StaffScraper.fetch_content_n retries net))) ->
       doubling (backoffs (snd (StaffScraper.fetch_content_n retries net))) = false)
   /\ nondecreasing (backoffs (snd (StaffScraper.fetch_content_n retries net))) = true).
Proof.
  assert (T : snd (CivicPlus.fetch_with_retry_n retries net self)
              = snd (CivicPlus.fetch_loop retries net 0 retries)).
  { unfold CivicPlus.fetch_with_retry_n.
    destruct (CivicPlus.fetch_loop retries net 0 retries) as [[r e] tr]. reflexivity. }
  rewrite T.
  unfold StaffScraper.check_url_exists_n, StaffScraper.fetch_content_n.
  assert (A : exists m, m <= retries - 1
                /\ backoffs (snd (CivicPlus.fetch_loop retries net 0 retries))
                   = map pow2 (seq 0 m)).
  { destruct (fetch_loop_backoffs retries net retries 0) as (m & E & Hm).
    exists m. split; [lia | exact E]. }
  assert (B : exists m, m <= retries - 1
                /\ backoffs (snd (StaffScraper.check_url_exists_loop retries net 0 retries))
                   = repeat StaffScraper.RETRY_DELAY m).
  { destruct (check_url_exists_loop_backoffs retries net retries 0) as (m & E & Hm).
    exists m. split; [lia | exact E]. }
  assert (C : exists m, m <= retries - 1
                /\ backoffs (snd (StaffScraper.fetch_content_loop retries net 0 retries))
                   = repeat StaffScraper.RETRY_DELAY m).
  { destruct (fetch_content_loop_backoffs retries net retries 0) as (m & E & Hm).
    exists m. split; [lia | exact E]. }
  split; [|split].
  - split; [|split; [|split; [exact A | split]]].
    + intros k Hk Hc Hn.
      pose proof (fetch_loop_delays_answered retries net k (retries - S k) 0) as H.
      replace (k + S (retries - S k)) with retries in H by lia.
      apply H; [exact Hc | exact Hn | exact Hk].
    + intros Hc. apply (fetch_loop_delays_exhausted retries net retries 0 Hc eq_refl).
    + destruct A as (m & _ & ->). apply doubling_pow2.
    + destruct A as (m & _ & ->). apply nondecreasing_pow2.
  - split; [|split; [|split; [exact B | split]]].
    + intros k status text Hk Hr Hn.
      pose proof (check_url_exists_loop_answered retries net status text k
                    (retries - S k) 0) as H.
      replace (k + S (retries - S k)) with retries in H by lia.
      destruct (H Hr Hn Hk) as (tr & E & _ & Hb). rewrite E. exact Hb.
    + intros Hr.
      destruct (check_url_exists_loop_gives_up retries net retries 0 Hr eq_refl)
        as (tr & E & _ & Hb).
      rewrite E. exact Hb.
    + destruct B as (m & _ & ->). rewrite repeat_length.
      apply constant_delays_do_not_double.
    + destruct B as (m & _ & ->). apply nondecreasing_repeat.
  - split; [|split; [|split; [exact C | split]]].
    + intros k Hk Hc Hn.
      pose proof (fetch_content_loop_delays_answered retries net k (retries - S k) 0) as H.
      replace (k + S (retries - S k)) with retries in H by lia.
      apply H; [exact Hc | exact Hn | exact Hk].
    + intros Hc.
      apply (fetch_content_loop_delays_exhausted retries net retries 0 Hc eq_refl).
    + destruct C as (m & _ & ->). rewrite repeat_length.
      apply constant_delays_do_not_double.
    + destruct C as (m & _ & ->). apply nondecreasing_repeat.
Qed.

(** On a network where every request times out, three attempts give the
    delays [2 ** 0, 2 ** 1] in [fetch_with_retry] and twice [RETRY_DELAY]
    in [check_url_exists] and in [fetch_content]. *)
Lemma retry_delays_witness :
  backoffs (snd (CivicPlus.fetch_with_retry_n 3 always_timeout fresh_scraper))
  = map pow2 (seq 0 2)
  /\ backoffs (snd (StaffScraper.check_url_exists_n 3 always_timeout))
     = repeat StaffScraper.RETRY_DELAY 2
  /\ backoffs (snd (StaffScraper.fetch_content_n 3 always_timeout))
     = repeat StaffScraper.RETRY_DELAY 2.
Proof.
  destruct (retry_delays 3 always_timeout fresh_scraper)
    as ((_ & F & _) & (_ & P & _) & (_ & G & _)).
  split; [|split].
  - apply F. intros j Hj. reflexivity.
  - apply P. intros j Hj. exists TimeoutError. reflexivity.
  - apply G. intros j Hj. reflexivity.
Defined.

(** C6 as stated fails: when every probe times out, [check_url_exists]
    sleeps [1] and then [1] again, and the second delay is not twice the
    first; [fetch_with_retry] sleeps [1] and then [2]. *)
Lemma probe_delay_does_not_double :
  backoffs (snd (StaffScraper.check_url_exists always_timeout)) = [1; 1]%Z
  /\ doubling (backoffs (snd (StaffScraper.check_url_exists always_timeout))) = false
  /\ backoffs (snd (StaffScraper.fetch_content always_timeout)) = [1; 1]%Z
  /\ backoffs (snd (CivicPlus.fetch_with_retry always_timeout fresh_scraper)) = [1; 2]%Z.
Proof. repeat split. Qed.

End RetryDelays.


